(** * EDGAR server-log processor: a shallow embedding of
      [src/edgar_logs_processor.py] and the properties of its three stages.

    Text is modelled as [string] (the log and index files are byte text,
    read as ASCII / latin-1), a missing cell (pandas [NaN]) as [None],
    numeric cells that hold integral values as [Z], a data frame as the
    list of its rows in row order. *)

From Stdlib Require Import ZArith List Bool Ascii String Lia Permutation.
From Stdlib Require Import Numbers.DecimalString Numbers.DecimalZ.
From Stdlib Require Import Sorting.Sorted.
Import ListNotations.

Local Open Scope string_scope.
Local Open Scope Z_scope.

(* ================================================================== *)
(** ** Python string primitives used by the processor *)
(* ================================================================== *)

Module PyStr.

(** [s.split(sep)] for a one-character separator: always at least one
    piece, one more piece than there are separators. *)
Fixpoint split (sep : ascii) (s : string) : list string :=
  match s with
  | EmptyString => [EmptyString]
  | String c s' =>
      if Ascii.eqb c sep then EmptyString :: split sep s'
      else match split sep s' with
           | w :: ws => String c w :: ws
           | [] => [String c EmptyString]
           end
  end.

(** [pieces[0]] and [pieces[-1]] on the result of a split. *)
Definition first (pieces : list string) : string := hd EmptyString pieces.
Definition final (pieces : list string) : string := last pieces EmptyString.

(** [s.replace(old, '')] for a one-character [old]. *)
Fixpoint remove_char (old : ascii) (s : string) : string :=
  match s with
  | EmptyString => EmptyString
  | String c s' =>
      if Ascii.eqb c old then remove_char old s'
      else String c (remove_char old s')
  end.

(** [s[:-2]]: everything but the last two characters, empty when the
    string has two characters or fewer. *)
Definition drop_last2 (s : string) : string :=
  substring 0 (String.length s - 2) s.

Definition lower_char (c : ascii) : ascii :=
  let n := nat_of_ascii c in
  if andb (Nat.leb 65 n) (Nat.leb n 90) then ascii_of_nat (n + 32) else c.

(** [s.lower()] on ASCII text. *)
Fixpoint lower (s : string) : string :=
  match s with
  | EmptyString => EmptyString
  | String c s' => String (lower_char c) (lower s')
  end.

(** [s.startswith(p)]. *)
Definition startswith (s p : string) : bool := String.prefix p s.

Definition is_digit (c : ascii) : bool :=
  let n := nat_of_ascii c in andb (Nat.leb 48 n) (Nat.leb n 57).

Fixpoint all_chars (p : ascii -> bool) (s : string) : bool :=
  match s with
  | EmptyString => true
  | String c s' => andb (p c) (all_chars p s')
  end.

(** [c.isdigit()] on text decoded as latin-1: the ten ASCII digits and
    the superscripts two, three and one (code points 178, 179, 185). *)
Definition isdigit_char (c : ascii) : bool :=
  let n := nat_of_ascii c in
  is_digit c || Nat.eqb n 178 || Nat.eqb n 179 || Nat.eqb n 185.

(** [s.isdigit()]: non-empty and every character a digit. *)
Definition isdigit (s : string) : bool :=
  match s with
  | EmptyString => false
  | _ => all_chars isdigit_char s
  end.

(** [s.endswith(p)]: [s] is [p] or the rest of [s] ends with [p]. *)
Fixpoint endswith (s p : string) : bool :=
  if String.eqb s p then true
  else match s with
       | EmptyString => false
       | String _ s' => endswith s' p
       end.

(** [str(i)] for a Python [int]. *)
Definition str_int (i : Z) : string := NilZero.string_of_int (Z.to_int i).

(** [str(x)] for a cell that holds text or is missing ([NaN]). *)
Definition str_cell (x : option string) : string :=
  match x with
  | Some s => s
  | None => "nan"
  end.

(** [re.sub(r'\.0$', '', s)]: [$] matches at the very end and also just
    before a newline that ends the string, so at most one match exists. *)
Definition strip_dot0 (s : string) : string :=
  let n := String.length s in
  if endswith s ".0" then substring 0 (n - 2) s
  else if endswith s (String "." (String "0" (String "010" EmptyString)))
       then substring 0 (n - 3) s ++ String "010" EmptyString
       else s.

(** [sep not in s]. *)
Definition lacks (sep : ascii) (s : string) : bool :=
  all_chars (fun c => negb (Ascii.eqb c sep)) s.

End PyStr.

(* ================================================================== *)
(** ** Join keys (lines 249 and 292-295) *)
(* ================================================================== *)

(** Index side, line 249: [str(x).split('.')[0]] on the [Filename] cell. *)
Definition acc_path_of_index (filename : option string) : string :=
  PyStr.first (PyStr.split "." (PyStr.str_cell filename)).

(** Log side, lines 292-295: the accession loses a trailing [.0], the
    filer id is an [int], and the key is
    [f"edgar/data/{cik}/{accession.replace('-', '')}"]. *)
Definition normalize_accession (accession : string) : string :=
  PyStr.strip_dot0 accession.

Definition log_key (cik : Z) (accession : string) : string :=
  "edgar/data/" ++ PyStr.str_int cik ++ "/" ++ PyStr.remove_char "-" accession.

Definition acc_path_of_log (cik : Z) (accession : string) : string :=
  log_key cik (normalize_accession accession).






(* ================================================================== *)
(** ** Shared frame operations *)
(* ================================================================== *)

(** A call either returns a value or lets an exception escape. *)
Inductive outcome (A : Type) : Type :=
| Returned (a : A)
| Raised.
Arguments Returned {A} a.
Arguments Raised {A}.

Module Frame.

Section Generic.
Context {A : Type}.

(** [df.drop_duplicates()]: the first of equal rows stays. *)
Fixpoint drop_duplicates_from (eqb : A -> A -> bool) (seen l : list A)
  : list A :=
  match l with
  | [] => []
  | x :: t =>
      if existsb (eqb x) seen then drop_duplicates_from eqb seen t
      else x :: drop_duplicates_from eqb (x :: seen) t
  end.

Definition drop_duplicates (eqb : A -> A -> bool) (l : list A) : list A :=
  drop_duplicates_from eqb [] l.

(** Stable sort by a key order: an earlier row stays ahead of the
    later rows that are not smaller. *)
Fixpoint insert_sorted (leb : A -> A -> bool) (x : A) (l : list A)
  : list A :=
  match l with
  | [] => [x]
  | y :: t => if leb x y then x :: y :: t else y :: insert_sorted leb x t
  end.

Definition sort_values (leb : A -> A -> bool) (l : list A) : list A :=
  fold_right (fun x acc => insert_sorted leb x acc) [] l.
End Generic.

Definition isna {A : Type} (x : option A) : bool :=
  match x with
  | Some _ => false
  | None => true
  end.

Definition notna {A : Type} (x : option A) : bool := negb (isna x).

Definition opt_eqb {A : Type} (eqb : A -> A -> bool) (x y : option A) : bool :=
  match x, y with
  | Some a, Some b => eqb a b
  | None, None => true
  | _, _ => false
  end.

End Frame.

(* ================================================================== *)
(** ** IpFilter: [_load_target_ip_prefixes] (lines 42-60) *)
(* ================================================================== *)

Module IpFilter.

(** What [pd.read_csv] gives for a path: an exception, or a frame as its
    columns in order, each cell by its text ([None] for [NaN]). *)
Inductive read_result : Type :=
| ReadRaises
| ReadFrame (columns : list (string * list (option string))).

(** The file system as the loader sees it. *)
Record Env : Type := mkEnv {
  path_exists : string -> bool;
  read_csv : string -> read_result
}.

Fixpoint column (name : string) (columns : list (string * list (option string)))
  : option (list (option string)) :=
  match columns with
  | [] => None
  | (n, cells) :: rest => if String.eqb n name then Some cells else column name rest
  end.

(** Line 55: [str(x).split('/')[0][:-2]]. *)
Definition netblock_prefix (x : option string) : string :=
  PyStr.drop_last2 (PyStr.first (PyStr.split "/" (PyStr.str_cell x))).

(** The body of the [try] (lines 50-57). *)
Definition load_try (env : Env) (path : string) : outcome (list string) :=
  match read_csv env path with
  | ReadRaises => Raised
  | ReadFrame columns =>
      match column "netblock" columns with
      | None => Returned []
      | Some cells => Returned (map netblock_prefix cells)
      end
  end.

(** [not self.target_ip_list_path]: [None] and [''] are falsy. *)
Definition path_given (path : option string) : option string :=
  match path with
  | Some EmptyString => None
  | other => other
  end.

Definition _load_target_ip_prefixes (env : Env) (target_ip_list_path : option string)
  : outcome (list string) :=
  match path_given target_ip_list_path with
  | None => Returned []
  | Some path =>
      if negb (path_exists env path) then Returned []
      else match load_try env path with
           | Raised => Returned []          (* except Exception *)
           | Returned prefixes => Returned prefixes
           end
  end.

(** Line 92: [any(str(x).startswith(prefix) for prefix in prefixes)]. *)
Definition target_ip_hit (prefixes : list string) (ip : option string) : bool :=
  existsb (fun prefix => PyStr.startswith (PyStr.str_cell ip) prefix) prefixes.

End IpFilter.

(* ================================================================== *)
(** ** LogRecordAggregator: [_process_log_file] (lines 75-126) *)
(* ================================================================== *)

(** One request of a raw daily log, with the columns the processor reads.
    The numeric columns hold integral values ([200.0], [1.0]) or [NaN]. *)
Module Raw.
Record row : Type := mk {
  ip : option string;
  date : option string;
  cik : option Z;
  accession : option string;
  extention : option string;
  code : option Z;
  idx : option Z;
  crawler : option Z
}.
End Raw.

(** A retained request after lines 102-108. *)
Module Cls.
Record row : Type := mk {
  date : option string;
  cik : option Z;
  accession : option string;
  extention : string;
  htm : Z;
  txt : Z;
  xbrl : Z;
  other : Z
}.
End Cls.

(** One line of a processed file (line 113). *)
Module Agg.
Record row : Type := mk {
  date : string;
  cik : Z;
  accession : string;
  nr_total : Z;
  htm : Z;
  txt : Z;
  xbrl : Z;
  other : Z
}.
End Agg.

Module LogAggregator.

(** [series == v] and [series < v] on a numeric column: a comparison
    with [NaN] is [False]. *)
Definition eq_num (x : option Z) (v : Z) : bool :=
  match x with
  | Some n => n =? v
  | None => false
  end.

Definition lt_num (x : option Z) (v : Z) : bool :=
  match x with
  | Some n => n <? v
  | None => false
  end.

(** Lines 81-83, one mask per line. *)
Definition mask_crawler (r : Raw.row) : bool := negb (eq_num (Raw.crawler r) 1).
Definition mask_idx (r : Raw.row) : bool := negb (eq_num (Raw.idx r) 1).
Definition mask_code (r : Raw.row) : bool := negb (lt_num (Raw.code r) 300).

Definition loc_mask (r : Raw.row) : bool :=
  mask_crawler r && mask_idx r && mask_code r.

(** Line 85: [dropna(subset=['cik', 'accession', 'date', 'ip'])]. *)
Definition dropna_subset (r : Raw.row) : bool :=
  Frame.notna (Raw.cik r) && Frame.notna (Raw.accession r)
    && Frame.notna (Raw.date r) && Frame.notna (Raw.ip r).

(** Lines 80-85. *)
Definition filter_logs (logs : list Raw.row) : list Raw.row :=
  filter dropna_subset (filter loc_mask logs).

(** Lines 91-93: skipped when the prefix list is empty (falsy). *)
Definition ip_filter (target_ip_prefixes : list string) (logs : list Raw.row)
  : list Raw.row :=
  match target_ip_prefixes with
  | [] => logs
  | _ => filter (fun r => IpFilter.target_ip_hit target_ip_prefixes (Raw.ip r)) logs
  end.

(** Line 103: [str(x).split('.')[-1].lower()]. *)
Definition file_type (extention : option string) : string :=
  PyStr.lower (PyStr.final (PyStr.split "." (PyStr.str_cell extention))).

(** [(cond).astype(int)]. *)
Definition as_int (b : bool) : Z := if b then 1 else 0.

Definition isin (x : string) (values : list string) : bool :=
  existsb (String.eqb x) values.

(** Lines 102-108. *)
Definition classify (r : Raw.row) : Cls.row :=
  let extention := file_type (Raw.extention r) in
  Cls.mk (Raw.date r) (Raw.cik r) (Raw.accession r) extention
    (as_int (String.eqb extention "htm"))
    (as_int (String.eqb extention "txt"))
    (as_int (String.eqb extention "xbrl"))
    (if isin extention ["htm"; "txt"; "xbrl"] then 0 else 1).

(** The group key [(date, cik, accession)]; [groupby] leaves out a row
    with a missing key part. *)
Definition key : Type := string * Z * string.

Definition group_key (r : Cls.row) : option key :=
  match Cls.date r, Cls.cik r, Cls.accession r with
  | Some d, Some k, Some a => Some (d, k, a)
  | _, _, _ => None
  end.

Definition key_eqb (x y : key) : bool :=
  let '(d1, k1, a1) := x in
  let '(d2, k2, a2) := y in
  String.eqb d1 d2 && (k1 =? k2) && String.eqb a1 a2.

Definition key_leb (x y : key) : bool :=
  let '(d1, k1, a1) := x in
  let '(d2, k2, a2) := y in
  match String.compare d1 d2 with
  | Lt => true
  | Gt => false
  | Eq => match k1 ?= k2 with
          | Lt => true
          | Gt => false
          | Eq => String.leb a1 a2
          end
  end.

Fixpoint keys_of (logs : list Cls.row) : list key :=
  match logs with
  | [] => []
  | r :: rest =>
      match group_key r with
      | Some k => k :: keys_of rest
      | None => keys_of rest
      end
  end.

Definition in_group (k : key) (r : Cls.row) : bool :=
  match group_key r with
  | Some k' => key_eqb k' k
  | None => false
  end.

Definition total (column : Cls.row -> Z) (logs : list Cls.row) : Z :=
  fold_right Z.add 0 (map column logs).

(** Lines 110-114: one row per key, keys in ascending order, the four
    indicator columns summed, then [nr_total] as their sum. *)
Definition group_row (logs : list Cls.row) (k : key) : Agg.row :=
  let '(d, c, a) := k in
  let members := filter (in_group k) logs in
  let htm := total Cls.htm members in
  let txt := total Cls.txt members in
  let xbrl := total Cls.xbrl members in
  let other := total Cls.other members in
  Agg.mk d c a (htm + txt + xbrl + other) htm txt xbrl other.

Definition groupby_sum (logs : list Cls.row) : list Agg.row :=
  map (group_row logs)
    (Frame.sort_values key_leb (Frame.drop_duplicates key_eqb (keys_of logs))).

Definition empty {A : Type} (df : list A) : bool :=
  match df with
  | [] => true
  | _ => false
  end.

(** [_process_log_file] on the parsed rows of one file: [None] when the
    function returns before writing, [Some] of the written rows. *)
Definition _process_log_file (target_ip_prefixes : list string)
    (logs : list Raw.row) : option (list Agg.row) :=
  let logs := filter_logs logs in
  if empty logs then None
  else
    let logs := ip_filter target_ip_prefixes logs in
    if empty logs then None
    else Some (groupby_sum (map classify logs)).

Definition agg_key (a : Agg.row) : key :=
  (Agg.date a, Agg.cik a, Agg.accession a).

End LogAggregator.

(* ================================================================== *)
(** ** MasterIndexBuilder: [run_master_index_download] (lines 180-257) *)
(* ================================================================== *)

(** One line of a quarterly [master.idx], read with [dtype=str]. *)
Module Idx.
Record row : Type := mk {
  CIK : option string;
  Form_Type : option string;
  Date_Filed : option string;
  Filename : option string
}.
End Idx.

(** One row of the finished index (line 250). *)
Module Entry.
Record row : Type := mk {
  Form_Type : option string;
  Date_Filed : option string;
  acc_path : string
}.
End Entry.

Module MasterIndexBuilder.

Inductive quarter : Type := QTR1 | QTR2 | QTR3 | QTR4.

(** Lines 196-215 on a downloaded file: the header scan or [read_csv]
    raises, an expected column is absent, or a table comes out. *)
Inductive parsed : Type :=
| ParseRaises
| ColumnsMissing
| Table (rows : list Idx.row).

(** One call of [_download_file] and what the file then holds. *)
Inductive fetched : Type :=
| DownloadFails
| Downloaded (file : parsed).

(** The archive as the builder meets it: what the attempt made with
    [retries = n] finds for a year and a quarter. *)
Definition World : Type := Z -> quarter -> nat -> fetched.

Inductive event : Type :=
| Fetch (year : Z) (q : quarter)
| Sleep (seconds : Z)
| Remove (year : Z) (q : quarter).

Record state : Type := mkState {
  trace : list event;
  all_index_dfs : list (list Idx.row)
}.

Definition emit (e : event) (st : state) : state :=
  mkState (trace st ++ [e]) (all_index_dfs st).

Definition append_df (df : list Idx.row) (st : state) : state :=
  mkState (trace st) (all_index_dfs st ++ [df]).

(** Lines 217-220: the first row stays when its [CIK] is digits; a
    missing [CIK] there is a float without [isdigit]. *)
Definition first_row_check (df : list Idx.row) : outcome (list Idx.row) :=
  match df with
  | [] => Returned []
  | r :: rest =>
      match Idx.CIK r with
      | None => Raised
      | Some EmptyString => Returned rest
      | Some s => if PyStr.isdigit s then Returned (r :: rest) else Returned rest
      end
  end.

(** The three ways out of the [try] block (lines 195-223). *)
Inductive tried : Type :=
| Appended (df : list Idx.row)
| Abandoned
| Excepted.

Definition try_file (file : parsed) : tried :=
  match file with
  | ParseRaises => Excepted
  | ColumnsMissing => Abandoned
  | Table rows =>
      match first_row_check rows with
      | Returned df => Appended df
      | Raised => Excepted
      end
  end.

Definition max_retries : nat := 3.

(** The [while retries < max_retries] loop (lines 193-240); [None] when
    the fuel runs out before the loop ends. *)
Fixpoint retry_loop (fuel : nat) (w : World) (year : Z) (q : quarter)
    (retries : nat) (st : state) : option state :=
  match fuel with
  | O => None
  | S fuel' =>
      if (retries <? max_retries)%nat then
        let st := emit (Fetch year q) st in
        match w year q retries with
        | Downloaded file =>
            match try_file file with
            | Appended df => Some (append_df df st)
            | Abandoned => Some st
            | Excepted =>
                let retries := S retries in
                let st := if (retries <? max_retries)%nat
                          then emit (Sleep 2) st else st in
                let st := emit (Remove year q) st in
                retry_loop fuel' w year q retries st
            end
        | DownloadFails =>
            let retries := S retries in
            if (retries <? max_retries)%nat
            then retry_loop fuel' w year q retries (emit (Sleep 2) st)
            else Some st
        end
      else Some st
  end.

Definition quarters : list quarter := [QTR1; QTR2; QTR3; QTR4].

Definition do_quarter (w : World) (year : Z) (q : quarter) (st : state)
  : option state :=
  retry_loop (S max_retries) w year q 0%nat st.

Fixpoint for_quarters (w : World) (year : Z) (qs : list quarter) (st : state)
  : option state :=
  match qs with
  | [] => Some st
  | q :: rest =>
      match do_quarter w year q st with
      | Some st' => for_quarters w year rest st'
      | None => None
      end
  end.

Fixpoint for_years (w : World) (index_years : list Z) (st : state)
  : option state :=
  match index_years with
  | [] => Some st
  | year :: rest =>
      match for_quarters w year quarters st with
      | Some st' => for_years w rest st'
      | None => None
      end
  end.

Definition to_entry (r : Idx.row) : Entry.row :=
  Entry.mk (Idx.Form_Type r) (Idx.Date_Filed r) (acc_path_of_index (Idx.Filename r)).

Definition entry_eqb (x y : Entry.row) : bool :=
  Frame.opt_eqb String.eqb (Entry.Form_Type x) (Entry.Form_Type y)
    && Frame.opt_eqb String.eqb (Entry.Date_Filed x) (Entry.Date_Filed y)
    && String.eqb (Entry.acc_path x) (Entry.acc_path y).

(** Lines 242-257. *)
Definition finish (dfs : list (list Idx.row)) : list Entry.row :=
  match dfs with
  | [] => []
  | _ => Frame.drop_duplicates entry_eqb (map to_entry (List.concat dfs))
  end.

Definition start : state := mkState [] [].

Definition run_master_index_download (w : World) (index_years : list Z)
  : option (list Entry.row) :=
  match for_years w index_years start with
  | Some st => Some (finish (all_index_dfs st))
  | None => None
  end.

(** What the builder does around its fetches: the events of a trace
    other than file removals. *)
Definition pacing (events : list event) : list event :=
  filter (fun e => match e with Remove _ _ => false | _ => true end) events.

(** [n] fetches with a two-unit sleep between consecutive ones. *)
Fixpoint paced (year : Z) (q : quarter) (n : nat) : list event :=
  match n with
  | O => []
  | S O => [Fetch year q]
  | S m => Fetch year q :: Sleep 2 :: paced year q m
  end.

(** An attempt that sends the loop into a retry. *)
Definition faults (a : fetched) : bool :=
  match a with
  | DownloadFails => true
  | Downloaded file =>
      match try_file file with
      | Excepted => true
      | _ => false
      end
  end.

(** A quarter whose attempt [k] yields the frame [df] after [k] faults. *)
Definition settles (w : World) (year : Z) (q : quarter) (df : list Idx.row)
  : Prop :=
  exists k file,
    (k < max_retries)%nat /\
    (forall j, (j < k)%nat -> faults (w year q j) = true) /\
    w year q k = Downloaded file /\
    try_file file = Appended df.

End MasterIndexBuilder.

(* ================================================================== *)
(** ** ReconciliationEngine: [merge_logs_and_index] (lines 259-332) *)
(* ================================================================== *)

(** A row of the frame after the left merge (line 297). *)
Module Joined.
Record row : Type := mk {
  date : string;
  cik : Z;
  accession : string;
  nr_total : Z;
  htm : Z;
  txt : Z;
  xbrl : Z;
  other : Z;
  acc_path : string;
  Form_Type : option string;
  Date_Filed : option string
}.
End Joined.

(** A row of the returned frame. *)
Module Merged.
Record row : Type := mk {
  date : option Z;            (* a timestamp, [None] for [NaT] *)
  cik : Z;
  accession : string;
  nr_total : Z;
  htm : Z;
  txt : Z;
  xbrl : Z;
  other : Z;
  form : option string;
  filing_date : option string
}.
End Merged.

Module Reconciliation.

Section Merge.

(** [pd.to_datetime] on a whole column of text: [None] where the call
    raises, otherwise one timestamp per cell, [None] for [NaT]. *)
Variable to_datetime : list string -> option (list (option Z)).

(** Lines 292-297 for one log row: the matches in index order, or one
    row with both index columns missing. *)
Definition join_row (master_index_df : list Entry.row) (a : Agg.row)
  : list Joined.row :=
  let accession := normalize_accession (Agg.accession a) in
  let acc_path := log_key (Agg.cik a) accession in
  let base := Joined.mk (Agg.date a) (Agg.cik a) accession (Agg.nr_total a)
                (Agg.htm a) (Agg.txt a) (Agg.xbrl a) (Agg.other a) acc_path in
  match filter (fun e => String.eqb (Entry.acc_path e) acc_path) master_index_df with
  | [] => [base None None]
  | hits => map (fun e => base (Entry.Form_Type e) (Entry.Date_Filed e)) hits
  end.

Definition merge_year (master_index_df : list Entry.row)
    (year_logs_df : list Agg.row) : list Joined.row :=
  flat_map (join_row master_index_df) year_logs_df.

(** Line 305. *)
Definition resolved (j : Joined.row) : bool :=
  Frame.notna (Joined.Form_Type j) && Frame.notna (Joined.Date_Filed j).

(** Lines 311-314 for one row and its converted date. *)
Definition finalize_row (j : Joined.row) (d : option Z) : Merged.row :=
  Merged.mk d (Joined.cik j) (Joined.accession j)
    (Joined.nr_total j) (Joined.htm j) (Joined.txt j)
    (Joined.xbrl j) (Joined.other j)
    (Joined.Form_Type j) (Joined.Date_Filed j).

(** The converted column takes the place of [date], cell by cell; a
    column of another length cannot be assigned. *)
Fixpoint assign_dates (rows : list Joined.row) (dates : list (option Z))
  : option (list Merged.row) :=
  match rows, dates with
  | [], [] => Some []
  | j :: rows', d :: dates' =>
      match assign_dates rows' dates' with
      | Some ms => Some (finalize_row j d :: ms)
      | None => None
      end
  | _, _ => None
  end.

(** Line 311: one call of [pd.to_datetime] on the [date] column. *)
Definition finalize_rows (rows : list Joined.row) : option (list Merged.row) :=
  match to_datetime (map Joined.date rows) with
  | Some dates => assign_dates rows dates
  | None => None
  end.

Definition form_leb (x y : option string) : bool :=
  match x, y with
  | Some a, Some b => String.leb a b
  | Some _, None => true
  | None, Some _ => false
  | None, None => true
  end.

(** Timestamps in ascending order, [NaT] last. *)
Definition date_compare (x y : option Z) : comparison :=
  match x, y with
  | Some a, Some b => a ?= b
  | Some _, None => Lt
  | None, Some _ => Gt
  | None, None => Eq
  end.

(** Line 316: ascending by [(cik, date, form)]. *)
Definition merged_leb (x y : Merged.row) : bool :=
  match Merged.cik x ?= Merged.cik y with
  | Lt => true
  | Gt => false
  | Eq => match date_compare (Merged.date x) (Merged.date y) with
          | Lt => true
          | Gt => false
          | Eq => form_leb (Merged.form x) (Merged.form y)
          end
  end.

(** [merge_logs_and_index] on the index and, per log year, the rows of
    the processed files read back for that year. *)
Definition merge_logs_and_index (master_index_df : list Entry.row)
    (logs_by_year : list (list Agg.row)) : outcome (list Merged.row) :=
  if LogAggregator.empty master_index_df then Returned []
  else
    let all_merged_logs :=
      map (merge_year master_index_df)
        (filter (fun y => negb (LogAggregator.empty y)) logs_by_year) in
    if LogAggregator.empty all_merged_logs then Returned []
    else
      let final_logs := filter resolved (List.concat all_merged_logs) in
      if LogAggregator.empty final_logs then Returned []
      else match finalize_rows final_logs with
           | Some rows => Returned (Frame.sort_values merged_leb rows)
           | None => Raised
           end.

(** The column that line 311 hands to [pd.to_datetime]. *)
Definition date_column (master_index_df : list Entry.row)
    (logs_by_year : list (list Agg.row)) : list string :=
  map Joined.date
    (filter resolved
       (List.concat
          (map (merge_year master_index_df)
             (filter (fun y => negb (LogAggregator.empty y)) logs_by_year)))).

End Merge.

End Reconciliation.

(* ================================================================== *)
(** ** Further parts of the source *)
(* ================================================================== *)

Module PyText.

(** [sub in s]. *)
Fixpoint contains (sub s : string) : bool :=
  if String.prefix sub s then true
  else match s with
       | EmptyString => false
       | String _ s' => contains sub s'
       end.

(** [s.replace('log', '')]: one pass from the left, an occurrence is
    skipped whole and the scan goes on after it. *)
Fixpoint replace_log (s : string) : string :=
  match s with
  | EmptyString => EmptyString
  | String "l" (String "o" (String "g" rest)) => replace_log rest
  | String c rest => String c (replace_log rest)
  end.

End PyText.

(** [series.sum()] on an integer column. *)
Module Column.

Definition sum (l : list Z) : Z := fold_right Z.add 0 l.

End Column.

(** Lines 22-23: [list(range(start_year, end_year + 1))]. *)
Module Config.

Definition year_range (start_year end_year : Z) : list Z :=
  map (fun i => start_year + Z.of_nat i)
    (seq 0 (Z.to_nat (end_year + 1 - start_year))).

End Config.

(** Lines 196-206: the scan for the header line of a downloaded index. *)
Module IndexHeader.

Definition signature : string := "CIK|Company Name|Form Type|Date Filed|Filename".

(** [for i, line in enumerate(f_idx)], from line number [i] on: the number
    of the first line that holds the signature. *)
Fixpoint scan (i : nat) (lines : list string) : option nat :=
  match lines with
  | [] => None
  | line :: rest =>
      if PyText.contains signature line then Some i else scan (S i) rest
  end.

(** The [skiprows] handed to [read_csv]. *)
Definition skip_lines (lines : list string) : nat :=
  match scan 0 lines with
  | Some i => i
  | None => 9%nat
  end.

End IndexHeader.

(** What a trace of the index build costs. *)
Module Trace.
Import MasterIndexBuilder.

Definition is_fetch (e : event) : bool :=
  match e with
  | Fetch _ _ => true
  | _ => false
  end.

Definition fetches (events : list event) : nat :=
  List.length (filter is_fetch events).

Fixpoint slept (events : list event) : Z :=
  match events with
  | [] => 0
  | Sleep seconds :: rest => seconds + slept rest
  | _ :: rest => slept rest
  end.

End Trace.

(** [_process_log_file] (lines 75-126) with the files it reads, writes
    and removes.  [os.path.basename] and [os.path.join] are those of the
    platform; removing an existing file succeeds. *)
Module LogFile.

Inductive file : Type :=
| LogCsv (logs : list Raw.row)      (* a raw daily log that parses *)
| Processed (rows : list Agg.row)   (* a file written at line 118 *)
| Unreadable.                       (* [read_csv] raises on it *)

(** The files by path. *)
Definition files : Type := string -> option file.

Definition remove (fs : files) (path : string) : files :=
  fun p => if String.eqb p path then None else fs p.

Definition write (fs : files) (path : string) (f : file) : files :=
  fun p => if String.eqb p path then Some f else fs p.

(** [if os.path.exists(path): os.remove(path)]. *)
Definition remove_if_exists (fs : files) (path : string) : files :=
  match fs path with
  | Some _ => remove fs path
  | None => fs
  end.

Section Os.

Variable basename : string -> string.
Variable join : string -> string -> string.

(** Where a directory accepts a new file ([to_csv] raises elsewhere). *)
Variable writable : string -> bool.

(** Lines 116-117. *)
Definition processed_file_path (processed_log_prefix csv_path year_dir : string)
  : string :=
  join year_dir (processed_log_prefix ++ PyText.replace_log (basename csv_path)).

(** The [try] block with its two [except] clauses (lines 77-123). *)
Definition try_process (target_ip_prefixes : list string)
    (processed_log_prefix csv_path year_dir : string) (fs : files) : files :=
  match fs csv_path with
  | Some (LogCsv logs) =>
      match LogAggregator._process_log_file target_ip_prefixes logs with
      | None => remove_if_exists fs csv_path
      | Some logs_output =>
          let path := processed_file_path processed_log_prefix csv_path year_dir in
          if writable path then write fs path (Processed logs_output) else fs
      end
  | _ => fs
  end.

(** The whole call: the [finally] clause (lines 124-126) runs last. *)
Definition process_log_file (target_ip_prefixes : list string)
    (processed_log_prefix csv_path year_dir : string) (fs : files) : files :=
  remove_if_exists
    (try_process target_ip_prefixes processed_log_prefix csv_path year_dir fs)
    csv_path.

End Os.

End LogFile.

(** The index entries that resolve a log row at line 297-305: those
    with the row's key whose form type and filing date are both
    present; and the joined row each of them gives. *)
Module Resolve.

Definition matching (master_index_df : list Entry.row) (a : Agg.row)
  : list Entry.row :=
  filter (fun e =>
            String.eqb (Entry.acc_path e)
              (acc_path_of_log (Agg.cik a) (Agg.accession a))
            && (Frame.notna (Entry.Form_Type e)
                && Frame.notna (Entry.Date_Filed e)))
    master_index_df.

Definition joined (a : Agg.row) (e : Entry.row) : Joined.row :=
  Joined.mk (Agg.date a) (Agg.cik a) (normalize_accession (Agg.accession a))
    (Agg.nr_total a) (Agg.htm a) (Agg.txt a) (Agg.xbrl a) (Agg.other a)
    (acc_path_of_log (Agg.cik a) (Agg.accession a))
    (Entry.Form_Type e) (Entry.Date_Filed e).

(** The dates of the resolved rows: the date of each log row, once per
    entry that resolves it, in the order of the log rows. *)
Definition dates (master_index_df : list Entry.row)
    (logs_by_year : list (list Agg.row)) : list string :=
  flat_map (fun a => map (fun _ => Agg.date a) (matching master_index_df a))
    (List.concat logs_by_year).

End Resolve.

(** [run_pipeline] (lines 334-346) from the index stage on, over the
    processed rows the log stage left per year. *)
Module Pipeline.

Inductive ending : Type :=
| Halted                                   (* line 342: no merge *)
| Merge (result : outcome (list Merged.row)).

Definition run_pipeline (to_datetime : list string -> option (list (option Z)))
    (w : MasterIndexBuilder.World) (index_years : list Z)
    (logs_by_year : list (list Agg.row)) : option ending :=
  match MasterIndexBuilder.run_master_index_download w index_years with
  | None => None
  | Some master_index_df =>
      if LogAggregator.empty master_index_df then Some Halted
      else Some (Merge (Reconciliation.merge_logs_and_index to_datetime
                          master_index_df logs_by_year))
  end.

End Pipeline.

(* ================================================================== *)
(** * Properties *)
(* ================================================================== *)

(** ** Facts about the string primitives *)

Module PyStrFacts.
Import PyStr.


Lemma all_chars_app (p : ascii -> bool) (a b : string) :
  all_chars p (a ++ b) = all_chars p a && all_chars p b.
Proof.
  induction a as [|c a IH]; simpl.
  - reflexivity.
  - rewrite IH. now rewrite andb_assoc.
Qed.


Lemma all_chars_remove_char (p : ascii -> bool) (old : ascii) (s : string) :
  all_chars p s = true -> all_chars p (remove_char old s) = true.
Proof.
  induction s as [|c s IH]; simpl; intros H.
  - reflexivity.
  - apply andb_true_iff in H as [Hc Hs].
    destruct (Ascii.eqb c old); simpl; auto.
    now rewrite Hc, (IH Hs).
Qed.

Lemma split_nonempty (sep : ascii) (s : string) : split sep s <> [].
Proof.
  destruct s as [|c s]; simpl; [discriminate|].
  destruct (Ascii.eqb c sep); [discriminate|].
  destruct (split sep s); discriminate.
Qed.

(** Cutting at one separator cuts the list of pieces in two. *)
Lemma split_app (sep : ascii) (a b : string) :
  split sep (a ++ String sep b) = (split sep a ++ split sep b)%list.
Proof.
  induction a as [|c a IH]; simpl.
  - now rewrite Ascii.eqb_refl.
  - rewrite IH.
    pose proof (split_nonempty sep a) as Hne.
    destruct (Ascii.eqb c sep); [reflexivity|].
    destruct (split sep a); [contradiction|reflexivity].
Qed.

(** Without a separator the text is one piece. *)
Lemma split_lacking (sep : ascii) (s : string) :
  lacks sep s = true -> split sep s = [s].
Proof.
  unfold lacks.
  induction s as [|c s IH]; simpl; intros H.
  - reflexivity.
  - apply andb_true_iff in H as [Hc Hs].
    apply negb_true_iff in Hc. now rewrite Hc, (IH Hs).
Qed.

(** The piece before the first separator is what precedes it. *)
Lemma split_first_app (sep : ascii) (a b : string) :
  lacks sep a = true ->
  first (split sep (a ++ String sep b)) = a.
Proof.
  intros Ha. now rewrite split_app, (split_lacking _ _ Ha).
Qed.

Lemma last_app_nonempty {A : Type} (l l' : list A) (d : A) :
  l' <> [] -> last (l ++ l') d = last l' d.
Proof.
  intros Hne. induction l as [|x l IH]; simpl; [reflexivity|].
  rewrite <- IH. destruct (l ++ l')%list eqn:E; [|reflexivity].
  apply app_eq_nil in E as [_ E]. contradiction.
Qed.

(** The piece after the last separator is what follows it. *)
Lemma split_final_app (sep : ascii) (a b : string) :
  lacks sep b = true ->
  final (split sep (a ++ String sep b)) = b.
Proof.
  intros Hb. unfold final.
  rewrite split_app, last_app_nonempty by apply split_nonempty.
  now rewrite (split_lacking _ _ Hb).
Qed.

Lemma endswith_lacking (sep : ascii) (s p : string) :
  lacks sep s = true -> endswith s (String sep p) = false.
Proof.
  unfold lacks.
  induction s as [|c s IH]; simpl; intros H.
  - reflexivity.
  - apply andb_true_iff in H as [Hc Hs].
    apply negb_true_iff in Hc. rewrite Hc. simpl. exact (IH Hs).
Qed.

Lemma strip_dot0_lacking (s : string) :
  lacks "." s = true -> strip_dot0 s = s.
Proof.
  intros H. unfold strip_dot0.
  now rewrite !(endswith_lacking _ _ _ H).
Qed.


Lemma uint_text_lacks_dot (d : Decimal.uint) :
  lacks "." (NilEmpty.string_of_uint d) = true.
Proof.
  unfold lacks. induction d; simpl; auto.
Qed.

Lemma str_int_lacks_dot (i : Z) : lacks "." (str_int i) = true.
Proof.
  unfold str_int, NilZero.string_of_int, NilZero.string_of_uint.
  destruct (Z.to_int i) as [d|d]; destruct d;
    try reflexivity; try apply uint_text_lacks_dot;
    change (lacks "." (String "-" ?s)) with (lacks "." s);
    try reflexivity; apply uint_text_lacks_dot.
Qed.


End PyStrFacts.

(** ** Join-key derivation *)

Lemma log_key_lacks_dot (cik : Z) (accession : string) :
  PyStr.lacks "." accession = true ->
  PyStr.lacks "." (log_key cik accession) = true.
Proof.
  intros H. unfold log_key, PyStr.lacks.
  rewrite !PyStrFacts.all_chars_app.
  fold (PyStr.lacks "." (PyStr.str_int cik)).
  rewrite PyStrFacts.str_int_lacks_dot.
  rewrite (PyStrFacts.all_chars_remove_char _ "-" _ H).
  reflexivity.
Qed.

Module JoinKeyFacts.
Import PyStr.






Lemma append_nil_r (s : string) : s ++ "" = s.
Proof. induction s as [|c s IH]; simpl; [reflexivity|now rewrite IH]. Qed.








End JoinKeyFacts.




(** ** Facts about the frame operations *)

Module FrameFacts.
Import Frame.

Section Dedup.
Context {A : Type} (eqb : A -> A -> bool).
Hypothesis eqb_eq : forall x y, eqb x y = true <-> x = y.

Lemma existsb_eqb_In (x : A) (seen : list A) :
  existsb (eqb x) seen = true <-> In x seen.
Proof.
  rewrite existsb_exists. split.
  - intros (y & Hy & E). apply eqb_eq in E. now subst.
  - intros H. exists x. split; [assumption|now apply eqb_eq].
Qed.

Lemma drop_duplicates_from_In (seen l : list A) (x : A) :
  In x (drop_duplicates_from eqb seen l) <-> In x l /\ ~ In x seen.
Proof.
  revert seen. induction l as [|y l IH]; intros seen; simpl.
  - tauto.
  - destruct (existsb (eqb y) seen) eqn:E.
    + apply existsb_eqb_In in E. rewrite IH.
      split; [tauto|]. intros [[->|H] Hn]; tauto.
    + assert (Hy : ~ In y seen).
      { intros H. apply existsb_eqb_In in H. congruence. }
      simpl. rewrite IH. simpl.
      split.
      * intros [->|[H Hn]]; [tauto|]. split; [tauto|]. tauto.
      * intros [[->|H] Hn]; [tauto|].
        destruct (eqb y x) eqn:Eyx.
        -- apply eqb_eq in Eyx. tauto.
        -- right. split; [assumption|].
           intros [->|Hs]; [|tauto].
           assert (eqb x x = true) by now apply eqb_eq.
           congruence.
Qed.

Lemma drop_duplicates_from_NoDup (seen l : list A) :
  NoDup (drop_duplicates_from eqb seen l).
Proof.
  revert seen. induction l as [|y l IH]; intros seen; simpl.
  - constructor.
  - destruct (existsb (eqb y) seen); [apply IH|].
    constructor; [|apply IH].
    rewrite drop_duplicates_from_In. simpl. tauto.
Qed.

Lemma drop_duplicates_In (l : list A) (x : A) :
  In x (drop_duplicates eqb l) <-> In x l.
Proof.
  unfold drop_duplicates. rewrite drop_duplicates_from_In. simpl. tauto.
Qed.

Lemma drop_duplicates_NoDup (l : list A) : NoDup (drop_duplicates eqb l).
Proof. apply drop_duplicates_from_NoDup. Qed.
End Dedup.

Section Sort.
Context {A : Type} (leb : A -> A -> bool).

Lemma insert_sorted_perm (x : A) (l : list A) :
  Permutation (x :: l) (insert_sorted leb x l).
Proof.
  induction l as [|y l IH]; simpl.
  - apply Permutation_refl.
  - destruct (leb x y).
    + apply Permutation_refl.
    + eapply perm_trans; [apply perm_swap|].
      now apply perm_skip.
Qed.

Lemma sort_values_perm (l : list A) : Permutation l (sort_values leb l).
Proof.
  induction l as [|x l IH]; simpl.
  - constructor.
  - eapply perm_trans; [|apply insert_sorted_perm].
    now apply perm_skip.
Qed.

Lemma sort_values_In (l : list A) (x : A) :
  In x (sort_values leb l) <-> In x l.
Proof.
  split; apply Permutation_in;
    [apply Permutation_sym|]; apply sort_values_perm.
Qed.
End Sort.

Lemma filter_all {A : Type} (f : A -> bool) (l : list A) :
  (forall x, In x l -> f x = true) -> filter f l = l.
Proof.
  induction l as [|x l IH]; simpl; intros H; [reflexivity|].
  rewrite (H x (or_introl eq_refl)). f_equal. apply IH. auto.
Qed.

End FrameFacts.

(** ** The IP allow-list *)

Module IpFilterFacts.
Import IpFilter LogAggregator.

Lemma startswith_empty (s : string) : PyStr.startswith s "" = true.
Proof. now destruct s. Qed.

Lemma drop_last2_short (s : string) :
  (String.length s < 3)%nat -> PyStr.drop_last2 s = "".
Proof.
  intros H. unfold PyStr.drop_last2.
  replace (String.length s - 2)%nat with 0%nat by lia.
  now destruct s.
Qed.

Lemma hit_with_empty_prefix (prefixes : list string) (ip : option string) :
  In "" prefixes -> target_ip_hit prefixes ip = true.
Proof.
  intros H. unfold target_ip_hit. apply existsb_exists.
  exists "". split; [assumption|apply startswith_empty].
Qed.

Lemma load_try_frame (env : Env) (path : string) columns cells :
  read_csv env path = ReadFrame columns ->
  column "netblock" columns = Some cells ->
  load_try env path = Returned (map netblock_prefix cells).
Proof. intros Hr Hc. unfold load_try. now rewrite Hr, Hc. Qed.

End IpFilterFacts.

(** C7: loading the allow-list always returns a list, the empty list when
    no path is given, when the file does not exist, when the frame has no
    [netblock] column and when reading raises; and with an empty list the
    IP step leaves the rows as they are. *)
Theorem load_prefixes_never_raises :
  (forall env path, exists prefixes,
      IpFilter._load_target_ip_prefixes env path = Returned prefixes) /\
  (forall env, IpFilter._load_target_ip_prefixes env None = Returned []) /\
  (forall env, IpFilter._load_target_ip_prefixes env (Some "") = Returned []) /\
  (forall env path, IpFilter.path_exists env path = false ->
      IpFilter._load_target_ip_prefixes env (Some path) = Returned []) /\
  (forall env path columns,
      IpFilter.read_csv env path = IpFilter.ReadFrame columns ->
      IpFilter.column "netblock" columns = None ->
      IpFilter._load_target_ip_prefixes env (Some path) = Returned []) /\
  (forall env path, IpFilter.read_csv env path = IpFilter.ReadRaises ->
      IpFilter._load_target_ip_prefixes env (Some path) = Returned []) /\
  (forall logs, LogAggregator.ip_filter [] logs = logs).
Proof.
  unfold IpFilter._load_target_ip_prefixes, IpFilter.load_try.
  repeat split.
  - intros env [[|c p]|]; simpl; eauto.
    destruct (IpFilter.path_exists env (String c p)); simpl; eauto.
    destruct (IpFilter.read_csv env (String c p)) as [|columns]; eauto.
    destruct (IpFilter.column "netblock" columns); eauto.
  - intros env [|c p] H; simpl; [reflexivity|]. now rewrite H.
  - intros env [|c p] columns Hr Hc; simpl; [reflexivity|].
    rewrite Hr, Hc. now destruct (IpFilter.path_exists env (String c p)).
  - intros env [|c p] Hr; simpl; [reflexivity|].
    rewrite Hr. now destruct (IpFilter.path_exists env (String c p)).
Qed.

Lemma load_prefixes_never_raises_witness :
  let env := IpFilter.mkEnv
               (fun p => String.eqb p "ips.csv" || String.eqb p "bad.csv")
               (fun p => if String.eqb p "ips.csv"
                         then IpFilter.ReadFrame [("name", [Some "x"])]
                         else IpFilter.ReadRaises) in
  IpFilter._load_target_ip_prefixes env (Some "gone.csv") = Returned [] /\
  IpFilter._load_target_ip_prefixes env (Some "ips.csv") = Returned [] /\
  IpFilter._load_target_ip_prefixes env (Some "bad.csv") = Returned [].
Proof.
  intros env.
  destruct load_prefixes_never_raises as (_ & _ & _ & Hgone & Hcol & Hbad & _).
  split; [|split].
  - apply (Hgone env "gone.csv"). reflexivity.
  - apply (Hcol env "ips.csv" [("name", [Some "x"])]); reflexivity.
  - apply (Hbad env "bad.csv"). reflexivity.
Defined.

(** C10: a netblock cell with fewer than three characters before its
    first slash yields the empty prefix; a loaded list that holds it is
    not empty, so the IP step runs, and it keeps every row. *)
Theorem short_netblock_matches_everything (x : option string) :
  (String.length (PyStr.first (PyStr.split "/" (PyStr.str_cell x))) < 3)%nat ->
  IpFilter.netblock_prefix x = "" /\
  (forall ip prefixes, In (IpFilter.netblock_prefix x) prefixes ->
      IpFilter.target_ip_hit prefixes ip = true) /\
  (forall env c p columns cells,
      IpFilter.path_exists env (String c p) = true ->
      IpFilter.read_csv env (String c p) = IpFilter.ReadFrame columns ->
      IpFilter.column "netblock" columns = Some cells ->
      In x cells ->
      exists prefixes,
        IpFilter._load_target_ip_prefixes env (Some (String c p)) = Returned prefixes /\
        prefixes <> [] /\
        In "" prefixes /\
        forall logs, LogAggregator.ip_filter prefixes logs = logs).
Proof.
  intros Hshort.
  assert (Hp : IpFilter.netblock_prefix x = "").
  { unfold IpFilter.netblock_prefix. now apply IpFilterFacts.drop_last2_short. }
  split; [exact Hp|]. split.
  - intros ip prefixes Hin. rewrite Hp in Hin.
    now apply IpFilterFacts.hit_with_empty_prefix.
  - intros env c p columns cells He Hr Hc Hx.
    exists (map IpFilter.netblock_prefix cells).
    assert (Hin : In "" (map IpFilter.netblock_prefix cells)).
    { rewrite <- Hp. now apply in_map. }
    split; [|split; [|split]].
    + unfold IpFilter._load_target_ip_prefixes. simpl. rewrite He. simpl.
      now rewrite (IpFilterFacts.load_try_frame _ _ _ _ Hr Hc).
    + intros E. rewrite E in Hin. contradiction.
    + exact Hin.
    + intros logs. unfold LogAggregator.ip_filter.
      destruct (map IpFilter.netblock_prefix cells) eqn:E; [reflexivity|].
      apply FrameFacts.filter_all. intros r _.
      now apply IpFilterFacts.hit_with_empty_prefix.
Qed.

Lemma short_netblock_matches_everything_witness :
  let env := IpFilter.mkEnv (fun _ => true)
               (fun _ => IpFilter.ReadFrame
                           [("netblock", [Some "192.168.0.0/16"; Some "10/8"])]) in
  IpFilter.netblock_prefix (Some "10/8") = "" /\
  IpFilter.target_ip_hit ["192.168.0"; IpFilter.netblock_prefix (Some "10/8")]
    (Some "8.8.8.8") = true /\
  exists prefixes,
    IpFilter._load_target_ip_prefixes env (Some "ips.csv") = Returned prefixes /\
    prefixes <> [] /\ In "" prefixes /\
    forall logs, LogAggregator.ip_filter prefixes logs = logs.
Proof.
  intros env.
  assert (H : (String.length
                 (PyStr.first (PyStr.split "/" (PyStr.str_cell (Some "10/8")))) < 3)%nat)
    by (vm_compute; lia).
  destruct (short_netblock_matches_everything (Some "10/8") H) as (H1 & H2 & H3).
  split; [exact H1|]. split.
  - apply H2. simpl. right. left. reflexivity.
  - apply (H3 env "i"%char "ps.csv"
             [("netblock", [Some "192.168.0.0/16"; Some "10/8"])]
             [Some "192.168.0.0/16"; Some "10/8"]); try reflexivity.
    simpl. right. left. reflexivity.
Defined.

(** ** Row filtering and classification *)

Module LogFacts.
Import LogAggregator.

Lemma eq_num_true (x : option Z) (v : Z) : eq_num x v = true <-> x = Some v.
Proof.
  destruct x as [n|]; simpl.
  - rewrite Z.eqb_eq. split; [now intros ->|congruence].
  - split; discriminate.
Qed.

Lemma lt_num_true (x : option Z) (v : Z) :
  lt_num x v = true <-> exists n, x = Some n /\ n < v.
Proof.
  destruct x as [n|]; simpl.
  - rewrite Z.ltb_lt. split.
    + intros H. now exists n.
    + intros (m & E & H). now injection E as ->.
  - split; [discriminate|]. now intros (m & E & _).
Qed.

Lemma notna_true {A : Type} (x : option A) : Frame.notna x = true <-> x <> None.
Proof.
  destruct x; unfold Frame.notna; simpl; split;
    intros H; try discriminate; try reflexivity.
  now contradiction H.
Qed.

Lemma mask_crawler_false (r : Raw.row) :
  mask_crawler r = false <-> Raw.crawler r = Some 1.
Proof. unfold mask_crawler. rewrite negb_false_iff. apply eq_num_true. Qed.

Lemma mask_idx_false (r : Raw.row) :
  mask_idx r = false <-> Raw.idx r = Some 1.
Proof. unfold mask_idx. rewrite negb_false_iff. apply eq_num_true. Qed.

Lemma mask_code_false (r : Raw.row) :
  mask_code r = false <-> exists c, Raw.code r = Some c /\ c < 300.
Proof. unfold mask_code. rewrite negb_false_iff. apply lt_num_true. Qed.

Lemma loc_mask_true (r : Raw.row) :
  loc_mask r = true <->
  Raw.crawler r <> Some 1 /\ Raw.idx r <> Some 1 /\
  (forall c, Raw.code r = Some c -> 300 <= c).
Proof.
  unfold loc_mask. rewrite !andb_true_iff.
  rewrite <- !not_false_iff_true.
  rewrite mask_crawler_false, mask_idx_false, mask_code_false.
  split.
  - intros [[Hc Hi] Hs]. repeat split; try assumption.
    intros c E. destruct (Z_lt_le_dec c 300) as [Hlt|Hle]; [|exact Hle].
    exfalso. apply Hs. now exists c.
  - intros (Hc & Hi & Hs). repeat split; try assumption.
    intros (c & E & Hlt). specialize (Hs c E). lia.
Qed.

Lemma dropna_subset_true (r : Raw.row) :
  dropna_subset r = true <->
  Raw.cik r <> None /\ Raw.accession r <> None /\
  Raw.date r <> None /\ Raw.ip r <> None.
Proof.
  unfold dropna_subset. rewrite !andb_true_iff, !notna_true. tauto.
Qed.

Lemma filter_logs_drop (before after : list Raw.row) (r : Raw.row) :
  loc_mask r = false ->
  filter_logs (before ++ r :: after) = filter_logs (before ++ after).
Proof.
  intros H. unfold filter_logs. rewrite !filter_app. simpl. now rewrite H.
Qed.

End LogFacts.

(** C3: the rows that survive lines 80-85 are exactly the input rows whose
    crawler flag is not 1, whose index-page flag is not 1, whose status
    code is not below 300 and whose [cik], [accession], [date] and [ip]
    are all present, in input order; and a row with code 200 and crawler 1
    changes nothing in what the step writes. *)
Theorem filter_logs_keeps_exactly :
  (forall logs r,
      In r (LogAggregator.filter_logs logs) <->
      In r logs /\
      Raw.crawler r <> Some 1 /\ Raw.idx r <> Some 1 /\
      (forall c, Raw.code r = Some c -> 300 <= c) /\
      Raw.cik r <> None /\ Raw.accession r <> None /\
      Raw.date r <> None /\ Raw.ip r <> None) /\
  (forall logs,
      LogAggregator.filter_logs logs =
      filter (fun r => LogAggregator.mask_crawler r && LogAggregator.mask_idx r
                         && LogAggregator.mask_code r
                         && LogAggregator.dropna_subset r) logs) /\
  (forall prefixes before after r,
      Raw.code r = Some 200 -> Raw.crawler r = Some 1 ->
      LogAggregator._process_log_file prefixes (before ++ r :: after) =
      LogAggregator._process_log_file prefixes (before ++ after)).
Proof.
  split; [|split].
  - intros logs r. unfold LogAggregator.filter_logs.
    rewrite !filter_In, LogFacts.loc_mask_true, LogFacts.dropna_subset_true.
    tauto.
  - intros logs. unfold LogAggregator.filter_logs.
    induction logs as [|x logs IH]; simpl; [reflexivity|].
    fold (LogAggregator.loc_mask x).
    destruct (LogAggregator.loc_mask x); simpl; [|exact IH].
    destruct (LogAggregator.dropna_subset x); [f_equal|]; exact IH.
  - intros prefixes before after r _ Hcrawler.
    unfold LogAggregator._process_log_file.
    rewrite LogFacts.filter_logs_drop; [reflexivity|].
    unfold LogAggregator.loc_mask.
    apply LogFacts.mask_crawler_false in Hcrawler. now rewrite Hcrawler.
Qed.

Lemma filter_logs_keeps_exactly_witness :
  let hit := Raw.mk (Some "1.2.3.4") (Some "2011-01-01") (Some 12)
               (Some "0001-11-000001") (Some "htm") (Some 404) (Some 0) (Some 0) in
  let bot := Raw.mk (Some "5.6.7.8") (Some "2011-01-01") (Some 12)
               (Some "0001-11-000001") (Some "htm") (Some 200) (Some 0) (Some 1) in
  LogAggregator._process_log_file [] ([hit] ++ bot :: [hit]) =
  LogAggregator._process_log_file [] ([hit] ++ [hit]).
Proof.
  intros hit bot.
  destruct filter_logs_keeps_exactly as (_ & _ & H).
  apply (H [] [hit] [hit] bot); reflexivity.
Defined.

(** C9: each of the three masks lets a row with a missing value through:
    the crawler and index-page masks reject only the value 1, the status
    mask rejects only a present code below 300; so a row whose three
    values are all missing and whose four required fields are present
    survives lines 80-85. *)
Theorem missing_flags_are_kept (r : Raw.row) :
  (LogAggregator.mask_crawler r = false <-> Raw.crawler r = Some 1) /\
  (LogAggregator.mask_idx r = false <-> Raw.idx r = Some 1) /\
  (LogAggregator.mask_code r = false <->
     exists c, Raw.code r = Some c /\ c < 300) /\
  (Raw.crawler r = None -> LogAggregator.mask_crawler r = true) /\
  (Raw.idx r = None -> LogAggregator.mask_idx r = true) /\
  (Raw.code r = None -> LogAggregator.mask_code r = true) /\
  (forall logs,
      In r logs ->
      Raw.crawler r = None -> Raw.idx r = None -> Raw.code r = None ->
      LogAggregator.dropna_subset r = true ->
      In r (LogAggregator.filter_logs logs)).
Proof.
  split; [apply LogFacts.mask_crawler_false|].
  split; [apply LogFacts.mask_idx_false|].
  split; [apply LogFacts.mask_code_false|].
  unfold LogAggregator.mask_crawler, LogAggregator.mask_idx,
    LogAggregator.mask_code.
  split; [now intros ->|]. split; [now intros ->|]. split; [now intros ->|].
  intros logs Hin Hc Hi Hs Hd.
  unfold LogAggregator.filter_logs. rewrite !filter_In.
  repeat split; try assumption.
  unfold LogAggregator.loc_mask, LogAggregator.mask_crawler,
    LogAggregator.mask_idx, LogAggregator.mask_code.
  now rewrite Hc, Hi, Hs.
Qed.

Lemma missing_flags_are_kept_witness :
  let r := Raw.mk (Some "1.2.3.4") (Some "2011-01-01") (Some 12)
             (Some "0001-11-000001") (Some "htm") None None None in
  In r (LogAggregator.filter_logs [r]).
Proof.
  intros r.
  destruct (missing_flags_are_kept r) as (_ & _ & _ & _ & _ & _ & H).
  apply (H [r]); try reflexivity. left. reflexivity.
Defined.

(** C8: the file type of a retained row is the lower-cased piece of the
    extension text after its last dot (the whole text when it has none),
    exactly one of the four indicators is 1 and the others are 0, and
    [other] is 1 exactly when the file type is none of htm, txt, xbrl. *)
Theorem file_type_one_hot (r : Raw.row) :
  let c := LogAggregator.classify r in
  Cls.extention c = LogAggregator.file_type (Raw.extention r) /\
  (forall a b, PyStr.str_cell (Raw.extention r) = a ++ String "." b ->
               PyStr.lacks "." b = true ->
               Cls.extention c = PyStr.lower b) /\
  (PyStr.lacks "." (PyStr.str_cell (Raw.extention r)) = true ->
   Cls.extention c = PyStr.lower (PyStr.str_cell (Raw.extention r))) /\
  ((Cls.htm c, Cls.txt c, Cls.xbrl c, Cls.other c) = (1, 0, 0, 0) \/
   (Cls.htm c, Cls.txt c, Cls.xbrl c, Cls.other c) = (0, 1, 0, 0) \/
   (Cls.htm c, Cls.txt c, Cls.xbrl c, Cls.other c) = (0, 0, 1, 0) \/
   (Cls.htm c, Cls.txt c, Cls.xbrl c, Cls.other c) = (0, 0, 0, 1)) /\
  (Cls.htm c = 1 <-> Cls.extention c = "htm") /\
  (Cls.txt c = 1 <-> Cls.extention c = "txt") /\
  (Cls.xbrl c = 1 <-> Cls.extention c = "xbrl") /\
  (Cls.other c = 1 <->
   Cls.extention c <> "htm" /\ Cls.extention c <> "txt" /\
   Cls.extention c <> "xbrl").
Proof.
  simpl. unfold LogAggregator.isin. simpl.
  set (e := LogAggregator.file_type (Raw.extention r)).
  split; [reflexivity|]. split; [|split].
  - intros a b E Hb. subst e. unfold LogAggregator.file_type.
    now rewrite E, PyStrFacts.split_final_app.
  - intros H. subst e. unfold LogAggregator.file_type.
    now rewrite (PyStrFacts.split_lacking _ _ H).
  - destruct (String.eqb_spec e "htm") as [E1|N1];
      destruct (String.eqb_spec e "txt") as [E2|N2];
      destruct (String.eqb_spec e "xbrl") as [E3|N3];
      try (rewrite E1 in *); try (rewrite E2 in *); try (rewrite E3 in *);
      try discriminate; simpl;
      repeat split; auto; try tauto; try congruence; try discriminate;
      try (intros (? & ? & ?); congruence).
Qed.

Lemma file_type_one_hot_witness :
  let r e := Raw.mk (Some "1.2.3.4") (Some "2011-01-01") (Some 12)
               (Some "0001-11-000001") (Some e) (Some 404) (Some 0) (Some 0) in
  Cls.extention (LogAggregator.classify (r "-index.HTM")) = "htm" /\
  Cls.extention (LogAggregator.classify (r "TXT")) = "txt".
Proof.
  intros r. split.
  - destruct (file_type_one_hot (r "-index.HTM")) as (_ & H & _).
    apply (H "-index" "HTM"); reflexivity.
  - destruct (file_type_one_hot (r "TXT")) as (_ & _ & H & _).
    apply H. reflexivity.
Defined.

(** ** Aggregation *)

Module AggFacts.
Import LogAggregator.

Lemma key_eqb_eq (x y : key) : key_eqb x y = true <-> x = y.
Proof.
  destruct x as [[d1 k1] a1], y as [[d2 k2] a2]. unfold key_eqb.
  rewrite !andb_true_iff, !String.eqb_eq, Z.eqb_eq.
  split.
  - intros [[-> ->] ->]. reflexivity.
  - intros E. injection E as -> -> ->. auto.
Qed.

Lemma key_eqb_refl (x : key) : key_eqb x x = true.
Proof. now apply key_eqb_eq. Qed.

Lemma agg_key_group_row (logs : list Cls.row) (k : key) :
  agg_key (group_row logs k) = k.
Proof. now destruct k as [[d c] a]. Qed.

Lemma group_row_total (logs : list Cls.row) (k : key) :
  let a := group_row logs k in
  Agg.nr_total a = Agg.htm a + Agg.txt a + Agg.xbrl a + Agg.other a.
Proof. now destruct k as [[d c] a]. Qed.

Lemma groupby_sum_keys (logs : list Cls.row) :
  map agg_key (groupby_sum logs) =
  Frame.sort_values key_leb (Frame.drop_duplicates key_eqb (keys_of logs)).
Proof.
  unfold groupby_sum. rewrite map_map.
  erewrite map_ext; [apply map_id|].
  intros k. apply agg_key_group_row.
Qed.

Lemma groupby_sum_NoDup (logs : list Cls.row) :
  NoDup (map agg_key (groupby_sum logs)).
Proof.
  rewrite groupby_sum_keys.
  eapply Permutation_NoDup; [apply FrameFacts.sort_values_perm|].
  apply FrameFacts.drop_duplicates_NoDup. exact key_eqb_eq.
Qed.

Lemma groupby_sum_total (logs : list Cls.row) (a : Agg.row) :
  In a (groupby_sum logs) ->
  Agg.nr_total a = Agg.htm a + Agg.txt a + Agg.xbrl a + Agg.other a.
Proof.
  unfold groupby_sum. rewrite in_map_iff.
  intros (k & <- & _). apply group_row_total.
Qed.

End AggFacts.

(** C2: whatever rows a raw file holds and whatever the allow-list, when
    the step writes a file every written row has [nr_total] equal to
    [htm + txt + xbrl + other], and no [(date, cik, accession)] key occurs
    on two written rows. *)
Theorem aggregation_invariants
    (prefixes : list string) (logs : list Raw.row) (out : list Agg.row) :
  LogAggregator._process_log_file prefixes logs = Some out ->
  (forall a, In a out ->
     Agg.nr_total a = Agg.htm a + Agg.txt a + Agg.xbrl a + Agg.other a) /\
  NoDup (map LogAggregator.agg_key out).
Proof.
  unfold LogAggregator._process_log_file.
  destruct (LogAggregator.empty (LogAggregator.filter_logs logs));
    [discriminate|].
  destruct (LogAggregator.empty
              (LogAggregator.ip_filter prefixes (LogAggregator.filter_logs logs)));
    [discriminate|].
  intros E. injection E as <-. split.
  - intros a. apply AggFacts.groupby_sum_total.
  - apply AggFacts.groupby_sum_NoDup.
Qed.

Lemma aggregation_invariants_witness :
  let r e d := Raw.mk (Some "1.2.3.4") (Some d) (Some 12)
                 (Some "0001-11-000001") (Some e) (Some 404) (Some 0) (Some 0) in
  let out := [Agg.mk "2011-01-01" 12 "0001-11-000001" 1 0 1 0 0;
              Agg.mk "2011-01-02" 12 "0001-11-000001" 2 1 0 0 1] in
  LogAggregator._process_log_file []
    [r "htm" "2011-01-02"; r "txt" "2011-01-01"; r "pdf" "2011-01-02"] = Some out /\
  NoDup (map LogAggregator.agg_key out).
Proof.
  intros r out.
  assert (H : LogAggregator._process_log_file []
                [r "htm" "2011-01-02"; r "txt" "2011-01-01"; r "pdf" "2011-01-02"]
              = Some out) by reflexivity.
  split; [exact H|].
  exact (proj2 (aggregation_invariants [] _ out H)).
Defined.

(** C4, as the code has it: two rows with crawler 0, index flag 0, a
    status code not below 300, the same date, filer id and accession, an
    address that passes the IP step, and file types htm and xml, give
    exactly one written row with [nr_total = 2], [htm = 1], [other = 1],
    [txt = 0], [xbrl = 0]; when both codes are below 300, as with 200,
    the status mask removes both rows and nothing is written. *)
Theorem scenario1_two_rows
    (prefixes : list string) (ip1 ip2 d a : string) (k c1 c2 : Z)
    (e1 e2 : option string) :
  LogAggregator.file_type e1 = "htm" ->
  LogAggregator.file_type e2 = "xml" ->
  prefixes = [] \/
    (IpFilter.target_ip_hit prefixes (Some ip1) = true /\
     IpFilter.target_ip_hit prefixes (Some ip2) = true) ->
  let rows :=
    [Raw.mk (Some ip1) (Some d) (Some k) (Some a) e1 (Some c1) (Some 0) (Some 0);
     Raw.mk (Some ip2) (Some d) (Some k) (Some a) e2 (Some c2) (Some 0) (Some 0)] in
  (300 <= c1 -> 300 <= c2 ->
   LogAggregator._process_log_file prefixes rows = Some [Agg.mk d k a 2 1 0 0 1]) /\
  (c1 < 300 -> c2 < 300 ->
   LogAggregator._process_log_file prefixes rows = None).
Proof.
  intros H1 H2 Hip rows. subst rows. split.
  - intros Hc1 Hc2.
    apply Z.ltb_ge in Hc1, Hc2.
    unfold LogAggregator._process_log_file, LogAggregator.filter_logs,
      LogAggregator.loc_mask, LogAggregator.mask_crawler,
      LogAggregator.mask_idx, LogAggregator.mask_code.
    simpl. rewrite Hc1, Hc2. simpl.
    assert (Hf : LogAggregator.ip_filter prefixes
                   [Raw.mk (Some ip1) (Some d) (Some k) (Some a) e1 (Some c1) (Some 0) (Some 0);
                    Raw.mk (Some ip2) (Some d) (Some k) (Some a) e2 (Some c2) (Some 0) (Some 0)]
                 = [Raw.mk (Some ip1) (Some d) (Some k) (Some a) e1 (Some c1) (Some 0) (Some 0);
                    Raw.mk (Some ip2) (Some d) (Some k) (Some a) e2 (Some c2) (Some 0) (Some 0)]).
    { destruct Hip as [->|[Hi1 Hi2]]; [reflexivity|].
      unfold LogAggregator.ip_filter. destruct prefixes; [reflexivity|].
      cbn [filter Raw.ip]. now rewrite Hi1, Hi2. }
    rewrite Hf. simpl LogAggregator.empty. cbv iota.
    unfold LogAggregator.groupby_sum, Frame.drop_duplicates,
      LogAggregator.classify.
    cbn [Raw.extention Raw.date Raw.cik Raw.accession map].
    rewrite H1, H2.
    cbn -[LogAggregator.key_eqb Z.add].
    rewrite !AggFacts.key_eqb_refl.
    cbn -[LogAggregator.key_eqb Z.add].
    rewrite !AggFacts.key_eqb_refl.
    reflexivity.
  - intros Hc1 Hc2.
    apply Z.ltb_lt in Hc1, Hc2.
    unfold LogAggregator._process_log_file, LogAggregator.filter_logs,
      LogAggregator.loc_mask, LogAggregator.mask_crawler,
      LogAggregator.mask_idx, LogAggregator.mask_code.
    simpl. rewrite Hc1, Hc2. reflexivity.
Qed.

Lemma scenario1_two_rows_witness :
  let rows c1 c2 :=
    [Raw.mk (Some "1.2.3.4") (Some "2011-01-01") (Some 12) (Some "0001-11-000001")
       (Some "htm") (Some c1) (Some 0) (Some 0);
     Raw.mk (Some "1.2.3.9") (Some "2011-01-01") (Some 12) (Some "0001-11-000001")
       (Some "xml") (Some c2) (Some 0) (Some 0)] in
  LogAggregator._process_log_file ["1.2.3"] (rows 404 302)
    = Some [Agg.mk "2011-01-01" 12 "0001-11-000001" 2 1 0 0 1] /\
  LogAggregator._process_log_file ["1.2.3"] (rows 200 204) = None.
Proof.
  intros rows. split.
  - apply (proj1 (scenario1_two_rows ["1.2.3"] "1.2.3.4" "1.2.3.9" "2011-01-01"
                    "0001-11-000001" 12 404 302 (Some "htm") (Some "xml")
                    eq_refl eq_refl (or_intror (conj eq_refl eq_refl)))); lia.
  - apply (proj2 (scenario1_two_rows ["1.2.3"] "1.2.3.4" "1.2.3.9" "2011-01-01"
                    "0001-11-000001" 12 200 204 (Some "htm") (Some "xml")
                    eq_refl eq_refl (or_intror (conj eq_refl eq_refl)))); lia.
Defined.

(** C4 as worded fails: with code 200 on both rows the step writes no
    file, so there is no aggregated row at all. *)
Lemma scenario1_code_200_writes_nothing :
  let rows :=
    [Raw.mk (Some "1.2.3.4") (Some "2011-01-01") (Some 12) (Some "0001-11-000001")
       (Some "htm") (Some 200) (Some 0) (Some 0);
     Raw.mk (Some "1.2.3.4") (Some "2011-01-01") (Some 12) (Some "0001-11-000001")
       (Some "xml") (Some 200) (Some 0) (Some 0)] in
  LogAggregator._process_log_file [] rows = None /\
  ~ (exists a, LogAggregator._process_log_file [] rows = Some [a] /\
               Agg.nr_total a = 2 /\ Agg.htm a = 1 /\ Agg.other a = 1 /\
               Agg.txt a = 0 /\ Agg.xbrl a = 0).
Proof.
  intros rows. split; [reflexivity|].
  intros (a & E & _). discriminate E.
Qed.

(** ** Reconciliation *)

Module MergeFacts.
Import Reconciliation.

Section WithClock.
Variable to_datetime : list string -> option (list (option Z)).

(** A joined row carries the log row it came from; when both index
    columns are present it also carries an index entry with the key
    the log row derives. *)
Lemma join_row_In (master : list Entry.row) (a : Agg.row) (j : Joined.row) :
  In j (join_row master a) ->
  Joined.cik j = Agg.cik a /\
  Joined.accession j = normalize_accession (Agg.accession a) /\
  Joined.date j = Agg.date a /\
  Joined.nr_total j = Agg.nr_total a /\
  (resolved j = true ->
   exists e, In e master /\
             Entry.acc_path e = acc_path_of_log (Agg.cik a) (Agg.accession a) /\
             Joined.Form_Type j = Entry.Form_Type e /\
             Joined.Date_Filed j = Entry.Date_Filed e).
Proof.
  unfold join_row, acc_path_of_log.
  set (key := log_key (Agg.cik a) (normalize_accession (Agg.accession a))).
  destruct (filter (fun e => String.eqb (Entry.acc_path e) key) master)
    as [|e0 hits] eqn:E.
  - intros [<-|[]]. simpl. repeat split; auto. discriminate.
  - intros Hin. apply in_map_iff in Hin as (e & <- & He).
    simpl. repeat split; auto.
    intros _. exists e.
    rewrite <- E in He. apply filter_In in He as [He Hk].
    apply String.eqb_eq in Hk. auto.
Qed.

Lemma assign_dates_In (rows : list Joined.row) (dates : list (option Z))
    (ms : list Merged.row) (m : Merged.row) :
  assign_dates rows dates = Some ms -> In m ms ->
  exists j d, In j rows /\ m = finalize_row j d.
Proof.
  revert dates ms. induction rows as [|j rows IH]; intros [|d dates] ms;
    simpl; try discriminate.
  - intros E. injection E as <-. contradiction.
  - destruct (assign_dates rows dates) as [ms0|] eqn:E0; [|discriminate].
    intros E Hin. injection E as <-. destruct Hin as [<-|Hin].
    + exists j, d. auto.
    + destruct (IH dates ms0 E0 Hin) as (j' & d' & Hj' & E').
      exists j', d'. auto.
Qed.

Lemma finalize_rows_In (rows : list Joined.row) (ms : list Merged.row)
    (m : Merged.row) :
  finalize_rows to_datetime rows = Some ms -> In m ms ->
  exists j d, In j rows /\ m = finalize_row j d.
Proof.
  unfold finalize_rows.
  destruct (to_datetime (map Joined.date rows)) as [dates|]; [|discriminate].
  apply assign_dates_In.
Qed.

Lemma assign_dates_total (rows : list Joined.row) (dates : list (option Z)) :
  List.length dates = List.length rows ->
  exists ms, assign_dates rows dates = Some ms.
Proof.
  revert dates. induction rows as [|j rows IH]; intros [|d dates]; simpl;
    try discriminate.
  - now exists [].
  - intros E. injection E as E. destruct (IH dates E) as (ms & ->). eauto.
Qed.

Lemma finalize_rows_total (rows : list Joined.row) (dates : list (option Z)) :
  to_datetime (map Joined.date rows) = Some dates ->
  List.length dates = List.length (map Joined.date rows) ->
  exists ms, finalize_rows to_datetime rows = Some ms.
Proof.
  intros E Hlen. unfold finalize_rows. rewrite E.
  apply assign_dates_total. now rewrite length_map in Hlen.
Qed.

Lemma finalize_row_fields (j : Joined.row) (d : option Z) :
  let m := finalize_row j d in
  Merged.cik m = Joined.cik j /\
  Merged.accession m = Joined.accession j /\
  Merged.nr_total m = Joined.nr_total j /\
  Merged.form m = Joined.Form_Type j /\
  Merged.filing_date m = Joined.Date_Filed j.
Proof. simpl. auto. Qed.

(** Every row that reaches the sort came from a log row and an index
    entry with the same key, and has both index columns. *)
Lemma final_logs_In (master : list Entry.row) (logs : list (list Agg.row))
    (j : Joined.row) :
  In j (filter resolved
          (List.concat
             (map (merge_year master)
                (filter (fun y => negb (LogAggregator.empty y)) logs)))) ->
  Joined.Form_Type j <> None /\ Joined.Date_Filed j <> None /\
  exists a e,
    In a (List.concat logs) /\ In e master /\
    Entry.acc_path e = acc_path_of_log (Agg.cik a) (Agg.accession a) /\
    Joined.cik j = Agg.cik a /\
    Joined.accession j = normalize_accession (Agg.accession a) /\
    Joined.nr_total j = Agg.nr_total a /\
    Joined.Form_Type j = Entry.Form_Type e /\
    Joined.Date_Filed j = Entry.Date_Filed e.
Proof.
  rewrite filter_In, in_concat.
  intros [(frame & Hframe & Hj) Hres].
  apply in_map_iff in Hframe as (year & <- & Hyear).
  apply filter_In in Hyear as [Hyear _].
  unfold merge_year in Hj. apply in_flat_map in Hj as (a & Ha & Hj).
  destruct (join_row_In master a j Hj) as (Hc & Hacc & _ & Hn & Hm).
  destruct (Hm Hres) as (e & He & Hk & Hf & Hd).
  unfold resolved in Hres. apply andb_true_iff in Hres as [Rf Rd].
  apply LogFacts.notna_true in Rf, Rd.
  split; [exact Rf|]. split; [exact Rd|].
  exists a, e. repeat split; auto.
  apply in_concat. exists year. auto.
Qed.
End WithClock.

End MergeFacts.

(** C5: with an empty master index the merge returns an empty frame.
    Otherwise every returned row has a form type and a filing date, both
    taken from an index entry whose key is the one derived from the log
    row the returned row carries; so no returned row carries a log row
    whose key matches no entry; and the merge returns whenever the one
    call of the date conversion on the date column returns, with one
    timestamp per cell. *)
Theorem merge_drops_unmatched (to_datetime : list string -> option (list (option Z))) :
  (forall logs,
      Reconciliation.merge_logs_and_index to_datetime [] logs = Returned []) /\
  (forall master logs out,
      Reconciliation.merge_logs_and_index to_datetime master logs = Returned out ->
      forall m, In m out ->
        Merged.form m <> None /\ Merged.filing_date m <> None /\
        exists a e,
          In a (List.concat logs) /\ In e master /\
          Entry.acc_path e = acc_path_of_log (Agg.cik a) (Agg.accession a) /\
          Merged.cik m = Agg.cik a /\
          Merged.accession m = normalize_accession (Agg.accession a) /\
          Merged.nr_total m = Agg.nr_total a /\
          Merged.form m = Entry.Form_Type e /\
          Merged.filing_date m = Entry.Date_Filed e) /\
  (forall master logs out a,
      Reconciliation.merge_logs_and_index to_datetime master logs = Returned out ->
      (forall e, In e master ->
         Entry.acc_path e <> acc_path_of_log (Agg.cik a) (Agg.accession a)) ->
      forall m, In m out ->
        log_key (Merged.cik m) (Merged.accession m)
          <> acc_path_of_log (Agg.cik a) (Agg.accession a)) /\
  (forall master logs dates,
      to_datetime (Reconciliation.date_column master logs) = Some dates ->
      List.length dates = List.length (Reconciliation.date_column master logs) ->
      exists out,
        Reconciliation.merge_logs_and_index to_datetime master logs = Returned out).
Proof.
  assert (Hmain : forall master logs out,
      Reconciliation.merge_logs_and_index to_datetime master logs = Returned out ->
      forall m, In m out ->
        Merged.form m <> None /\ Merged.filing_date m <> None /\
        exists a e,
          In a (List.concat logs) /\ In e master /\
          Entry.acc_path e = acc_path_of_log (Agg.cik a) (Agg.accession a) /\
          Merged.cik m = Agg.cik a /\
          Merged.accession m = normalize_accession (Agg.accession a) /\
          Merged.nr_total m = Agg.nr_total a /\
          Merged.form m = Entry.Form_Type e /\
          Merged.filing_date m = Entry.Date_Filed e).
  { intros master logs out. unfold Reconciliation.merge_logs_and_index.
    destruct (LogAggregator.empty master);
      [intros E; injection E as <-; contradiction|].
    destruct (LogAggregator.empty _);
      [intros E; injection E as <-; contradiction|].
    destruct (LogAggregator.empty _);
      [intros E; injection E as <-; contradiction|].
    destruct (Reconciliation.finalize_rows to_datetime _) as [rows|] eqn:Erows;
      [|discriminate].
    intros E m Hm. injection E as <-.
    apply FrameFacts.sort_values_In in Hm.
    destruct (MergeFacts.finalize_rows_In _ _ _ _ Erows Hm) as (j & d & Hj & ->).
    destruct (MergeFacts.finalize_row_fields j d) as (Ec & Ea & En & Ef & Ed).
    apply MergeFacts.final_logs_In in Hj
      as (Hf & Hd & a & e & Ha & He & Hk & Hc & Hacc & Hn & Hform & Hdate).
    rewrite Ef, Ed, Ec, Ea, En.
    split; [exact Hf|]. split; [exact Hd|].
    exists a, e. repeat split; assumption. }
  split; [reflexivity|]. split; [exact Hmain|]. split.
  - intros master logs out a E Hnone m Hm Hkey.
    destruct (Hmain master logs out E m Hm)
      as (_ & _ & a' & e & _ & He & Hk & Hc & Hacc & _).
    apply (Hnone e He). rewrite <- Hkey, Hk, Hc, Hacc. reflexivity.
  - intros master logs dates Hdates Hlen.
    unfold Reconciliation.date_column in Hdates, Hlen.
    unfold Reconciliation.merge_logs_and_index.
    destruct (LogAggregator.empty master); [eauto|].
    destruct (LogAggregator.empty _); [eauto|].
    destruct (LogAggregator.empty _); [eauto|].
    destruct (MergeFacts.finalize_rows_total to_datetime _ dates Hdates Hlen)
      as (ms & ->).
    eauto.
Qed.

Lemma merge_drops_unmatched_witness :
  let clock := fun col : list string =>
    Some (map (fun s => Some (Z.of_nat (String.length s))) col) in
  let master := [Entry.mk (Some "10-K") (Some "2011-03-01")
                   "edgar/data/12/000111000001"] in
  let lost := Agg.mk "2011-03-02" 13 "0009-11-000009" 1 0 1 0 0 in
  let logs := [[Agg.mk "2011-03-02" 12 "0001-11-000001" 2 1 0 0 1; lost]] in
  let out := [Merged.mk (Some 10) 12 "0001-11-000001" 2 1 0 0 1
                (Some "10-K") (Some "2011-03-01")] in
  Reconciliation.merge_logs_and_index clock master logs = Returned out /\
  (forall m, In m out -> Merged.form m <> None /\ Merged.filing_date m <> None) /\
  (forall m, In m out ->
     log_key (Merged.cik m) (Merged.accession m)
       <> acc_path_of_log (Agg.cik lost) (Agg.accession lost)) /\
  (exists out', Reconciliation.merge_logs_and_index clock master logs = Returned out').
Proof.
  intros clock master lost logs out.
  assert (E : Reconciliation.merge_logs_and_index clock master logs = Returned out)
    by reflexivity.
  destruct (merge_drops_unmatched clock) as (_ & H & Hlost & Hruns).
  split; [exact E|]. split; [|split].
  - intros m Hm. destruct (H master logs out E m Hm) as (Hf & Hd & _).
    split; assumption.
  - apply (Hlost master logs out lost E).
    intros e [<-|[]]. vm_compute. discriminate.
  - apply (Hruns master logs [Some 10]); reflexivity.
Defined.

(** ** The master-index build *)

Module IndexFacts.
Import MasterIndexBuilder.

Ltac split_ands := repeat match goal with |- _ /\ _ => split end.

#[local] Arguments Nat.sub : simpl never.

Lemma entry_eqb_eq (x y : Entry.row) : entry_eqb x y = true <-> x = y.
Proof.
  destruct x as [f1 d1 p1], y as [f2 d2 p2]. unfold entry_eqb. simpl.
  rewrite !andb_true_iff, String.eqb_eq.
  assert (Hopt : forall a b : option string,
             Frame.opt_eqb String.eqb a b = true <-> a = b).
  { intros [a|] [b|]; simpl; try (split; congruence).
    rewrite String.eqb_eq. split; congruence. }
  rewrite !Hopt. split.
  - intros [[-> ->] ->]. reflexivity.
  - intros E. injection E as -> -> ->. auto.
Qed.

Lemma pacing_app (l l' : list event) : pacing (l ++ l') = (pacing l ++ pacing l')%list.
Proof. apply filter_app. Qed.

Lemma paced_succ (year : Z) (q : quarter) (n : nat) :
  (1 <= n)%nat ->
  paced year q (S n) = Fetch year q :: Sleep 2 :: paced year q n.
Proof. destruct n; [lia|reflexivity]. Qed.

Section Quarter.
Variables (w : World) (year : Z) (q : quarter).

(** The loop ends within its fuel, only adds to the trace and to the
    accumulated frames, and what it adds to the trace is a run of at
    most [max_retries - retries] fetches, two units of sleep between
    consecutive ones. *)
Lemma retry_loop_runs (fuel retries : nat) (st : state) :
  (retries <= max_retries)%nat ->
  (max_retries - retries < fuel)%nat ->
  exists st' new extra n,
    retry_loop fuel w year q retries st = Some st' /\
    trace st' = (trace st ++ new)%list /\
    all_index_dfs st' = (all_index_dfs st ++ extra)%list /\
    pacing new = paced year q n /\
    (n <= max_retries - retries)%nat /\
    ((retries < max_retries)%nat -> (1 <= n)%nat).
Proof.
  unfold max_retries.
  revert retries st. induction fuel as [|fuel IH]; intros retries st Hr Hf;
    [lia|].
  simpl. unfold max_retries.
  destruct (Nat.ltb_spec retries 3) as [Hlt|Hge].
  2:{ exists st, [], [], 0%nat. rewrite !app_nil_r.
      split_ands; auto; lia. }
  assert (Hstep : forall st1 mid,
             trace st1 = (trace st ++ Fetch year q :: mid)%list ->
             all_index_dfs st1 = all_index_dfs st ->
             pacing mid = (if (S retries <? 3)%nat then [Sleep 2] else []) ->
             exists st' new extra n,
               retry_loop fuel w year q (S retries) st1 = Some st' /\
               trace st' = (trace st ++ new)%list /\
               all_index_dfs st' = (all_index_dfs st ++ extra)%list /\
               pacing new = paced year q n /\
               (n <= 3 - retries)%nat /\ (1 <= n)%nat).
  { intros st1 mid Ht Hd Hp.
    destruct (IH (S retries) st1) as (st' & new & extra & n & E & Et & Ed & Ep & Hn & Hn1);
      [lia|lia|].
    assert (Hpace : pacing (Fetch year q :: mid ++ new)
                    = (Fetch year q :: pacing mid ++ paced year q n)%list).
    { change (Fetch year q :: mid ++ new)%list
        with ([Fetch year q] ++ mid ++ new)%list.
      now rewrite !pacing_app, Ep. }
    exists st', (Fetch year q :: mid ++ new)%list, extra.
    destruct (Nat.ltb_spec (S retries) 3) as [Hlt'|Hge'].
    - exists (S n).
      split; [exact E|].
      split; [now rewrite Et, Ht, <- app_assoc|].
      split; [now rewrite Ed, Hd|].
      split; [|lia].
      rewrite Hpace, Hp, paced_succ by (apply Hn1; lia). reflexivity.
    - exists 1%nat.
      split; [exact E|].
      split; [now rewrite Et, Ht, <- app_assoc|].
      split; [now rewrite Ed, Hd|].
      split; [|lia].
      rewrite Hpace, Hp. replace n with 0%nat by lia. reflexivity. }
  destruct (w year q retries) as [|file].
  - destruct (Nat.ltb_spec (S retries) 3) as [Hlt'|Hge'].
    + destruct (Hstep (emit (Sleep 2) (emit (Fetch year q) st)) [Sleep 2])
        as (st' & new & extra & n & E & H); simpl.
      * now rewrite <- app_assoc.
      * reflexivity.
      * destruct (Nat.ltb_spec (S retries) 3); [reflexivity|lia].
      * exists st', new, extra, n. split; [exact E|].
        destruct H as (? & ? & ? & ? & ?). split_ands; auto.
    + exists (emit (Fetch year q) st), [Fetch year q], [], 1%nat.
      simpl. rewrite app_nil_r. split_ands; auto; lia.
  - destruct (try_file file) as [df| |].
    + exists (append_df df (emit (Fetch year q) st)), [Fetch year q], [df], 1%nat.
      simpl. split_ands; auto; lia.
    + exists (emit (Fetch year q) st), [Fetch year q], [], 1%nat.
      simpl. rewrite app_nil_r. split_ands; auto; lia.
    + destruct (Nat.ltb_spec (S retries) 3) as [Hlt'|Hge'].
      * destruct (Hstep (emit (Remove year q)
                           (emit (Sleep 2) (emit (Fetch year q) st)))
                    [Sleep 2; Remove year q])
          as (st' & new & extra & n & E & H); simpl.
        -- now rewrite <- !app_assoc.
        -- reflexivity.
        -- destruct (Nat.ltb_spec (S retries) 3); [reflexivity|lia].
        -- exists st', new, extra, n. split; [exact E|].
           destruct H as (? & ? & ? & ? & ?). split_ands; auto.
      * destruct (Hstep (emit (Remove year q) (emit (Fetch year q) st))
                    [Remove year q])
          as (st' & new & extra & n & E & H); simpl.
        -- now rewrite <- !app_assoc.
        -- reflexivity.
        -- destruct (Nat.ltb_spec (S retries) 3); [lia|reflexivity].
        -- exists st', new, extra, n. split; [exact E|].
           destruct H as (? & ? & ? & ? & ?). split_ands; auto.
Qed.

(** When the attempts from [retries] up to [k] fault and attempt [k]
    yields a frame, the loop appends exactly that frame. *)
Lemma retry_loop_appends (k : nat) (df : list Idx.row) (file : parsed)
    (fuel retries : nat) (st : state) :
  (retries <= k < max_retries)%nat ->
  (max_retries - retries < fuel)%nat ->
  (forall j, (retries <= j < k)%nat -> faults (w year q j) = true) ->
  w year q k = Downloaded file ->
  try_file file = Appended df ->
  exists st',
    retry_loop fuel w year q retries st = Some st' /\
    all_index_dfs st' = (all_index_dfs st ++ [df])%list.
Proof.
  unfold max_retries. intros Hk Hf Hfault Hw Htry.
  revert retries st Hk Hf Hfault.
  induction fuel as [|fuel IH]; intros retries st Hk Hf Hfault; [lia|].
  simpl. unfold max_retries.
  destruct (Nat.ltb_spec retries 3) as [_|Hge]; [|lia].
  destruct (Nat.eq_dec retries k) as [->|Hne].
  - rewrite Hw, Htry. eexists. split; reflexivity.
  - pose proof (Hfault retries ltac:(lia)) as Hbad.
    unfold faults in Hbad.
    destruct (Nat.ltb_spec (S retries) 3) as [_|Hge]; [|lia].
    destruct (w year q retries) as [|file'].
    + destruct (IH (S retries) (emit (Sleep 2) (emit (Fetch year q) st)))
        as (st' & E & Ed); [lia|lia|intros; apply Hfault; lia|].
      exists st'. split; [exact E|]. exact Ed.
    + destruct (try_file file'); try discriminate.
      destruct (IH (S retries)
                  (emit (Remove year q)
                     (emit (Sleep 2) (emit (Fetch year q) st))))
        as (st' & E & Ed); [lia|lia|intros; apply Hfault; lia|].
      exists st'. split; [exact E|]. exact Ed.
Qed.
End Quarter.

Section Run.
Variable w : World.

Lemma do_quarter_runs (year : Z) (q : quarter) (st : state) :
  exists st' extra,
    do_quarter w year q st = Some st' /\
    all_index_dfs st' = (all_index_dfs st ++ extra)%list.
Proof.
  destruct (retry_loop_runs w year q (S max_retries) 0 st)
    as (st' & new & extra & n & E & _ & Ed & _);
    [unfold max_retries; lia|unfold max_retries; lia|].
  now exists st', extra.
Qed.

Lemma for_quarters_runs (year : Z) (qs : list quarter) (st : state) :
  exists st' extra,
    for_quarters w year qs st = Some st' /\
    all_index_dfs st' = (all_index_dfs st ++ extra)%list.
Proof.
  revert st. induction qs as [|q qs IH]; intros st; simpl.
  - exists st, []. now rewrite app_nil_r.
  - destruct (do_quarter_runs year q st) as (st1 & x1 & -> & E1).
    destruct (IH st1) as (st' & x2 & E & E2).
    exists st', (x1 ++ x2)%list. split; [exact E|].
    now rewrite E2, E1, app_assoc.
Qed.

Lemma for_years_runs (years : list Z) (st : state) :
  exists st' extra,
    for_years w years st = Some st' /\
    all_index_dfs st' = (all_index_dfs st ++ extra)%list.
Proof.
  revert st. induction years as [|y years IH]; intros st; cbn [for_years].
  - exists st, []. now rewrite app_nil_r.
  - destruct (for_quarters_runs y quarters st) as (st1 & x1 & -> & E1).
    destruct (IH st1) as (st' & x2 & E & E2).
    exists st', (x1 ++ x2)%list. split; [exact E|].
    now rewrite E2, E1, app_assoc.
Qed.

Lemma do_quarter_keeps (year : Z) (q : quarter) (df : list Idx.row)
    (st : state) :
  settles w year q df ->
  exists st',
    do_quarter w year q st = Some st' /\
    all_index_dfs st' = (all_index_dfs st ++ [df])%list.
Proof.
  intros (k & file & Hk & Hfault & Hw & Htry).
  apply (retry_loop_appends w year q k df file); auto;
    try (unfold max_retries in *; lia).
  intros j Hj. apply Hfault. lia.
Qed.

Lemma for_quarters_keeps (year : Z) (q : quarter) (df : list Idx.row)
    (qs : list quarter) (st : state) :
  In q qs -> settles w year q df ->
  exists st', for_quarters w year qs st = Some st' /\
              In df (all_index_dfs st').
Proof.
  intros Hin Hok. revert st.
  induction qs as [|q0 qs IH]; intros st; [contradiction|]. simpl.
  destruct Hin as [->|Hin].
  - destruct (do_quarter_keeps year q df st Hok) as (st1 & -> & E1).
    destruct (for_quarters_runs year qs st1) as (st' & x & E & E2).
    exists st'. split; [exact E|].
    rewrite E2, E1. apply in_or_app. left. apply in_or_app. right.
    now left.
  - destruct (do_quarter_runs year q0 st) as (st1 & x1 & -> & _).
    apply (IH Hin).
Qed.

Lemma for_years_keeps (year : Z) (q : quarter) (df : list Idx.row)
    (years : list Z) (st : state) :
  In year years -> settles w year q df ->
  exists st', for_years w years st = Some st' /\
              In df (all_index_dfs st').
Proof.
  intros Hin Hok. revert st.
  induction years as [|y years IH]; intros st; [contradiction|]. cbn [for_years].
  destruct Hin as [->|Hin].
  - destruct (for_quarters_keeps year q df quarters st) as (st1 & -> & H1);
      [destruct q; simpl; tauto|exact Hok|].
    destruct (for_years_runs years st1) as (st' & x & E & E2).
    exists st'. split; [exact E|].
    rewrite E2. apply in_or_app. now left.
  - destruct (for_quarters_runs y quarters st) as (st1 & x1 & -> & _).
    apply (IH Hin).
Qed.
End Run.

Lemma finish_In (dfs : list (list Idx.row)) (df : list Idx.row) (r : Idx.row) :
  In df dfs -> In r df -> In (to_entry r) (finish dfs).
Proof.
  intros Hdf Hr. unfold finish.
  destruct dfs as [|d0 dfs0] eqn:E; [contradiction|]. rewrite <- E in *.
  apply FrameFacts.drop_duplicates_In; [exact entry_eqb_eq|].
  apply in_map. apply in_concat. exists df. auto.
Qed.

End IndexFacts.

(** C6: for each year and quarter the retry loop ends, makes between one
    and three fetches, and sleeps exactly two units between consecutive
    fetches and nowhere else; the whole build returns an index whatever
    the archive does; and the rows of every quarter whose fetch and
    verification succeed within the three attempts are in that index,
    whichever other quarters run out of attempts. *)
Theorem index_retry_and_isolation (w : MasterIndexBuilder.World) :
  (forall year q st,
      exists st' new n,
        MasterIndexBuilder.do_quarter w year q st = Some st' /\
        MasterIndexBuilder.trace st' = (MasterIndexBuilder.trace st ++ new)%list /\
        MasterIndexBuilder.pacing new = MasterIndexBuilder.paced year q n /\
        (1 <= n <= MasterIndexBuilder.max_retries)%nat) /\
  (forall index_years,
      exists index,
        MasterIndexBuilder.run_master_index_download w index_years = Some index) /\
  (forall index_years index year q k rows df,
      MasterIndexBuilder.run_master_index_download w index_years = Some index ->
      In year index_years ->
      (k < MasterIndexBuilder.max_retries)%nat ->
      (forall j, (j < k)%nat -> MasterIndexBuilder.faults (w year q j) = true) ->
      w year q k = MasterIndexBuilder.Downloaded (MasterIndexBuilder.Table rows) ->
      MasterIndexBuilder.first_row_check rows = Returned df ->
      forall r, In r df -> In (MasterIndexBuilder.to_entry r) index).
Proof.
  split; [|split].
  - intros year q st.
    destruct (IndexFacts.retry_loop_runs w year q
                (S MasterIndexBuilder.max_retries) 0 st)
      as (st' & new & extra & n & E & Et & _ & Ep & Hn & Hn1);
      [unfold MasterIndexBuilder.max_retries; lia
      |unfold MasterIndexBuilder.max_retries; lia|].
    exists st', new, n. repeat (split; [assumption|]).
    unfold MasterIndexBuilder.max_retries in *. lia.
  - intros years. unfold MasterIndexBuilder.run_master_index_download.
    destruct (IndexFacts.for_years_runs w years MasterIndexBuilder.start)
      as (st' & extra & -> & _).
    eauto.
  - intros years index year q k rows df Hrun Hy Hk Hfault Hw Hcheck r Hr.
    unfold MasterIndexBuilder.run_master_index_download in Hrun.
    destruct (IndexFacts.for_years_keeps w year q df years MasterIndexBuilder.start Hy)
      as (st' & E & Hdf).
    { exists k, (MasterIndexBuilder.Table rows).
      repeat (split; [assumption|]). simpl. now rewrite Hcheck. }
    rewrite E in Hrun. injection Hrun as <-.
    now apply (IndexFacts.finish_In _ df).
Qed.

Lemma index_retry_and_isolation_witness :
  let good := Idx.mk (Some "12") (Some "10-K") (Some "2010-05-03")
                (Some "edgar/data/12/000111000001.txt") in
  let rule := Idx.mk (Some "------") (Some "------") (Some "------")
                (Some "------") in
  let w : MasterIndexBuilder.World := fun year q n =>
    match q, n with
    | MasterIndexBuilder.QTR2, 2%nat =>
        MasterIndexBuilder.Downloaded (MasterIndexBuilder.Table [rule; good])
    | MasterIndexBuilder.QTR2, 1%nat =>
        MasterIndexBuilder.Downloaded MasterIndexBuilder.ParseRaises
    | _, _ => MasterIndexBuilder.DownloadFails
    end in
  In (MasterIndexBuilder.to_entry good)
    [Entry.mk (Some "10-K") (Some "2010-05-03") "edgar/data/12/000111000001"].
Proof.
  intros good rule w.
  destruct (index_retry_and_isolation w) as (_ & _ & H).
  apply (H [2010]
           [Entry.mk (Some "10-K") (Some "2010-05-03") "edgar/data/12/000111000001"]
           2010 MasterIndexBuilder.QTR2 2%nat [rule; good] [good]).
  - reflexivity.
  - left. reflexivity.
  - unfold MasterIndexBuilder.max_retries. lia.
  - intros j Hj. destruct j as [|[|j]]; [reflexivity|reflexivity|lia].
  - reflexivity.
  - reflexivity.
  - left. reflexivity.
Defined.

(* ================================================================== *)
(** * Further properties *)
(* ================================================================== *)

(** ** What the aggregated counts count *)

Module CountFacts.
Import LogAggregator.

Lemma group_row_fields (cls : list Cls.row) (k : key) :
  let members := filter (in_group k) cls in
  Agg.htm (group_row cls k) = total Cls.htm members /\
  Agg.txt (group_row cls k) = total Cls.txt members /\
  Agg.xbrl (group_row cls k) = total Cls.xbrl members /\
  Agg.other (group_row cls k) = total Cls.other members.
Proof. destruct k as [[d c] a]. simpl. auto. Qed.

(** A column that is 0 or 1 on every row sums to the number of ones. *)
Lemma total_indicator (f : Cls.row -> Z) (p : Raw.row -> bool) (k : key)
    (rows : list Raw.row) :
  (forall r, f (classify r) = as_int (p r)) ->
  total f (filter (in_group k) (map classify rows)) =
  Z.of_nat (List.length
              (filter (fun r => in_group k (classify r) && p r) rows)).
Proof.
  intros Hf. unfold total.
  induction rows as [|r rows IH]; [reflexivity|].
  cbn [map filter].
  destruct (in_group k (classify r)); cbn [andb]; [|exact IH].
  cbn [map fold_right]. rewrite IH, Hf.
  destruct (p r); cbn [as_int List.length]; lia.
Qed.

Lemma classify_one_hot (r : Raw.row) :
  Cls.htm (classify r) + Cls.txt (classify r) + Cls.xbrl (classify r)
    + Cls.other (classify r) = 1.
Proof.
  unfold classify, isin. cbn.
  set (e := file_type (Raw.extention r)).
  destruct (String.eqb_spec e "htm") as [->|_]; [reflexivity|].
  destruct (String.eqb_spec e "txt") as [->|_]; [reflexivity|].
  destruct (String.eqb_spec e "xbrl") as [->|_]; reflexivity.
Qed.

Lemma total_members (k : key) (rows : list Raw.row) :
  let members := filter (in_group k) (map classify rows) in
  total Cls.htm members + total Cls.txt members + total Cls.xbrl members
    + total Cls.other members =
  Z.of_nat (List.length (filter (fun r => in_group k (classify r)) rows)).
Proof.
  unfold total. induction rows as [|r rows IH]; [reflexivity|].
  cbn [map filter].
  destruct (in_group k (classify r)); [|exact IH].
  cbn [map fold_right List.length]. cbn zeta in IH.
  pose proof (classify_one_hot r). lia.
Qed.

Lemma keys_of_In (cls : list Cls.row) (k : key) :
  In k (keys_of cls) <-> exists c, In c cls /\ group_key c = Some k.
Proof.
  induction cls as [|c cls IH]; simpl.
  - split; [contradiction|]. now intros (c & [] & _).
  - destruct (group_key c) as [k0|] eqn:E; simpl; rewrite IH; split.
    + intros [<-|(c' & Hc & Hk)]; eauto.
    + intros (c' & [<-|Hc] & Hk); [left; congruence|eauto].
    + intros (c' & Hc & Hk); eauto.
    + intros (c' & [<-|Hc] & Hk); [congruence|eauto].
Qed.

Lemma group_keys_In (cls : list Cls.row) (k : key) :
  In k (Frame.sort_values key_leb (Frame.drop_duplicates key_eqb (keys_of cls)))
  <-> In k (keys_of cls).
Proof.
  rewrite FrameFacts.sort_values_In.
  apply FrameFacts.drop_duplicates_In. exact AggFacts.key_eqb_eq.
Qed.

Lemma groupby_sum_In (cls : list Cls.row) (a : Agg.row) :
  In a (groupby_sum cls) ->
  a = group_row cls (agg_key a) /\ In (agg_key a) (keys_of cls).
Proof.
  unfold groupby_sum. rewrite in_map_iff. intros (k & <- & Hk).
  rewrite AggFacts.agg_key_group_row. split; [reflexivity|].
  now apply group_keys_In.
Qed.

Lemma in_group_key (k : key) (c : Cls.row) :
  in_group k c = true <-> group_key c = Some k.
Proof.
  unfold in_group. destruct (group_key c) as [k'|].
  - rewrite AggFacts.key_eqb_eq. split; congruence.
  - split; discriminate.
Qed.

(** What [_process_log_file] hands to [groupby]. *)
Lemma process_Some (prefixes : list string) (logs : list Raw.row)
    (out : list Agg.row) :
  _process_log_file prefixes logs = Some out ->
  ip_filter prefixes (filter_logs logs) <> [] /\
  out = groupby_sum (map classify (ip_filter prefixes (filter_logs logs))).
Proof.
  unfold _process_log_file.
  destruct (filter_logs logs) as [|r0 rest] eqn:E0; [discriminate|].
  cbn [empty].
  destruct (ip_filter prefixes (r0 :: rest)) as [|r1 rest1]; [discriminate|].
  cbn [empty]. intros E. injection E as <-. split; [discriminate|reflexivity].
Qed.

Lemma process_None (prefixes : list string) (logs : list Raw.row) :
  _process_log_file prefixes logs = None <->
  ip_filter prefixes (filter_logs logs) = [].
Proof.
  unfold _process_log_file.
  destruct (filter_logs logs) as [|r0 rest] eqn:E0; cbn [empty].
  - split; [|reflexivity]. intros _. now destruct prefixes.
  - destruct (ip_filter prefixes (r0 :: rest)); cbn [empty];
      split; congruence.
Qed.

Lemma ip_filter_In (prefixes : list string) (logs : list Raw.row) (r : Raw.row) :
  In r (ip_filter prefixes logs) -> In r logs.
Proof.
  unfold ip_filter. destruct prefixes; [auto|].
  rewrite filter_In. tauto.
Qed.

(** Every retained row has its three key parts. *)
Lemma retained_has_key (prefixes : list string) (logs : list Raw.row)
    (r : Raw.row) :
  In r (ip_filter prefixes (filter_logs logs)) ->
  exists k, group_key (classify r) = Some k.
Proof.
  intros H. apply ip_filter_In in H. unfold filter_logs in H.
  apply filter_In in H as [_ H].
  apply LogFacts.dropna_subset_true in H as (Hc & Ha & Hd & _).
  unfold group_key, classify. cbn.
  destruct (Raw.date r); [|congruence].
  destruct (Raw.cik r); [|congruence].
  destruct (Raw.accession r); [|congruence].
  eauto.
Qed.

End CountFacts.

(** X1: in a written file, each count of a row is the number of retained
    raw rows with that row's key and the matching file type ([other]: a
    type that is none of htm, txt, xbrl), [nr_total] is the number of
    retained rows with the key, and it is at least 1. *)
Theorem aggregated_counts_count_rows
    (prefixes : list string) (logs : list Raw.row) (out : list Agg.row)
    (a : Agg.row) :
  LogAggregator._process_log_file prefixes logs = Some out ->
  In a out ->
  let kept := LogAggregator.ip_filter prefixes (LogAggregator.filter_logs logs) in
  let same_key r :=
    LogAggregator.in_group (LogAggregator.agg_key a) (LogAggregator.classify r) in
  let type r := LogAggregator.file_type (Raw.extention r) in
  let count p := Z.of_nat (List.length (filter p kept)) in
  Agg.htm a = count (fun r => same_key r && String.eqb (type r) "htm") /\
  Agg.txt a = count (fun r => same_key r && String.eqb (type r) "txt") /\
  Agg.xbrl a = count (fun r => same_key r && String.eqb (type r) "xbrl") /\
  Agg.other a =
    count (fun r => same_key r
                    && negb (LogAggregator.isin (type r) ["htm"; "txt"; "xbrl"])) /\
  Agg.nr_total a = count same_key /\
  1 <= Agg.nr_total a.
Proof.
  intros Hout Ha kept same_key type count.
  apply CountFacts.process_Some in Hout as [_ ->]. fold kept in Ha.
  pose proof (AggFacts.groupby_sum_total _ _ Ha) as Htotal.
  apply CountFacts.groupby_sum_In in Ha as [Ea Hk].
  set (k := LogAggregator.agg_key a) in *.
  destruct (CountFacts.group_row_fields (map LogAggregator.classify kept) k)
    as (Hh & Ht & Hx & Ho).
  rewrite <- Ea in Hh, Ht, Hx, Ho.
  pose proof (CountFacts.total_members k kept) as Hsum. cbn zeta in Hsum.
  assert (Hn : Agg.nr_total a = count same_key).
  { rewrite Htotal, Hh, Ht, Hx, Ho. exact Hsum. }
  split; [|split; [|split; [|split; [|split]]]].
  - rewrite Hh.
    now apply (CountFacts.total_indicator Cls.htm
                 (fun r => String.eqb (type r) "htm")).
  - rewrite Ht.
    now apply (CountFacts.total_indicator Cls.txt
                 (fun r => String.eqb (type r) "txt")).
  - rewrite Hx.
    now apply (CountFacts.total_indicator Cls.xbrl
                 (fun r => String.eqb (type r) "xbrl")).
  - rewrite Ho.
    apply (CountFacts.total_indicator Cls.other
             (fun r => negb (LogAggregator.isin (type r) ["htm"; "txt"; "xbrl"]))).
    intros r. unfold LogAggregator.classify, type. cbn [Cls.other].
    now destruct (LogAggregator.isin _ _).
  - exact Hn.
  - rewrite Hn. unfold count.
    apply CountFacts.keys_of_In in Hk as (c & Hc & Hkey).
    apply in_map_iff in Hc as (r & <- & Hr).
    assert (Hin : In r (filter same_key kept)).
    { apply filter_In. split; [exact Hr|].
      now apply CountFacts.in_group_key. }
    destruct (filter same_key kept); [contradiction|].
    cbn [List.length]. lia.
Qed.

Lemma aggregated_counts_count_rows_witness :
  let r e := Raw.mk (Some "1.2.3.4") (Some "2011-01-01") (Some 12)
               (Some "0001-11-000001") (Some e) (Some 404) (Some 0) (Some 0) in
  let a := Agg.mk "2011-01-01" 12 "0001-11-000001" 3 2 0 0 1 in
  Agg.htm a = 2 /\ Agg.other a = 1 /\ 1 <= Agg.nr_total a.
Proof.
  intros r a.
  destruct (aggregated_counts_count_rows [] [r "a.htm"; r "b.pdf"; r "c.HTM"] [a] a
              eq_refl (or_introl eq_refl)) as (Hh & _ & _ & Ho & _ & H1).
  split; [exact Hh|]. split; [exact Ho|exact H1].
Defined.

(** ** Groups partition the retained rows *)

Module PartitionFacts.
Import LogAggregator Column.

Lemma sum_zeros {A : Type} (l : list A) : sum (map (fun _ => 0) l) = 0.
Proof. unfold sum. induction l as [|x l IH]; simpl; lia. Qed.

Lemma sum_map_add {A : Type} (f g : A -> Z) (l : list A) :
  sum (map (fun x => f x + g x) l) = sum (map f l) + sum (map g l).
Proof. unfold sum. induction l as [|x l IH]; simpl; lia. Qed.

Lemma sum_hits_none (k0 : key) (ks : list key) :
  ~ In k0 ks -> sum (map (fun k => as_int (key_eqb k0 k)) ks) = 0.
Proof.
  unfold sum. induction ks as [|k ks IH]; simpl; intros H; [reflexivity|].
  rewrite IH by tauto.
  destruct (key_eqb k0 k) eqn:E; [|reflexivity].
  apply AggFacts.key_eqb_eq in E. subst. tauto.
Qed.

Lemma sum_hits_one (k0 : key) (ks : list key) :
  NoDup ks -> In k0 ks -> sum (map (fun k => as_int (key_eqb k0 k)) ks) = 1.
Proof.
  intros Hnd. induction Hnd as [|k ks Hk Hnd IH]; [contradiction|].
  intros [->|Hin]; cbn [map sum fold_right].
  - rewrite AggFacts.key_eqb_refl.
    fold (sum (map (fun k => as_int (key_eqb k0 k)) ks)).
    rewrite sum_hits_none by assumption. reflexivity.
  - fold (sum (map (fun k => as_int (key_eqb k0 k)) ks)).
    rewrite (IH Hin).
    destruct (key_eqb k0 k) eqn:E; [|reflexivity].
    apply AggFacts.key_eqb_eq in E. subst. contradiction.
Qed.

(** Over keys without repetition that cover the rows, the group sizes
    add up to the number of rows. *)
Lemma group_sizes_sum (ks : list key) (rows : list Raw.row) :
  NoDup ks ->
  (forall r, In r rows -> exists k, In k ks /\ group_key (classify r) = Some k) ->
  sum (map (fun k => Z.of_nat (List.length
                                 (filter (fun r => in_group k (classify r)) rows)))
         ks)
  = Z.of_nat (List.length rows).
Proof.
  intros Hnd. induction rows as [|r rows IH]; intros Hcover.
  - cbn [filter List.length Z.of_nat]. apply sum_zeros.
  - destruct (Hcover r (or_introl eq_refl)) as (k0 & Hk0 & Ek0).
    rewrite (map_ext _
               (fun k => as_int (key_eqb k0 k)
                         + Z.of_nat (List.length
                                       (filter (fun r => in_group k (classify r)) rows)))).
    + rewrite sum_map_add, IH, (sum_hits_one k0 ks Hnd Hk0).
      * cbn [List.length]. lia.
      * intros r' Hr'. apply Hcover. now right.
    + intros k. cbn [filter]. unfold in_group at 1. rewrite Ek0.
      destruct (key_eqb k0 k); cbn [as_int List.length]; lia.
Qed.

End PartitionFacts.

(** X2: the written totals account for every retained request exactly
    once: the [nr_total] column of a written file sums to the number of
    raw rows that passed the filters. *)
Theorem aggregation_conserves_requests
    (prefixes : list string) (logs : list Raw.row) (out : list Agg.row) :
  LogAggregator._process_log_file prefixes logs = Some out ->
  fold_right Z.add 0 (map Agg.nr_total out) =
  Z.of_nat (List.length
              (LogAggregator.ip_filter prefixes (LogAggregator.filter_logs logs))).
Proof.
  intros Hout. apply CountFacts.process_Some in Hout as [_ ->].
  set (kept := LogAggregator.ip_filter prefixes (LogAggregator.filter_logs logs)).
  unfold LogAggregator.groupby_sum. rewrite map_map.
  set (ks := Frame.sort_values LogAggregator.key_leb
               (Frame.drop_duplicates LogAggregator.key_eqb
                  (LogAggregator.keys_of (map LogAggregator.classify kept)))).
  rewrite (map_ext _
             (fun k => Z.of_nat
                         (List.length
                            (filter (fun r => LogAggregator.in_group k
                                                (LogAggregator.classify r)) kept)))).
  - apply PartitionFacts.group_sizes_sum.
    + eapply Permutation_NoDup; [apply FrameFacts.sort_values_perm|].
      apply FrameFacts.drop_duplicates_NoDup. exact AggFacts.key_eqb_eq.
    + intros r Hr.
      destruct (CountFacts.retained_has_key prefixes logs r Hr) as (k & Hk).
      exists k. split; [|exact Hk].
      apply CountFacts.group_keys_In, CountFacts.keys_of_In.
      exists (LogAggregator.classify r). split; [now apply in_map|exact Hk].
  - intros k.
    rewrite (AggFacts.group_row_total (map LogAggregator.classify kept) k).
    destruct (CountFacts.group_row_fields (map LogAggregator.classify kept) k)
      as (-> & -> & -> & ->).
    apply CountFacts.total_members.
Qed.

Lemma aggregation_conserves_requests_witness :
  let r e d c := Raw.mk (Some "1.2.3.4") (Some d) (Some 12)
                   (Some "0001-11-000001") (Some e) (Some c) (Some 0) (Some 0) in
  let logs := [r "htm" "2011-01-02" 404; r "txt" "2011-01-01" 301;
               r "htm" "2011-01-02" 200; r "pdf" "2011-01-02" 500] in
  fold_right Z.add 0
    (map Agg.nr_total
       [Agg.mk "2011-01-01" 12 "0001-11-000001" 1 0 1 0 0;
        Agg.mk "2011-01-02" 12 "0001-11-000001" 2 1 0 0 1]) = 3.
Proof.
  intros r logs.
  exact (aggregation_conserves_requests [] logs _ eq_refl).
Defined.

(** X3: the keys of a written file are exactly the [(date, cik,
    accession)] triples of the retained raw rows. *)
Theorem aggregated_keys_are_retained_keys
    (prefixes : list string) (logs : list Raw.row) (out : list Agg.row)
    (d : string) (c : Z) (acc : string) :
  LogAggregator._process_log_file prefixes logs = Some out ->
  (In (d, c, acc) (map LogAggregator.agg_key out) <->
   exists r,
     In r (LogAggregator.ip_filter prefixes (LogAggregator.filter_logs logs)) /\
     Raw.date r = Some d /\ Raw.cik r = Some c /\ Raw.accession r = Some acc).
Proof.
  intros Hout. apply CountFacts.process_Some in Hout as [_ ->].
  rewrite AggFacts.groupby_sum_keys, CountFacts.group_keys_In,
    CountFacts.keys_of_In.
  split.
  - intros (cl & Hcl & Hk). apply in_map_iff in Hcl as (r & <- & Hr).
    exists r. split; [exact Hr|].
    unfold LogAggregator.group_key, LogAggregator.classify in Hk. cbn in Hk.
    destruct (Raw.date r); [|discriminate].
    destruct (Raw.cik r); [|discriminate].
    destruct (Raw.accession r); [|discriminate].
    injection Hk as -> -> ->. auto.
  - intros (r & Hr & Hd & Hc & Ha).
    exists (LogAggregator.classify r). split; [now apply in_map|].
    unfold LogAggregator.group_key, LogAggregator.classify. cbn.
    now rewrite Hd, Hc, Ha.
Qed.

Lemma aggregated_keys_are_retained_keys_witness :
  let r := Raw.mk (Some "1.2.3.4") (Some "2011-01-01") (Some 12)
             (Some "0001-11-000001") (Some "htm") (Some 404) (Some 0) (Some 0) in
  In ("2011-01-01", 12, "0001-11-000001")
    (map LogAggregator.agg_key [Agg.mk "2011-01-01" 12 "0001-11-000001" 1 1 0 0 0]).
Proof.
  intros r.
  apply (aggregated_keys_are_retained_keys [] [r] _ "2011-01-01" 12
           "0001-11-000001" eq_refl).
  exists r. repeat split. left. reflexivity.
Defined.

(** ** Orders and sorting *)

Module OrderFacts.

Lemma ascii_compare_refl (a : ascii) : Ascii.compare a a = Eq.
Proof. unfold Ascii.compare. apply N.compare_refl. Qed.

Lemma ascii_compare_lt_trans (a b c : ascii) :
  Ascii.compare a b = Lt -> Ascii.compare b c = Lt -> Ascii.compare a c = Lt.
Proof.
  unfold Ascii.compare. rewrite !N.compare_lt_iff. apply N.lt_trans.
Qed.

Lemma string_compare_refl (s : string) : String.compare s s = Eq.
Proof.
  induction s as [|a s IH]; simpl; [reflexivity|].
  now rewrite ascii_compare_refl.
Qed.

Lemma string_compare_lt_trans (s1 s2 s3 : string) :
  String.compare s1 s2 = Lt -> String.compare s2 s3 = Lt ->
  String.compare s1 s3 = Lt.
Proof.
  revert s2 s3. induction s1 as [|a s1 IH]; intros [|b s2] [|c s3]; simpl;
    try discriminate; auto.
  destruct (Ascii.compare a b) eqn:Eab; try discriminate;
    destruct (Ascii.compare b c) eqn:Ebc; try discriminate; intros H1 H2.
  - apply Ascii.compare_eq_iff in Eab, Ebc. subst.
    rewrite ascii_compare_refl. eauto.
  - apply Ascii.compare_eq_iff in Eab. subst. now rewrite Ebc.
  - apply Ascii.compare_eq_iff in Ebc. subst. now rewrite Eab.
  - now rewrite (ascii_compare_lt_trans a b c).
Qed.

Lemma string_leb_trans (s1 s2 s3 : string) :
  String.leb s1 s2 = true -> String.leb s2 s3 = true -> String.leb s1 s3 = true.
Proof.
  unfold String.leb.
  destruct (String.compare s1 s2) eqn:E12; try discriminate;
    destruct (String.compare s2 s3) eqn:E23; try discriminate; intros _ _.
  - apply String.compare_eq_iff in E12, E23. subst.
    now rewrite string_compare_refl.
  - apply String.compare_eq_iff in E12. subst. now rewrite E23.
  - apply String.compare_eq_iff in E23. subst. now rewrite E12.
  - now rewrite (string_compare_lt_trans s1 s2 s3).
Qed.

Import LogAggregator.

Lemma key_leb_total (x y : key) : key_leb x y = true \/ key_leb y x = true.
Proof.
  destruct x as [[d1 k1] a1], y as [[d2 k2] a2]. unfold key_leb.
  rewrite (String.compare_antisym d2 d1), (Z.compare_antisym k1 k2).
  destruct (String.compare d1 d2); cbn [CompOpp]; auto.
  destruct (k1 ?= k2); cbn [CompOpp]; auto.
  apply String.leb_total.
Qed.

Lemma key_leb_antisym (x y : key) :
  key_leb x y = true -> key_leb y x = true -> x = y.
Proof.
  destruct x as [[d1 k1] a1], y as [[d2 k2] a2]. unfold key_leb.
  rewrite (String.compare_antisym d2 d1), (Z.compare_antisym k1 k2).
  destruct (String.compare d1 d2) eqn:Ed; cbn [CompOpp]; try discriminate.
  destruct (k1 ?= k2) eqn:Ek; cbn [CompOpp]; try discriminate.
  intros H1 H2.
  apply String.compare_eq_iff in Ed. apply Z.compare_eq in Ek.
  now rewrite Ed, Ek, (String.leb_antisym a1 a2 H1 H2).
Qed.

Lemma key_leb_trans (x y z : key) :
  key_leb x y = true -> key_leb y z = true -> key_leb x z = true.
Proof.
  destruct x as [[d1 k1] a1], y as [[d2 k2] a2], z as [[d3 k3] a3].
  unfold key_leb.
  destruct (String.compare d1 d2) eqn:E12; try discriminate;
    destruct (String.compare d2 d3) eqn:E23; try discriminate.
  - apply String.compare_eq_iff in E12, E23. subst.
    rewrite string_compare_refl.
    destruct (k1 ?= k2) eqn:K12; try discriminate;
      destruct (k2 ?= k3) eqn:K23; try discriminate.
    + apply Z.compare_eq in K12, K23. subst. rewrite Z.compare_refl.
      apply string_leb_trans.
    + apply Z.compare_eq in K12. subst. now rewrite K23.
    + apply Z.compare_eq in K23. subst. now rewrite K12.
    + change (k1 < k2) in K12. change (k2 < k3) in K23.
      assert (K13 : k1 < k3) by lia.
      unfold Z.lt in K13. now rewrite K13.
  - apply String.compare_eq_iff in E12. subst. now rewrite E23.
  - apply String.compare_eq_iff in E23. subst. now rewrite E12.
  - now rewrite (string_compare_lt_trans d1 d2 d3).
Qed.

Section Sorting.
Context {A : Type} (leb : A -> A -> bool).
Hypothesis leb_total : forall x y, leb x y = true \/ leb y x = true.
Hypothesis leb_trans :
  forall x y z, leb x y = true -> leb y z = true -> leb x z = true.

Let R (x y : A) : Prop := leb x y = true.

Lemma insert_sorted_Forall (P : A -> Prop) (x : A) (l : list A) :
  P x -> Forall P l -> Forall P (Frame.insert_sorted leb x l).
Proof.
  intros Hx Hl. induction Hl as [|y l Hy Hl IH]; simpl.
  - auto.
  - destruct (leb x y); auto.
Qed.

Lemma insert_sorted_sorted (x : A) (l : list A) :
  StronglySorted R l -> StronglySorted R (Frame.insert_sorted leb x l).
Proof.
  intros Hs. induction Hs as [|y l Hs IH Hy]; simpl.
  - repeat constructor.
  - destruct (leb x y) eqn:E.
    + constructor; [now constructor|].
      constructor; [exact E|].
      eapply Forall_impl; [|exact Hy]. intros z Hz. exact (leb_trans x y z E Hz).
    + constructor; [exact IH|].
      apply insert_sorted_Forall; [|exact Hy].
      destruct (leb_total x y) as [H|H]; [congruence|exact H].
Qed.

Lemma sort_values_sorted (l : list A) :
  StronglySorted R (Frame.sort_values leb l).
Proof.
  induction l as [|x l IH]; simpl; [constructor|].
  now apply insert_sorted_sorted.
Qed.

Hypothesis leb_antisym :
  forall x y, leb x y = true -> leb y x = true -> x = y.

Lemma sorted_perm_eq (l1 l2 : list A) :
  StronglySorted R l1 -> StronglySorted R l2 -> Permutation l1 l2 -> l1 = l2.
Proof.
  intros H1. revert l2. induction H1 as [|x l1 H1 IH Hx]; intros l2 H2 Hp.
  - now apply Permutation_nil in Hp.
  - destruct H2 as [|y l2 H2 Hy].
    + apply Permutation_sym, Permutation_nil in Hp. discriminate.
    + assert (Exy : x = y).
      { assert (Hxin : In x (y :: l2))
          by (eapply Permutation_in; [exact Hp|now left]).
        assert (Hyin : In y (x :: l1))
          by (eapply Permutation_in; [apply Permutation_sym; exact Hp|now left]).
        destruct Hxin as [E|Hxin]; [now symmetry|].
        destruct Hyin as [E|Hyin]; [exact E|].
        rewrite Forall_forall in Hx, Hy.
        apply leb_antisym; [apply Hx|apply Hy]; assumption. }
      subst y. f_equal. apply IH; [exact H2|].
      now apply Permutation_cons_inv in Hp.
Qed.

Lemma sort_values_perm_eq (l1 l2 : list A) :
  Permutation l1 l2 -> Frame.sort_values leb l1 = Frame.sort_values leb l2.
Proof.
  intros Hp. apply sorted_perm_eq; try apply sort_values_sorted.
  eapply perm_trans; [apply Permutation_sym, FrameFacts.sort_values_perm|].
  eapply perm_trans; [exact Hp|apply FrameFacts.sort_values_perm].
Qed.

End Sorting.

End OrderFacts.

(** X4: the rows of a written file come in ascending order of [(date,
    cik, accession)]: every row's key is at most the key of every later
    row. *)
Theorem aggregated_rows_ascend
    (prefixes : list string) (logs : list Raw.row) (out : list Agg.row) :
  LogAggregator._process_log_file prefixes logs = Some out ->
  StronglySorted (fun x y => LogAggregator.key_leb x y = true)
    (map LogAggregator.agg_key out).
Proof.
  intros Hout. apply CountFacts.process_Some in Hout as [_ ->].
  rewrite AggFacts.groupby_sum_keys.
  apply (OrderFacts.sort_values_sorted LogAggregator.key_leb
           OrderFacts.key_leb_total OrderFacts.key_leb_trans).
Qed.

Lemma aggregated_rows_ascend_witness :
  let r d := Raw.mk (Some "1.2.3.4") (Some d) (Some 12)
               (Some "0001-11-000001") (Some "htm") (Some 404) (Some 0) (Some 0) in
  StronglySorted (fun x y => LogAggregator.key_leb x y = true)
    (map LogAggregator.agg_key
       [Agg.mk "2011-01-01" 12 "0001-11-000001" 1 1 0 0 0;
        Agg.mk "2011-01-02" 12 "0001-11-000001" 1 1 0 0 0]).
Proof.
  intros r.
  exact (aggregated_rows_ascend [] [r "2011-01-02"; r "2011-01-01"] _ eq_refl).
Defined.

(** ** Row order and the allow-list *)

Module InvarianceFacts.
Import LogAggregator.

Lemma perm_filter {A : Type} (f : A -> bool) (l l' : list A) :
  Permutation l l' -> Permutation (filter f l) (filter f l').
Proof.
  induction 1 as [|x l l' _ IH|x y l|l l' l'' _ IH1 _ IH2]; simpl.
  - constructor.
  - destruct (f x); [now constructor|exact IH].
  - destruct (f x), (f y); try apply Permutation_refl. apply perm_swap.
  - eapply perm_trans; eassumption.
Qed.

Lemma perm_keys_of (cls cls' : list Cls.row) :
  Permutation cls cls' -> Permutation (keys_of cls) (keys_of cls').
Proof.
  induction 1 as [|c l l' _ IH|c c' l|l l' l'' _ IH1 _ IH2]; simpl.
  - constructor.
  - destruct (group_key c); [now constructor|exact IH].
  - destruct (group_key c), (group_key c'); try apply Permutation_refl.
    apply perm_swap.
  - eapply perm_trans; eassumption.
Qed.

Lemma perm_total (f : Cls.row -> Z) (l l' : list Cls.row) :
  Permutation l l' -> total f l = total f l'.
Proof.
  unfold total.
  induction 1 as [|c l l' _ IH|c c' l|l l' l'' _ IH1 _ IH2]; simpl; lia.
Qed.

Lemma perm_group_row (cls cls' : list Cls.row) (k : key) :
  Permutation cls cls' -> group_row cls k = group_row cls' k.
Proof.
  intros Hp. destruct k as [[d c] a]. unfold group_row.
  pose proof (perm_filter (in_group (d, c, a)) _ _ Hp) as Hf.
  now rewrite (perm_total Cls.htm _ _ Hf), (perm_total Cls.txt _ _ Hf),
    (perm_total Cls.xbrl _ _ Hf), (perm_total Cls.other _ _ Hf).
Qed.

Lemma perm_groupby_sum (cls cls' : list Cls.row) :
  Permutation cls cls' -> groupby_sum cls = groupby_sum cls'.
Proof.
  intros Hp. unfold groupby_sum.
  assert (Hk : Frame.sort_values key_leb
                 (Frame.drop_duplicates key_eqb (keys_of cls))
               = Frame.sort_values key_leb
                   (Frame.drop_duplicates key_eqb (keys_of cls'))).
  { apply (OrderFacts.sort_values_perm_eq key_leb OrderFacts.key_leb_total
             OrderFacts.key_leb_trans OrderFacts.key_leb_antisym).
    apply NoDup_Permutation;
      try (apply FrameFacts.drop_duplicates_NoDup; exact AggFacts.key_eqb_eq).
    intros k.
    rewrite !(FrameFacts.drop_duplicates_In key_eqb AggFacts.key_eqb_eq).
    split; apply Permutation_in;
      [|apply Permutation_sym]; now apply perm_keys_of. }
  rewrite Hk. apply map_ext. intros k. now apply perm_group_row.
Qed.

Lemma perm_retained (prefixes : list string) (logs logs' : list Raw.row) :
  Permutation logs logs' ->
  Permutation (ip_filter prefixes (filter_logs logs))
    (ip_filter prefixes (filter_logs logs')).
Proof.
  intros Hp.
  assert (Hf : Permutation (filter_logs logs) (filter_logs logs'))
    by (unfold filter_logs; now do 2 apply perm_filter).
  unfold ip_filter. destruct prefixes; [exact Hf|].
  now apply perm_filter.
Qed.

(** The step as one case analysis on the retained rows. *)
Lemma process_eq (prefixes : list string) (logs : list Raw.row) :
  _process_log_file prefixes logs =
  match ip_filter prefixes (filter_logs logs) with
  | [] => None
  | kept => Some (groupby_sum (map classify kept))
  end.
Proof.
  unfold _process_log_file.
  destruct (filter_logs logs) as [|r0 rest]; cbn [empty].
  - now destruct prefixes.
  - now destruct (ip_filter prefixes (r0 :: rest)).
Qed.

Lemma ip_filter_count (prefixes : list string) (q : Raw.row -> bool)
    (logs : list Raw.row) :
  (List.length (filter q (ip_filter prefixes logs))
   <= List.length (filter q logs))%nat.
Proof.
  assert (H : forall h : Raw.row -> bool,
             (List.length (filter q (filter h logs))
              <= List.length (filter q logs))%nat).
  { intros h. induction logs as [|r logs IH]; cbn [filter]; [lia|].
    destruct (h r); cbn [filter]; destruct (q r); cbn [List.length]; lia. }
  unfold ip_filter. destruct prefixes as [|p ps]; [lia|apply H].
Qed.

End InvarianceFacts.

(** X5: what the step writes does not depend on the order of the rows in
    the raw file. *)
Theorem aggregation_ignores_row_order
    (prefixes : list string) (logs logs' : list Raw.row) :
  Permutation logs logs' ->
  LogAggregator._process_log_file prefixes logs =
  LogAggregator._process_log_file prefixes logs'.
Proof.
  intros Hp. rewrite !InvarianceFacts.process_eq.
  pose proof (InvarianceFacts.perm_retained prefixes _ _ Hp) as Hk.
  destruct (LogAggregator.ip_filter prefixes (LogAggregator.filter_logs logs))
    as [|r kept] eqn:E.
  - apply Permutation_nil in Hk. now rewrite Hk.
  - destruct (LogAggregator.ip_filter prefixes (LogAggregator.filter_logs logs'))
      as [|r' kept'] eqn:E'.
    + apply Permutation_sym, Permutation_nil in Hk. discriminate.
    + f_equal. apply InvarianceFacts.perm_groupby_sum.
      now apply Permutation_map.
Qed.

Lemma aggregation_ignores_row_order_witness :
  let r e d := Raw.mk (Some "1.2.3.4") (Some d) (Some 12)
                 (Some "0001-11-000001") (Some e) (Some 404) (Some 0) (Some 0) in
  LogAggregator._process_log_file []
    [r "htm" "2011-01-02"; r "txt" "2011-01-01"] =
  LogAggregator._process_log_file []
    [r "txt" "2011-01-01"; r "htm" "2011-01-02"].
Proof.
  intros r. apply aggregation_ignores_row_order. apply perm_swap.
Defined.

(** X6: an allow-list can only take requests away: every row written
    with an allow-list has a row with the same key in what is written
    without one, and none of its counts is larger there. *)
Theorem allow_list_only_removes
    (prefixes : list string) (logs : list Raw.row) (out : list Agg.row)
    (a : Agg.row) :
  LogAggregator._process_log_file prefixes logs = Some out ->
  In a out ->
  exists out0 a0,
    LogAggregator._process_log_file [] logs = Some out0 /\
    In a0 out0 /\
    LogAggregator.agg_key a0 = LogAggregator.agg_key a /\
    Agg.htm a <= Agg.htm a0 /\ Agg.txt a <= Agg.txt a0 /\
    Agg.xbrl a <= Agg.xbrl a0 /\ Agg.other a <= Agg.other a0 /\
    Agg.nr_total a <= Agg.nr_total a0.
Proof.
  intros Hout Ha.
  apply CountFacts.process_Some in Hout as [Hne ->].
  set (kept0 := LogAggregator.filter_logs logs) in *.
  set (kept := LogAggregator.ip_filter prefixes kept0) in *.
  set (k := LogAggregator.agg_key a).
  apply CountFacts.groupby_sum_In in Ha as [Ea Hk]. fold k in Ea, Hk.
  assert (Hk0 : In k (LogAggregator.keys_of (map LogAggregator.classify kept0))).
  { apply CountFacts.keys_of_In in Hk as (c & Hc & Hkey).
    apply in_map_iff in Hc as (r & <- & Hr).
    apply CountFacts.keys_of_In. exists (LogAggregator.classify r).
    split; [|exact Hkey]. apply in_map.
    now apply (CountFacts.ip_filter_In prefixes). }
  exists (LogAggregator.groupby_sum (map LogAggregator.classify kept0)),
    (LogAggregator.group_row (map LogAggregator.classify kept0) k).
  assert (Hcount : forall (f : Cls.row -> Z) (p : Raw.row -> bool),
             (forall r, f (LogAggregator.classify r) = LogAggregator.as_int (p r)) ->
             LogAggregator.total f
               (filter (LogAggregator.in_group k) (map LogAggregator.classify kept))
             <= LogAggregator.total f
                  (filter (LogAggregator.in_group k) (map LogAggregator.classify kept0))).
  { intros f p Hf. rewrite !(CountFacts.total_indicator f p k _ Hf).
    apply Nat2Z.inj_le. apply InvarianceFacts.ip_filter_count. }
  destruct (CountFacts.group_row_fields (map LogAggregator.classify kept) k)
    as (Hh & Ht & Hx & Ho).
  destruct (CountFacts.group_row_fields (map LogAggregator.classify kept0) k)
    as (Hh0 & Ht0 & Hx0 & Ho0).
  rewrite <- Ea in Hh, Ht, Hx, Ho.
  assert (Lh : Agg.htm a <= Agg.htm
                 (LogAggregator.group_row (map LogAggregator.classify kept0) k)).
  { rewrite Hh, Hh0.
    now apply (Hcount Cls.htm
                 (fun r => String.eqb (LogAggregator.file_type (Raw.extention r)) "htm")). }
  assert (Lt : Agg.txt a <= Agg.txt
                 (LogAggregator.group_row (map LogAggregator.classify kept0) k)).
  { rewrite Ht, Ht0.
    now apply (Hcount Cls.txt
                 (fun r => String.eqb (LogAggregator.file_type (Raw.extention r)) "txt")). }
  assert (Lx : Agg.xbrl a <= Agg.xbrl
                 (LogAggregator.group_row (map LogAggregator.classify kept0) k)).
  { rewrite Hx, Hx0.
    now apply (Hcount Cls.xbrl
                 (fun r => String.eqb (LogAggregator.file_type (Raw.extention r)) "xbrl")). }
  assert (Lo : Agg.other a <= Agg.other
                 (LogAggregator.group_row (map LogAggregator.classify kept0) k)).
  { rewrite Ho, Ho0.
    apply (Hcount Cls.other
             (fun r => negb (LogAggregator.isin
                               (LogAggregator.file_type (Raw.extention r))
                               ["htm"; "txt"; "xbrl"]))).
    intros r. unfold LogAggregator.classify. cbn [Cls.other].
    now destruct (LogAggregator.isin _ _). }
  split; [|split; [|split; [|repeat (split; [assumption|])]]].
  - rewrite InvarianceFacts.process_eq. cbn [LogAggregator.ip_filter].
    fold kept0. destruct kept0 as [|r0 rest] eqn:E0; [|reflexivity].
    exfalso. apply Hne. unfold kept. now destruct prefixes.
  - unfold LogAggregator.groupby_sum. apply in_map.
    now apply CountFacts.group_keys_In.
  - apply AggFacts.agg_key_group_row.
  - rewrite (AggFacts.group_row_total (map LogAggregator.classify kept0) k).
    rewrite Ea at 1.
    rewrite (AggFacts.group_row_total (map LogAggregator.classify kept) k).
    rewrite <- Ea. lia.
Qed.

Lemma allow_list_only_removes_witness :
  let r ip e := Raw.mk (Some ip) (Some "2011-01-01") (Some 12)
                  (Some "0001-11-000001") (Some e) (Some 404) (Some 0) (Some 0) in
  let logs := [r "1.2.3.4" "htm"; r "9.9.9.9" "htm"; r "1.2.3.5" "txt"] in
  let a := Agg.mk "2011-01-01" 12 "0001-11-000001" 2 1 1 0 0 in
  exists out0 a0,
    LogAggregator._process_log_file [] logs = Some out0 /\ In a0 out0 /\
    LogAggregator.agg_key a0 = LogAggregator.agg_key a /\
    Agg.htm a <= Agg.htm a0 /\ Agg.txt a <= Agg.txt a0 /\
    Agg.xbrl a <= Agg.xbrl a0 /\ Agg.other a <= Agg.other a0 /\
    Agg.nr_total a <= Agg.nr_total a0.
Proof.
  intros r logs a.
  exact (allow_list_only_removes ["1.2.3"] logs [a] a eq_refl (or_introl eq_refl)).
Defined.

(** X7: the step writes no file exactly when no row is retained, and a
    file it writes has at least one row. *)
Theorem no_file_iff_nothing_retained
    (prefixes : list string) (logs : list Raw.row) :
  (LogAggregator._process_log_file prefixes logs = None <->
   LogAggregator.ip_filter prefixes (LogAggregator.filter_logs logs) = []) /\
  (forall out, LogAggregator._process_log_file prefixes logs = Some out ->
               out <> []).
Proof.
  split; [apply CountFacts.process_None|].
  intros out Hout. pose proof Hout as Hsome.
  apply CountFacts.process_Some in Hout as [Hne ->].
  destruct (LogAggregator.ip_filter prefixes (LogAggregator.filter_logs logs))
    as [|r kept] eqn:E; [contradiction|].
  destruct (CountFacts.retained_has_key prefixes logs r) as (k & Hk);
    [rewrite E; now left|].
  intros Hnil.
  assert (Hin : In k (map LogAggregator.agg_key
                        (LogAggregator.groupby_sum
                           (map LogAggregator.classify (r :: kept))))).
  { rewrite AggFacts.groupby_sum_keys.
    apply CountFacts.group_keys_In, CountFacts.keys_of_In.
    exists (LogAggregator.classify r). split; [now left|exact Hk]. }
  rewrite Hnil in Hin. contradiction.
Qed.

Lemma no_file_iff_nothing_retained_witness :
  let r := Raw.mk (Some "1.2.3.4") (Some "2011-01-01") (Some 12)
             (Some "0001-11-000001") (Some "htm") (Some 200) (Some 0) (Some 0) in
  LogAggregator._process_log_file ["1.2"] [r] = None.
Proof.
  intros r.
  apply (proj1 (no_file_iff_nothing_retained ["1.2"] [r])). reflexivity.
Defined.

(** ** Shapes of the two keys *)

Module KeyFacts.
Import PyStr.

Lemma split_first_lacks (sep : ascii) (s : string) :
  lacks sep (first (split sep s)) = true.
Proof.
  unfold lacks, first.
  induction s as [|c s IH]; simpl; [reflexivity|].
  destruct (Ascii.eqb c sep) eqn:E; [reflexivity|].
  pose proof (PyStrFacts.split_nonempty sep s) as Hne.
  destruct (split sep s) as [|w ws]; [contradiction|].
  simpl in *. now rewrite E, IH.
Qed.

(** The text is its first piece, then nothing or a separator and more. *)
Lemma split_first_prefix (sep : ascii) (s : string) :
  exists rest,
    s = first (split sep s) ++ rest /\
    (rest = EmptyString \/ exists more, rest = String sep more).
Proof.
  unfold first.
  induction s as [|c s (rest & E & Hrest)]; simpl.
  - exists EmptyString. auto.
  - destruct (Ascii.eqb_spec c sep) as [->|Hc].
    + exists (String sep s). split; [reflexivity|]. right. eauto.
    + pose proof (PyStrFacts.split_nonempty sep s) as Hne.
      destruct (split sep s) as [|w ws]; [contradiction|].
      simpl in *. exists rest. split; [now rewrite <- E|exact Hrest].
Qed.

Lemma remove_char_lacks (old : ascii) (s : string) :
  lacks old (remove_char old s) = true.
Proof.
  unfold lacks. induction s as [|c s IH]; simpl; [reflexivity|].
  destruct (Ascii.eqb c old) eqn:E; [exact IH|].
  simpl. now rewrite E, IH.
Qed.

Lemma uint_text_lacks_dash (d : Decimal.uint) :
  lacks "-" (NilEmpty.string_of_uint d) = true.
Proof. unfold lacks. induction d; simpl; auto. Qed.

Lemma str_int_lacks_dash (i : Z) : 0 <= i -> lacks "-" (str_int i) = true.
Proof.
  intros Hi. unfold str_int, NilZero.string_of_int, NilZero.string_of_uint.
  destruct i as [|p|p]; [reflexivity| |lia].
  cbn [Z.to_int]. destruct (Pos.to_uint p); try reflexivity;
    apply uint_text_lacks_dash.
Qed.

Lemma log_key_lacks_dash (cik : Z) (accession : string) :
  0 <= cik -> lacks "-" (log_key cik accession) = true.
Proof.
  intros Hc. unfold log_key, lacks.
  rewrite !PyStrFacts.all_chars_app.
  fold (lacks "-" (str_int cik)). fold (lacks "-" (remove_char "-" accession)).
  now rewrite (str_int_lacks_dash cik Hc), remove_char_lacks.
Qed.

End KeyFacts.

(** X8: the index-side key is the filename text up to its first dot: it
    holds no dot, the text starts with it, and what follows it in the
    text is nothing or begins with a dot (a missing filename reads as
    the text nan). *)
Theorem index_key_is_text_before_first_dot (filename : option string) :
  PyStr.lacks "." (acc_path_of_index filename) = true /\
  exists rest,
    PyStr.str_cell filename = acc_path_of_index filename ++ rest /\
    (rest = EmptyString \/ exists more, rest = String "." more).
Proof.
  split.
  - apply KeyFacts.split_first_lacks.
  - apply KeyFacts.split_first_prefix.
Qed.

(** X9: the log-side key of a row with a non-negative filer id holds no
    dash, while the index side keeps the dashes of the filename; so with
    an index whose keys all hold a dash (filenames that carry the dashed
    accession) no log row is joined and the merge returns an empty
    frame. *)
Theorem dashed_index_joins_nothing
    (to_datetime : list string -> option (list (option Z))) (master : list Entry.row)
    (logs : list (list Agg.row)) :
  (forall e, In e master -> PyStr.lacks "-" (Entry.acc_path e) = false) ->
  (forall a, In a (List.concat logs) -> 0 <= Agg.cik a) ->
  (forall a, In a (List.concat logs) ->
     PyStr.lacks "-" (acc_path_of_log (Agg.cik a) (Agg.accession a)) = true) /\
  Reconciliation.merge_logs_and_index to_datetime master logs = Returned [].
Proof.
  intros Hdash Hcik.
  assert (Hkey : forall a, In a (List.concat logs) ->
            PyStr.lacks "-" (acc_path_of_log (Agg.cik a) (Agg.accession a)) = true).
  { intros a Ha. apply KeyFacts.log_key_lacks_dash. now apply Hcik. }
  split; [exact Hkey|].
  unfold Reconciliation.merge_logs_and_index.
  destruct (LogAggregator.empty master); [reflexivity|].
  destruct (LogAggregator.empty _); [reflexivity|].
  match goal with
  | |- context [filter Reconciliation.resolved ?l] =>
      destruct (filter Reconciliation.resolved l) as [|j rest] eqn:E
  end; [reflexivity|].
  exfalso.
  assert (Hj : In j (j :: rest)) by now left.
  rewrite <- E in Hj.
  apply MergeFacts.final_logs_In in Hj as (_ & _ & a & e & Ha & He & Hk & _).
  specialize (Hdash e He). rewrite Hk, (Hkey a Ha) in Hdash. discriminate.
Qed.

Lemma dashed_index_joins_nothing_witness :
  let clock := fun col : list string =>
    Some (map (fun s => Some (Z.of_nat (String.length s))) col) in
  let master := [Entry.mk (Some "10-K") (Some "2011-03-01")
                   (acc_path_of_index
                      (Some "edgar/data/12/0000000012-11-000001.txt"))] in
  let logs := [[Agg.mk "2011-03-02" 12 "0000000012-11-000001" 2 1 0 0 1]] in
  Reconciliation.merge_logs_and_index clock master logs = Returned [].
Proof.
  intros clock master logs.
  apply (dashed_index_joins_nothing clock master logs).
  - intros e [<-|[]]. reflexivity.
  - intros a [<-|[]]. cbn. lia.
Defined.

(** ** Where the frames of the index come from, and what the build costs *)

Module OriginFacts.
Import MasterIndexBuilder.

#[local] Arguments Nat.sub : simpl never.

Section Quarter.
Variables (w : World) (year : Z) (q : quarter).

(** The loop adds no frame or one, and a frame it adds is the one of the
    first attempt that does not fault. *)
Lemma retry_loop_origin (fuel retries : nat) (st st' : state) :
  retry_loop fuel w year q retries st = Some st' ->
  exists extra,
    all_index_dfs st' = (all_index_dfs st ++ extra)%list /\
    (extra = [] \/
     exists df k file,
       extra = [df] /\ (retries <= k < max_retries)%nat /\
       (forall j, (retries <= j < k)%nat -> faults (w year q j) = true) /\
       w year q k = Downloaded file /\ try_file file = Appended df).
Proof.
  unfold max_retries.
  revert retries st. induction fuel as [|fuel IH]; intros retries st;
    [discriminate|].
  simpl. unfold max_retries.
  destruct (Nat.ltb_spec retries 3) as [Hlt|Hge].
  2:{ intros E. injection E as <-. exists []. rewrite app_nil_r. auto. }
  assert (Hnext : forall st1,
             all_index_dfs st1 = all_index_dfs st ->
             faults (w year q retries) = true ->
             retry_loop fuel w year q (S retries) st1 = Some st' ->
             exists extra,
               all_index_dfs st' = (all_index_dfs st ++ extra)%list /\
               (extra = [] \/
                exists df k file,
                  extra = [df] /\ (retries <= k < 3)%nat /\
                  (forall j, (retries <= j < k)%nat -> faults (w year q j) = true) /\
                  w year q k = Downloaded file /\ try_file file = Appended df)).
  { intros st1 Hd Hbad E.
    destruct (IH _ _ E) as (extra & Ed & Hextra).
    exists extra. split; [now rewrite Ed, Hd|].
    destruct Hextra as [->|(df & k & file & -> & Hk & Hf & Hw & Ht)]; [now left|].
    right. exists df, k, file. split; [reflexivity|].
    split; [lia|]. split; [|auto].
    intros j Hj. destruct (Nat.eq_dec j retries) as [->|Hne]; [exact Hbad|].
    apply Hf. lia. }
  destruct (w year q retries) as [|file] eqn:Hw.
  - destruct (Nat.ltb_spec (S retries) 3) as [_|_].
    + apply Hnext; reflexivity.
    + intros E. injection E as <-. exists []. rewrite app_nil_r. auto.
  - destruct (try_file file) as [df| |] eqn:Ht.
    + intros E. injection E as <-. exists [df]. split; [reflexivity|].
      right. exists df, retries, file. split; [reflexivity|].
      split; [lia|]. split; [intros j Hj; lia|auto].
    + intros E. injection E as <-. exists []. rewrite app_nil_r. auto.
    + apply Hnext.
      * now destruct (S retries <? 3)%nat.
      * unfold faults. now rewrite Ht.
Qed.

Lemma do_quarter_origin (st st' : state) :
  do_quarter w year q st = Some st' ->
  exists extra,
    all_index_dfs st' = (all_index_dfs st ++ extra)%list /\
    (extra = [] \/ exists df, extra = [df] /\ settles w year q df).
Proof.
  intros E. apply retry_loop_origin in E as (extra & Ed & Hextra).
  exists extra. split; [exact Ed|].
  destruct Hextra as [->|(df & k & file & -> & Hk & Hf & Hw & Ht)]; [now left|].
  right. exists df. split; [reflexivity|].
  exists k, file. split; [lia|]. split; [|auto].
  intros j Hj. apply Hf. lia.
Qed.

End Quarter.

Lemma for_quarters_origin (w : World) (year : Z) (qs : list quarter)
    (st st' : state) :
  for_quarters w year qs st = Some st' ->
  exists extra,
    all_index_dfs st' = (all_index_dfs st ++ extra)%list /\
    (List.length extra <= List.length qs)%nat /\
    forall df, In df extra -> exists q, settles w year q df.
Proof.
  revert st. induction qs as [|q qs IH]; intros st; simpl.
  - intros E. injection E as <-. exists []. rewrite app_nil_r.
    split; [reflexivity|]. split; [simpl; lia|contradiction].
  - destruct (do_quarter w year q st) as [st1|] eqn:E1; [|discriminate].
    intros E. apply do_quarter_origin in E1 as (x1 & Ed1 & H1).
    destruct (IH _ E) as (x2 & Ed2 & Hlen & H2).
    exists (x1 ++ x2)%list. split; [now rewrite Ed2, Ed1, app_assoc|].
    split.
    + rewrite length_app.
      destruct H1 as [->|(df & -> & _)]; simpl; lia.
    + intros df Hdf. apply in_app_or in Hdf as [Hdf|Hdf]; [|auto].
      destruct H1 as [->|(df1 & -> & Hs)]; [contradiction|].
      destruct Hdf as [<-|[]]. eauto.
Qed.

Lemma for_years_origin (w : World) (years : list Z) (st st' : state) :
  for_years w years st = Some st' ->
  exists extra,
    all_index_dfs st' = (all_index_dfs st ++ extra)%list /\
    (List.length extra <= 4 * List.length years)%nat /\
    forall df, In df extra ->
      exists year q, In year years /\ settles w year q df.
Proof.
  revert st. induction years as [|y years IH]; intros st; cbn [for_years].
  - intros E. injection E as <-. exists []. rewrite app_nil_r.
    split; [reflexivity|]. split; [simpl; lia|contradiction].
  - destruct (for_quarters w y quarters st) as [st1|] eqn:E1; [|discriminate].
    intros E. apply for_quarters_origin in E1 as (x1 & Ed1 & Hl1 & H1).
    destruct (IH _ E) as (x2 & Ed2 & Hl2 & H2).
    exists (x1 ++ x2)%list. split; [now rewrite Ed2, Ed1, app_assoc|].
    split.
    + rewrite length_app. cbn [List.length quarters] in *. lia.
    + intros df Hdf. apply in_app_or in Hdf as [Hdf|Hdf].
      * destruct (H1 df Hdf) as (q & Hs). exists y, q. split; [now left|exact Hs].
      * destruct (H2 df Hdf) as (y' & q & Hy & Hs).
        exists y', q. split; [now right|exact Hs].
Qed.

Lemma finish_origin (dfs : list (list Idx.row)) (e : Entry.row) :
  In e (finish dfs) ->
  exists df r, In df dfs /\ In r df /\ e = to_entry r.
Proof.
  unfold finish. destruct dfs as [|d0 dfs0] eqn:E; [contradiction|].
  rewrite <- E. intros H.
  apply FrameFacts.drop_duplicates_In in H; [|exact IndexFacts.entry_eqb_eq].
  apply in_map_iff in H as (r & <- & Hr).
  apply in_concat in Hr as (df & Hdf & Hr). eauto.
Qed.

End OriginFacts.

(** X10: the finished index holds exactly the rows of the quarters that
    settle: an entry is in it if and only if it is the projection of a
    row of the frame that some quarter of a configured year yields on
    its first attempt that does not fault, within three attempts. *)
Theorem index_holds_exactly_settled_quarters
    (w : MasterIndexBuilder.World) (index_years : list Z)
    (index : list Entry.row) (e : Entry.row) :
  MasterIndexBuilder.run_master_index_download w index_years = Some index ->
  (In e index <->
   exists year q df r,
     In year index_years /\ MasterIndexBuilder.settles w year q df /\
     In r df /\ e = MasterIndexBuilder.to_entry r).
Proof.
  unfold MasterIndexBuilder.run_master_index_download.
  destruct (MasterIndexBuilder.for_years w index_years MasterIndexBuilder.start)
    as [st|] eqn:E; [|discriminate].
  intros Hrun. injection Hrun as <-. split.
  - intros He. apply OriginFacts.finish_origin in He as (df & r & Hdf & Hr & ->).
    apply OriginFacts.for_years_origin in E as (extra & Ed & _ & Hfrom).
    rewrite Ed in Hdf. cbn in Hdf.
    destruct (Hfrom df Hdf) as (year & q & Hy & Hs).
    exists year, q, df, r. auto.
  - intros (year & q & df & r & Hy & Hs & Hr & ->).
    destruct (IndexFacts.for_years_keeps w year q df index_years
                MasterIndexBuilder.start Hy Hs) as (st' & E' & Hdf).
    rewrite E in E'. injection E' as <-.
    now apply (IndexFacts.finish_In _ df).
Qed.

Lemma index_holds_exactly_settled_quarters_witness :
  let good := Idx.mk (Some "12") (Some "10-K") (Some "2010-05-03")
                (Some "edgar/data/12/000111000001.txt") in
  let w : MasterIndexBuilder.World := fun year q n =>
    match q, n with
    | MasterIndexBuilder.QTR3, 1%nat =>
        MasterIndexBuilder.Downloaded (MasterIndexBuilder.Table [good])
    | _, _ => MasterIndexBuilder.DownloadFails
    end in
  In (MasterIndexBuilder.to_entry good)
    [Entry.mk (Some "10-K") (Some "2010-05-03") "edgar/data/12/000111000001"].
Proof.
  intros good w.
  apply (index_holds_exactly_settled_quarters w [2010; 2011] _
           (MasterIndexBuilder.to_entry good) eq_refl).
  exists 2011, MasterIndexBuilder.QTR3, [good], good.
  split; [right; left; reflexivity|]. split; [|split; [left|]; reflexivity].
  exists 1%nat, (MasterIndexBuilder.Table [good]).
  split; [unfold MasterIndexBuilder.max_retries; lia|].
  split; [|split; reflexivity].
  intros j Hj. destruct j; [reflexivity|lia].
Defined.

Module CostFacts.
Import MasterIndexBuilder Trace.

#[local] Arguments Nat.sub : simpl never.

Lemma fetches_app (l l' : list event) :
  fetches (l ++ l') = (fetches l + fetches l')%nat.
Proof. unfold fetches. now rewrite filter_app, length_app. Qed.

Lemma slept_app (l l' : list event) : slept (l ++ l') = slept l + slept l'.
Proof.
  induction l as [|e l IH]; simpl; [reflexivity|].
  destruct e; rewrite IH; lia.
Qed.

Lemma fetches_pacing (l : list event) : fetches (pacing l) = fetches l.
Proof.
  unfold fetches, pacing. induction l as [|e l IH]; simpl; [reflexivity|].
  destruct e; simpl; auto.
Qed.

Lemma slept_pacing (l : list event) : slept (pacing l) = slept l.
Proof.
  unfold pacing. induction l as [|e l IH]; simpl; [reflexivity|].
  destruct e; simpl; auto. now rewrite IH.
Qed.

Lemma paced_cost (year : Z) (q : quarter) (n : nat) :
  fetches (paced year q n) = n /\
  slept (paced year q n) = 2 * Z.of_nat (n - 1).
Proof.
  induction n as [|n [IHf IHs]]; [split; reflexivity|].
  destruct n as [|n]; [split; reflexivity|].
  rewrite IndexFacts.paced_succ by lia.
  change (fetches (Fetch year q :: Sleep 2 :: paced year q (S n)))
    with (S (fetches (paced year q (S n)))).
  change (slept (Fetch year q :: Sleep 2 :: paced year q (S n)))
    with (2 + slept (paced year q (S n))).
  rewrite IHf, IHs. split; [reflexivity|]. lia.
Qed.

Section Run.
Variable w : World.

Lemma do_quarter_cost (year : Z) (q : quarter) (st : state) :
  exists st' new,
    do_quarter w year q st = Some st' /\
    trace st' = (trace st ++ new)%list /\
    (1 <= fetches new <= 3)%nat /\
    slept new = 2 * Z.of_nat (fetches new - 1).
Proof.
  destruct (IndexFacts.retry_loop_runs w year q (S max_retries) 0 st)
    as (st' & new & extra & n & E & Et & _ & Ep & Hn & Hn1);
    [unfold max_retries; lia|unfold max_retries; lia|].
  exists st', new. split; [exact E|]. split; [exact Et|].
  destruct (paced_cost year q n) as [Hf Hs].
  rewrite <- fetches_pacing, <- slept_pacing, Ep, Hf, Hs.
  unfold max_retries in *. split; [lia|reflexivity].
Qed.

Lemma for_quarters_cost (year : Z) (qs : list quarter) (st : state) :
  exists st' new,
    for_quarters w year qs st = Some st' /\
    trace st' = (trace st ++ new)%list /\
    (List.length qs <= fetches new <= 3 * List.length qs)%nat /\
    0 <= slept new <= 4 * Z.of_nat (List.length qs).
Proof.
  revert st. induction qs as [|q qs IH]; intros st; cbn [for_quarters].
  - exists st, []. rewrite app_nil_r. cbn. repeat split; lia.
  - destruct (do_quarter_cost year q st) as (st1 & n1 & -> & Et1 & Hf1 & Hs1).
    destruct (IH st1) as (st' & n2 & E & Et2 & Hf2 & Hs2).
    exists st', (n1 ++ n2)%list. split; [exact E|].
    split; [now rewrite Et2, Et1, app_assoc|].
    rewrite fetches_app, slept_app. cbn [List.length]. lia.
Qed.

Lemma for_years_cost (years : list Z) (st : state) :
  exists st' new,
    for_years w years st = Some st' /\
    trace st' = (trace st ++ new)%list /\
    (4 * List.length years <= fetches new <= 12 * List.length years)%nat /\
    0 <= slept new <= 16 * Z.of_nat (List.length years).
Proof.
  revert st. induction years as [|y years IH]; intros st; cbn [for_years].
  - exists st, []. rewrite app_nil_r. cbn. repeat split; lia.
  - destruct (for_quarters_cost y quarters st) as (st1 & n1 & -> & Et1 & Hf1 & Hs1).
    destruct (IH st1) as (st' & n2 & E & Et2 & Hf2 & Hs2).
    exists st', (n1 ++ n2)%list. split; [exact E|].
    split; [now rewrite Et2, Et1, app_assoc|].
    rewrite fetches_app, slept_app.
    cbn [List.length quarters] in *. lia.
Qed.

End Run.

Section Quarter.
Variables (w : World) (year : Z) (q : quarter).

(** The mid-loop events of a faulting attempt that is followed by
    another one. *)
Lemma retry_loop_settles (k : nat) (file : parsed) (fuel retries : nat)
    (st : state) :
  (retries <= k < max_retries)%nat ->
  (max_retries - retries < fuel)%nat ->
  (forall j, (retries <= j < k)%nat -> faults (w year q j) = true) ->
  w year q k = Downloaded file ->
  try_file file <> Excepted ->
  exists st' new,
    retry_loop fuel w year q retries st = Some st' /\
    trace st' = (trace st ++ new)%list /\
    all_index_dfs st' =
      (all_index_dfs st ++ match try_file file with
                           | Appended df => [df]
                           | _ => []
                           end)%list /\
    fetches new = S (k - retries) /\
    slept new = 2 * Z.of_nat (k - retries).
Proof.
  unfold max_retries. intros Hk Hf Hfault Hw Htry.
  revert retries st Hk Hf Hfault.
  induction fuel as [|fuel IH]; intros retries st Hk Hf Hfault; [lia|].
  simpl. unfold max_retries.
  destruct (Nat.ltb_spec retries 3) as [_|Hge]; [|lia].
  destruct (Nat.eq_dec retries k) as [->|Hne].
  - rewrite Hw. replace (k - k)%nat with 0%nat by lia.
    destruct (try_file file) as [df| |]; [| |contradiction].
    + exists (append_df df (emit (Fetch year q) st)), [Fetch year q].
      repeat split.
    + exists (emit (Fetch year q) st), [Fetch year q].
      cbn. rewrite app_nil_r. repeat split.
  - pose proof (Hfault retries ltac:(lia)) as Hbad. unfold faults in Hbad.
    destruct (Nat.ltb_spec (S retries) 3) as [_|Hge]; [|lia].
    assert (Hstep : forall st1 mid,
               trace st1 = (trace st ++ mid)%list ->
               all_index_dfs st1 = all_index_dfs st ->
               fetches mid = 1%nat -> slept mid = 2 ->
               exists st' new,
                 retry_loop fuel w year q (S retries) st1 = Some st' /\
                 trace st' = (trace st ++ new)%list /\
                 all_index_dfs st' =
                   (all_index_dfs st ++ match try_file file with
                                        | Appended df => [df]
                                        | _ => []
                                        end)%list /\
                 fetches new = S (k - retries) /\
                 slept new = 2 * Z.of_nat (k - retries)).
    { intros st1 mid Ht Hd Hfm Hsm.
      destruct (IH (S retries) st1) as (st' & new & E & Et & Ed & Hfn & Hsn);
        [lia|lia|intros; apply Hfault; lia|].
      exists st', (mid ++ new)%list. split; [exact E|].
      split; [now rewrite Et, Ht, app_assoc|].
      split; [now rewrite Ed, Hd|].
      rewrite fetches_app, slept_app, Hfm, Hsm, Hfn, Hsn. split; lia. }
    destruct (w year q retries) as [|file'].
    + apply (Hstep _ [Fetch year q; Sleep 2]); try reflexivity.
      cbn. now rewrite <- app_assoc.
    + destruct (try_file file'); try discriminate.
      apply (Hstep _ [Fetch year q; Sleep 2; Remove year q]); try reflexivity.
      cbn. now rewrite <- !app_assoc.
Qed.

Lemma retry_loop_exhausts (fuel retries : nat) (st : state) :
  (retries <= max_retries)%nat ->
  (max_retries - retries < fuel)%nat ->
  (forall j, (retries <= j < max_retries)%nat -> faults (w year q j) = true) ->
  exists st' new,
    retry_loop fuel w year q retries st = Some st' /\
    trace st' = (trace st ++ new)%list /\
    all_index_dfs st' = all_index_dfs st /\
    fetches new = (max_retries - retries)%nat /\
    slept new = 2 * Z.of_nat (max_retries - retries - 1).
Proof.
  unfold max_retries.
  revert retries st. induction fuel as [|fuel IH]; intros retries st Hr Hf Hfault;
    [lia|].
  simpl. unfold max_retries.
  destruct (Nat.ltb_spec retries 3) as [Hlt|Hge].
  2:{ exists st, []. rewrite app_nil_r.
      replace (3 - retries)%nat with 0%nat by lia. repeat split. }
  pose proof (Hfault retries ltac:(lia)) as Hbad. unfold faults in Hbad.
  assert (Hstep : forall st1 mid,
             trace st1 = (trace st ++ mid)%list ->
             all_index_dfs st1 = all_index_dfs st ->
             fetches mid = 1%nat ->
             slept mid = (if (S retries <? 3)%nat then 2 else 0) ->
             (3 - S retries < fuel)%nat ->
             exists st' new,
               retry_loop fuel w year q (S retries) st1 = Some st' /\
               trace st' = (trace st ++ new)%list /\
               all_index_dfs st' = all_index_dfs st /\
               fetches new = (3 - retries)%nat /\
               slept new = 2 * Z.of_nat (3 - retries - 1)).
  { intros st1 mid Ht Hd Hfm Hsm Hfuel.
    destruct (IH (S retries) st1) as (st' & new & E & Et & Ed & Hfn & Hsn);
      [lia|exact Hfuel|intros; apply Hfault; lia|].
    exists st', (mid ++ new)%list. split; [exact E|].
    split; [now rewrite Et, Ht, app_assoc|].
    split; [now rewrite Ed, Hd|].
    rewrite fetches_app, slept_app, Hfm, Hsm, Hfn, Hsn.
    destruct (Nat.ltb_spec (S retries) 3); split; lia. }
  assert (Hsleep : forall mid,
             (S retries < 3)%nat -> slept mid = 2 ->
             slept mid = (if (S retries <? 3)%nat then 2 else 0)).
  { intros mid H ->. destruct (Nat.ltb_spec (S retries) 3); [reflexivity|lia]. }
  assert (Hlast : forall mid,
             (3 <= S retries)%nat -> slept mid = 0 ->
             slept mid = (if (S retries <? 3)%nat then 2 else 0)).
  { intros mid H ->. destruct (Nat.ltb_spec (S retries) 3); [lia|reflexivity]. }
  destruct (w year q retries) as [|file'].
  - destruct (Nat.ltb_spec (S retries) 3) as [Hlt'|Hge'].
    + apply (Hstep (emit (Sleep 2) (emit (Fetch year q) st))
               [Fetch year q; Sleep 2]);
        [cbn; now rewrite <- app_assoc|reflexivity|reflexivity
        |now apply Hsleep|lia].
    + exists (emit (Fetch year q) st), [Fetch year q].
      replace (3 - retries)%nat with 1%nat by lia. repeat split.
  - destruct (try_file file'); try discriminate.
    destruct (Nat.ltb_spec (S retries) 3) as [Hlt'|Hge'].
    + apply (Hstep (emit (Remove year q)
                      (emit (Sleep 2) (emit (Fetch year q) st)))
               [Fetch year q; Sleep 2; Remove year q]);
        [cbn; now rewrite <- !app_assoc|reflexivity|reflexivity
        |now apply Hsleep|lia].
    + apply (Hstep (emit (Remove year q) (emit (Fetch year q) st))
               [Fetch year q; Remove year q]);
        [cbn; now rewrite <- !app_assoc|reflexivity|reflexivity
        |now apply Hlast|lia].
Qed.

End Quarter.

End CostFacts.

(** X11: the finished index holds no row twice, and removing duplicates
    from it again changes nothing. *)
Theorem index_has_no_duplicates
    (w : MasterIndexBuilder.World) (index_years : list Z)
    (index : list Entry.row) :
  MasterIndexBuilder.run_master_index_download w index_years = Some index ->
  NoDup index /\
  Frame.drop_duplicates MasterIndexBuilder.entry_eqb index = index.
Proof.
  unfold MasterIndexBuilder.run_master_index_download.
  destruct (MasterIndexBuilder.for_years w index_years MasterIndexBuilder.start)
    as [st|]; [|discriminate].
  intros E. injection E as <-.
  assert (Hnd : NoDup (MasterIndexBuilder.finish (MasterIndexBuilder.all_index_dfs st))).
  { unfold MasterIndexBuilder.finish.
    destruct (MasterIndexBuilder.all_index_dfs st); [constructor|].
    apply FrameFacts.drop_duplicates_NoDup. exact IndexFacts.entry_eqb_eq. }
  split; [exact Hnd|].
  unfold Frame.drop_duplicates.
  assert (Hgen : forall (l seen : list Entry.row),
             NoDup l -> (forall x, In x l -> ~ In x seen) ->
             Frame.drop_duplicates_from MasterIndexBuilder.entry_eqb seen l = l).
  { induction l as [|x l IH]; intros seen Hl Hs; simpl; [reflexivity|].
    inversion Hl as [|? ? Hx Hl']; subst.
    destruct (existsb (MasterIndexBuilder.entry_eqb x) seen) eqn:Ex.
    - exfalso. apply (Hs x (or_introl eq_refl)).
      apply (FrameFacts.existsb_eqb_In _ IndexFacts.entry_eqb_eq). exact Ex.
    - f_equal. apply IH; [exact Hl'|].
      intros y Hy [<-|Hin]; [contradiction|]. now apply (Hs y (or_intror Hy)). }
  apply Hgen; [exact Hnd|]. intros x _ [].
Qed.

Lemma index_has_no_duplicates_witness :
  let row := Idx.mk (Some "12") (Some "10-K") (Some "2010-05-03")
               (Some "edgar/data/12/000111000001.txt") in
  let w : MasterIndexBuilder.World := fun year q n =>
    MasterIndexBuilder.Downloaded (MasterIndexBuilder.Table [row; row]) in
  NoDup [Entry.mk (Some "10-K") (Some "2010-05-03") "edgar/data/12/000111000001"].
Proof.
  intros row w.
  exact (proj1 (index_has_no_duplicates w [2010] _ eq_refl)).
Defined.

(** X12: whatever the archive does, the build ends, makes between 4 and
    12 fetches per configured year, sleeps at most 16 time units per
    year in all, and accumulates at most 4 frames per year. *)
Theorem index_build_cost (w : MasterIndexBuilder.World) (index_years : list Z) :
  exists st,
    MasterIndexBuilder.for_years w index_years MasterIndexBuilder.start = Some st /\
    (4 * List.length index_years
       <= Trace.fetches (MasterIndexBuilder.trace st)
       <= 12 * List.length index_years)%nat /\
    0 <= Trace.slept (MasterIndexBuilder.trace st)
      <= 16 * Z.of_nat (List.length index_years) /\
    (List.length (MasterIndexBuilder.all_index_dfs st)
       <= 4 * List.length index_years)%nat.
Proof.
  destruct (CostFacts.for_years_cost w index_years MasterIndexBuilder.start)
    as (st & new & E & Et & Hf & Hs).
  exists st. split; [exact E|].
  cbn in Et. rewrite Et. split; [exact Hf|]. split; [exact Hs|].
  apply OriginFacts.for_years_origin in E as (extra & Ed & Hlen & _).
  rewrite Ed. exact Hlen.
Qed.

(** X13: how one quarter ends.  When the first attempt that does not
    fault is attempt [k] (counted from 0, [k < 3]), the loop stops there
    after [k + 1] fetches and [2 k] time units of sleep: it adds the
    frame if the file verifies, and adds nothing, without using the
    attempts that remain, if an expected column is missing.  When all
    three attempts fault, it adds nothing after 3 fetches and 4 time
    units of sleep. *)
Theorem quarter_outcomes
    (w : MasterIndexBuilder.World) (year : Z) (q : MasterIndexBuilder.quarter)
    (st : MasterIndexBuilder.state) :
  (forall k file,
      (k < MasterIndexBuilder.max_retries)%nat ->
      (forall j, (j < k)%nat -> MasterIndexBuilder.faults (w year q j) = true) ->
      w year q k = MasterIndexBuilder.Downloaded file ->
      MasterIndexBuilder.try_file file <> MasterIndexBuilder.Excepted ->
      exists st' new,
        MasterIndexBuilder.do_quarter w year q st = Some st' /\
        MasterIndexBuilder.trace st' = (MasterIndexBuilder.trace st ++ new)%list /\
        MasterIndexBuilder.all_index_dfs st' =
          (MasterIndexBuilder.all_index_dfs st
             ++ match MasterIndexBuilder.try_file file with
                | MasterIndexBuilder.Appended df => [df]
                | _ => []
                end)%list /\
        Trace.fetches new = S k /\ Trace.slept new = 2 * Z.of_nat k) /\
  ((forall j, (j < MasterIndexBuilder.max_retries)%nat ->
              MasterIndexBuilder.faults (w year q j) = true) ->
   exists st' new,
     MasterIndexBuilder.do_quarter w year q st = Some st' /\
     MasterIndexBuilder.trace st' = (MasterIndexBuilder.trace st ++ new)%list /\
     MasterIndexBuilder.all_index_dfs st' = MasterIndexBuilder.all_index_dfs st /\
     Trace.fetches new = 3%nat /\ Trace.slept new = 4).
Proof.
  split.
  - intros k file Hk Hfault Hw Htry.
    destruct (CostFacts.retry_loop_settles w year q k file
                (S MasterIndexBuilder.max_retries) 0 st)
      as (st' & new & E & Et & Ed & Hf & Hs); auto;
      try (unfold MasterIndexBuilder.max_retries in *; lia).
    { intros j Hj. apply Hfault. lia. }
    exists st', new. rewrite Nat.sub_0_r in Hf, Hs. auto.
  - intros Hfault.
    destruct (CostFacts.retry_loop_exhausts w year q
                (S MasterIndexBuilder.max_retries) 0 st)
      as (st' & new & E & Et & Ed & Hf & Hs);
      try (unfold MasterIndexBuilder.max_retries in *; lia).
    { intros j Hj. apply Hfault. lia. }
    exists st', new. auto.
Qed.

Lemma quarter_outcomes_witness :
  let w : MasterIndexBuilder.World := fun year q n =>
    match q, n with
    | MasterIndexBuilder.QTR1, 1%nat =>
        MasterIndexBuilder.Downloaded MasterIndexBuilder.ColumnsMissing
    | MasterIndexBuilder.QTR1, _ =>
        MasterIndexBuilder.Downloaded MasterIndexBuilder.ParseRaises
    | _, _ => MasterIndexBuilder.DownloadFails
    end in
  (exists st' new,
     MasterIndexBuilder.do_quarter w 2010 MasterIndexBuilder.QTR1
       MasterIndexBuilder.start = Some st' /\
     MasterIndexBuilder.all_index_dfs st' = [] /\ Trace.fetches new = 2%nat) /\
  (exists st' new,
     MasterIndexBuilder.do_quarter w 2010 MasterIndexBuilder.QTR2
       MasterIndexBuilder.start = Some st' /\
     Trace.fetches new = 3%nat /\ Trace.slept new = 4).
Proof.
  intros w. split.
  - destruct (quarter_outcomes w 2010 MasterIndexBuilder.QTR1
                MasterIndexBuilder.start) as (H & _).
    destruct (H 1%nat MasterIndexBuilder.ColumnsMissing)
      as (st' & new & E & _ & Ed & Hf & _).
    + unfold MasterIndexBuilder.max_retries. lia.
    + intros j Hj. destruct j; [reflexivity|lia].
    + reflexivity.
    + discriminate.
    + exists st', new. repeat split; assumption.
  - destruct (quarter_outcomes w 2010 MasterIndexBuilder.QTR2
                MasterIndexBuilder.start) as (_ & H).
    destruct H as (st' & new & E & _ & _ & Hf & Hs).
    + intros j _. reflexivity.
    + exists st', new. repeat split; assumption.
Defined.

(** ** The merge as a whole *)

Module MergeShape.
Import Reconciliation.

Lemma filter_filter {A : Type} (f g : A -> bool) (l : list A) :
  filter g (filter f l) = filter (fun x => f x && g x) l.
Proof.
  induction l as [|x l IH]; simpl; [reflexivity|].
  destruct (f x); simpl; [|exact IH].
  destruct (g x); [f_equal|]; exact IH.
Qed.

Lemma filter_map {A B : Type} (f : A -> B) (p : B -> bool) (l : list A) :
  filter p (map f l) = map f (filter (fun x => p (f x)) l).
Proof.
  induction l as [|x l IH]; simpl; [reflexivity|].
  destruct (p (f x)); simpl; [f_equal|]; exact IH.
Qed.

Lemma filter_flat_map {A B : Type} (f : A -> list B) (p : B -> bool) (l : list A) :
  filter p (flat_map f l) = flat_map (fun x => filter p (f x)) l.
Proof.
  induction l as [|x l IH]; simpl; [reflexivity|].
  now rewrite filter_app, IH.
Qed.

(** The resolved rows one log row contributes. *)
Lemma join_row_resolved (master : list Entry.row) (a : Agg.row) :
  filter resolved (join_row master a) =
  map (Resolve.joined a) (Resolve.matching master a).
Proof.
  unfold join_row, Resolve.matching, acc_path_of_log.
  set (key := log_key (Agg.cik a) (normalize_accession (Agg.accession a))).
  rewrite <- (filter_filter
                (fun e => String.eqb (Entry.acc_path e) key)
                (fun e => Frame.notna (Entry.Form_Type e)
                          && Frame.notna (Entry.Date_Filed e)) master).
  destruct (filter (fun e => String.eqb (Entry.acc_path e) key) master)
    as [|e0 hits]; [reflexivity|].
  rewrite filter_map. reflexivity.
Qed.

(** Years without rows add nothing. *)
Lemma merged_years (master : list Entry.row) (logs : list (list Agg.row)) :
  List.concat
    (map (merge_year master)
       (filter (fun y => negb (LogAggregator.empty y)) logs))
  = flat_map (join_row master) (List.concat logs).
Proof.
  induction logs as [|y logs IH]; [reflexivity|].
  cbn [filter List.concat]. rewrite flat_map_app, <- IH.
  destruct y as [|a y]; [reflexivity|]. reflexivity.
Qed.

Lemma final_logs_eq (master : list Entry.row) (logs : list (list Agg.row)) :
  filter resolved
    (List.concat
       (map (merge_year master)
          (filter (fun y => negb (LogAggregator.empty y)) logs)))
  = flat_map (fun a => map (Resolve.joined a) (Resolve.matching master a))
      (List.concat logs).
Proof.
  rewrite merged_years, filter_flat_map.
  apply flat_map_ext. intros a. apply join_row_resolved.
Qed.

Section WithClock.
Variable to_datetime : list string -> option (list (option Z)).

(** The merge in one case analysis on the resolved rows. *)
Lemma merge_eq (master : list Entry.row) (logs : list (list Agg.row)) :
  merge_logs_and_index to_datetime master logs =
  match flat_map (fun a => map (Resolve.joined a) (Resolve.matching master a))
          (List.concat logs) with
  | [] => Returned []
  | final_logs =>
      match finalize_rows to_datetime final_logs with
      | Some rows => Returned (Frame.sort_values merged_leb rows)
      | None => Raised
      end
  end.
Proof.
  rewrite <- final_logs_eq. unfold merge_logs_and_index.
  destruct master as [|e master]; cbn [LogAggregator.empty].
  - rewrite final_logs_eq.
    assert (H : flat_map (fun a => map (Resolve.joined a) (Resolve.matching [] a))
                  (List.concat logs) = []).
    { induction (List.concat logs); simpl; auto. }
    now rewrite H.
  - destruct (map (merge_year (e :: master))
                (filter (fun y => negb (LogAggregator.empty y)) logs))
      as [|f fs]; [reflexivity|].
    cbn [LogAggregator.empty].
    now destruct (filter resolved (List.concat (f :: fs))).
Qed.

Lemma assign_dates_length (rows : list Joined.row) (dates : list (option Z))
    (ms : list Merged.row) :
  assign_dates rows dates = Some ms ->
  List.length ms = List.length rows /\ List.length dates = List.length rows.
Proof.
  revert dates ms. induction rows as [|j rows IH]; intros [|d dates] ms;
    simpl; try discriminate.
  - intros E. now injection E as <-.
  - destruct (assign_dates rows dates) as [ms0|] eqn:E0; [|discriminate].
    intros E. injection E as <-. destruct (IH dates ms0 E0) as [H1 H2].
    simpl. split; congruence.
Qed.

Lemma finalize_rows_length (rows : list Joined.row) (ms : list Merged.row) :
  finalize_rows to_datetime rows = Some ms ->
  List.length ms = List.length rows.
Proof.
  unfold finalize_rows.
  destruct (to_datetime (map Joined.date rows)) as [dates|]; [|discriminate].
  intros E. now apply assign_dates_length in E.
Qed.

(** The conversion fails to give the new column only when the call
    raises or returns a column of another length. *)
Lemma finalize_rows_None (rows : list Joined.row) :
  finalize_rows to_datetime rows = None <->
  to_datetime (map Joined.date rows) = None \/
  exists dates,
    to_datetime (map Joined.date rows) = Some dates /\
    List.length dates <> List.length (map Joined.date rows).
Proof.
  unfold finalize_rows. rewrite length_map.
  destruct (to_datetime (map Joined.date rows)) as [dates|].
  - split.
    + intros E. right. exists dates. split; [reflexivity|]. intros Hlen.
      destruct (MergeFacts.assign_dates_total rows dates Hlen) as (ms & E').
      congruence.
    + intros [H|(dates' & E & Hlen)]; [discriminate|]. injection E as <-.
      destruct (assign_dates rows dates) as [ms|] eqn:E'; [|reflexivity].
      apply assign_dates_length in E' as [_ E']. contradiction.
  - split; auto.
Qed.

(** Each row comes out with the timestamp at its own position. *)
Lemma assign_dates_keeps (rows : list Joined.row) (dates : list (option Z))
    (ms : list Merged.row) (i : nat) (j : Joined.row) :
  assign_dates rows dates = Some ms -> nth_error rows i = Some j ->
  exists d, nth_error dates i = Some d /\ In (finalize_row j d) ms.
Proof.
  revert dates ms i. induction rows as [|j0 rows IH]; intros [|d dates] ms i;
    simpl; try discriminate.
  - intros _ H. destruct i; discriminate.
  - destruct (assign_dates rows dates) as [ms0|] eqn:E0; [|discriminate].
    intros E Hi. injection E as <-. destruct i as [|i]; simpl in *.
    + injection Hi as ->. exists d. auto.
    + destruct (IH dates ms0 i E0 Hi) as (d' & Hd' & Hin). exists d'. auto.
Qed.

End WithClock.

(** The column the conversion sees holds the dates of the resolved rows. *)
Lemma final_dates (master : list Entry.row) (logs : list (list Agg.row)) :
  map Joined.date
    (flat_map (fun a => map (Resolve.joined a) (Resolve.matching master a))
       (List.concat logs))
  = Resolve.dates master logs.
Proof.
  unfold Resolve.dates.
  induction (List.concat logs) as [|a l IH]; simpl; [reflexivity|].
  rewrite map_app, IH, map_map. reflexivity.
Qed.

Lemma date_column_eq (master : list Entry.row) (logs : list (list Agg.row)) :
  date_column master logs = Resolve.dates master logs.
Proof. unfold date_column. now rewrite final_logs_eq, final_dates. Qed.

Lemma form_leb_total (x y : option string) :
  form_leb x y = true \/ form_leb y x = true.
Proof. destruct x, y; simpl; auto. apply String.leb_total. Qed.

Lemma form_leb_trans (x y z : option string) :
  form_leb x y = true -> form_leb y z = true -> form_leb x z = true.
Proof.
  destruct x, y, z; simpl; try discriminate; auto.
  apply OrderFacts.string_leb_trans.
Qed.

Lemma z_compare_lt_trans (a b c : Z) :
  (a ?= b) = Lt -> (b ?= c) = Lt -> (a ?= c) = Lt.
Proof.
  intros H1 H2. change (a < b) in H1. change (b < c) in H2.
  change (a < c). lia.
Qed.

Lemma date_compare_antisym (x y : option Z) :
  date_compare y x = CompOpp (date_compare x y).
Proof. destruct x, y; simpl; auto. apply Z.compare_antisym. Qed.

Lemma date_compare_eq (x y : option Z) : date_compare x y = Eq -> x = y.
Proof.
  destruct x, y; simpl; try discriminate; auto.
  intros H. apply Z.compare_eq in H. now subst.
Qed.

Lemma date_compare_refl (x : option Z) : date_compare x x = Eq.
Proof. destruct x; simpl; auto. apply Z.compare_refl. Qed.

Lemma date_compare_lt_trans (x y z : option Z) :
  date_compare x y = Lt -> date_compare y z = Lt -> date_compare x z = Lt.
Proof.
  destruct x, y, z; simpl; try discriminate; auto.
  apply z_compare_lt_trans.
Qed.

Lemma merged_leb_total (x y : Merged.row) :
  merged_leb x y = true \/ merged_leb y x = true.
Proof.
  unfold merged_leb.
  rewrite (Z.compare_antisym (Merged.cik x) (Merged.cik y)),
    (date_compare_antisym (Merged.date x) (Merged.date y)).
  destruct (Merged.cik x ?= Merged.cik y); cbn [CompOpp]; auto.
  destruct (date_compare (Merged.date x) (Merged.date y)); cbn [CompOpp]; auto.
  apply form_leb_total.
Qed.

Lemma merged_leb_trans (x y z : Merged.row) :
  merged_leb x y = true -> merged_leb y z = true -> merged_leb x z = true.
Proof.
  unfold merged_leb.
  destruct (Merged.cik x ?= Merged.cik y) eqn:C12; try discriminate;
    destruct (Merged.cik y ?= Merged.cik z) eqn:C23; try discriminate.
  - apply Z.compare_eq in C12, C23. rewrite C12, C23, Z.compare_refl.
    destruct (date_compare (Merged.date x) (Merged.date y)) eqn:D12;
      try discriminate;
      destruct (date_compare (Merged.date y) (Merged.date z)) eqn:D23;
      try discriminate.
    + apply date_compare_eq in D12, D23. rewrite D12, D23, date_compare_refl.
      apply form_leb_trans.
    + apply date_compare_eq in D12. rewrite D12, D23. auto.
    + apply date_compare_eq in D23. rewrite <- D23, D12. auto.
    + now rewrite (date_compare_lt_trans _ _ _ D12 D23).
  - apply Z.compare_eq in C12. rewrite C12, C23. auto.
  - apply Z.compare_eq in C23. rewrite <- C23, C12. auto.
  - now rewrite (z_compare_lt_trans _ _ _ C12 C23).
Qed.

End MergeShape.

(** X14: the returned frame has one row per pair of a log row and an
    index entry that resolves it (same key, form type and filing date
    present): a log row is repeated once for every such entry. *)
Theorem merge_row_count
    (to_datetime : list string -> option (list (option Z))) (master : list Entry.row)
    (logs : list (list Agg.row)) (out : list Merged.row) :
  Reconciliation.merge_logs_and_index to_datetime master logs = Returned out ->
  List.length out =
  List.length (flat_map (Resolve.matching master) (List.concat logs)).
Proof.
  rewrite MergeShape.merge_eq.
  assert (Hlen : forall l : list Agg.row,
             List.length
               (flat_map (fun a => map (Resolve.joined a) (Resolve.matching master a)) l)
             = List.length (flat_map (Resolve.matching master) l)).
  { induction l as [|a l IH]; simpl; [reflexivity|].
    now rewrite !length_app, length_map, IH. }
  rewrite <- Hlen.
  destruct (flat_map _ (List.concat logs)) as [|j final] eqn:E.
  - intros H. now injection H as <-.
  - destruct (Reconciliation.finalize_rows to_datetime (j :: final))
      as [rows|] eqn:Er; [|discriminate].
    intros H. injection H as <-.
    rewrite <- (MergeShape.finalize_rows_length _ _ _ Er).
    symmetry. apply Permutation_length, FrameFacts.sort_values_perm.
Qed.

Lemma merge_row_count_witness :
  let clock := fun col : list string =>
    Some (map (fun s => Some (Z.of_nat (String.length s))) col) in
  let master := [Entry.mk (Some "10-K") (Some "2011-03-01")
                   "edgar/data/12/000111000001";
                 Entry.mk (Some "10-K/A") (Some "2011-04-01")
                   "edgar/data/12/000111000001"] in
  let logs := [[Agg.mk "2011-03-02" 12 "0001-11-000001" 2 1 0 0 1]] in
  List.length
    [Merged.mk (Some 10) 12 "0001-11-000001" 2 1 0 0 1 (Some "10-K") (Some "2011-03-01");
     Merged.mk (Some 10) 12 "0001-11-000001" 2 1 0 0 1 (Some "10-K/A") (Some "2011-04-01")]
  = 2%nat.
Proof.
  intros clock master logs.
  exact (merge_row_count clock master logs _ eq_refl).
Defined.

(** X15: when the merge returns, every log row resolved by an index
    entry is in the returned frame with that entry's form type and
    filing date, its own filer id, counts and normalised accession, and
    as its date the timestamp the conversion gave at the position of
    that row's date in the column. *)
Theorem merge_keeps_resolved_rows
    (to_datetime : list string -> option (list (option Z)))
    (master : list Entry.row)
    (logs : list (list Agg.row)) (out : list Merged.row)
    (a : Agg.row) (e : Entry.row) :
  Reconciliation.merge_logs_and_index to_datetime master logs = Returned out ->
  In a (List.concat logs) ->
  In e (Resolve.matching master a) ->
  exists m dates i,
    In m out /\
    to_datetime (Resolve.dates master logs) = Some dates /\
    nth_error (Resolve.dates master logs) i = Some (Agg.date a) /\
    nth_error dates i = Some (Merged.date m) /\
    Merged.cik m = Agg.cik a /\
    Merged.accession m = normalize_accession (Agg.accession a) /\
    Merged.nr_total m = Agg.nr_total a /\
    Merged.htm m = Agg.htm a /\ Merged.txt m = Agg.txt a /\
    Merged.xbrl m = Agg.xbrl a /\ Merged.other m = Agg.other a /\
    Merged.form m = Entry.Form_Type e /\
    Merged.filing_date m = Entry.Date_Filed e.
Proof.
  rewrite MergeShape.merge_eq, <- MergeShape.final_dates. intros Hout Ha He.
  assert (Hj : In (Resolve.joined a e)
                 (flat_map (fun a => map (Resolve.joined a) (Resolve.matching master a))
                    (List.concat logs))).
  { apply in_flat_map. exists a. split; [exact Ha|]. now apply in_map. }
  destruct (flat_map _ (List.concat logs)) as [|j0 final]; [contradiction|].
  unfold Reconciliation.finalize_rows in Hout.
  destruct (to_datetime (map Joined.date (j0 :: final))) as [dates|] eqn:Ed;
    [|discriminate].
  destruct (Reconciliation.assign_dates (j0 :: final) dates) as [rows|] eqn:Er;
    [|discriminate].
  injection Hout as <-.
  apply In_nth_error in Hj as (i & Hi).
  destruct (MergeShape.assign_dates_keeps _ _ _ _ _ Er Hi) as (d & Hd & Hm).
  exists (Reconciliation.finalize_row (Resolve.joined a e) d), dates, i.
  split; [now apply FrameFacts.sort_values_In|].
  split; [reflexivity|].
  split; [now rewrite (map_nth_error Joined.date _ _ Hi)|].
  split; [exact Hd|]. cbn. repeat split.
Qed.

Lemma merge_keeps_resolved_rows_witness :
  let clock := fun col : list string =>
    Some (map (fun s => Some (Z.of_nat (String.length s))) col) in
  let e := Entry.mk (Some "10-K") (Some "2011-03-01") "edgar/data/12/000111000001" in
  let a := Agg.mk "2011-03-02" 12 "0001-11-000001" 2 1 0 0 1 in
  exists m,
    In m [Merged.mk (Some 10) 12 "0001-11-000001" 2 1 0 0 1 (Some "10-K") (Some "2011-03-01")] /\
    Merged.form m = Some "10-K".
Proof.
  intros clock e a.
  destruct (merge_keeps_resolved_rows clock [e] [[a]] _ a e eq_refl
              (or_introl eq_refl) (or_introl eq_refl))
    as (m & dates & i & Hm & _ & _ & _ & _ & _ & _ & _ & _ & _ & _ & Hf & _).
  exists m. split; [exact Hm|exact Hf].
Defined.

(** X16: the date conversion is called once, on the dates of the
    resolved rows only, and not at all when no row is resolved.  So,
    given that a conversion that returns gives one timestamp per cell,
    the merge lets an exception escape exactly when some row is
    resolved and the conversion raises on the column of the resolved
    rows' dates; the date of a row that no index entry resolves is not
    in that column. *)
Theorem merge_raises_iff_date_column_fails
    (to_datetime : list string -> option (list (option Z)))
    (master : list Entry.row) (logs : list (list Agg.row)) :
  (forall col dates, to_datetime col = Some dates ->
                     List.length dates = List.length col) ->
  (Reconciliation.merge_logs_and_index to_datetime master logs = Raised <->
   Resolve.dates master logs <> [] /\
   to_datetime (Resolve.dates master logs) = None).
Proof.
  intros Hlen. rewrite MergeShape.merge_eq, <- MergeShape.final_dates.
  destruct (flat_map _ (List.concat logs)) as [|j0 rest] eqn:E.
  - split; [discriminate|]. now intros [H _].
  - destruct (Reconciliation.finalize_rows to_datetime (j0 :: rest))
      as [rows|] eqn:Er.
    + split; [discriminate|]. intros [_ Hnone].
      unfold Reconciliation.finalize_rows in Er. now rewrite Hnone in Er.
    + split; [|reflexivity]. intros _. split; [discriminate|].
      apply MergeShape.finalize_rows_None in Er
        as [Hnone|(dates & Hd & Hne)]; [exact Hnone|].
      now contradiction (Hne (Hlen _ _ Hd)).
Qed.

Lemma merge_raises_iff_date_column_fails_witness :
  let clock := fun col : list string =>
    if existsb (String.eqb "not a date") col then None
    else Some (map (fun s => Some (Z.of_nat (String.length s))) col) in
  let e := Entry.mk (Some "10-K") (Some "2011-03-01") "edgar/data/12/000111000001" in
  let a := Agg.mk "not a date" 12 "0001-11-000001" 2 1 0 0 1 in
  let lost := Agg.mk "not a date" 13 "0009-11-000009" 1 0 1 0 0 in
  Reconciliation.merge_logs_and_index clock [e] [[a]] = Raised /\
  Reconciliation.merge_logs_and_index clock [e] [[lost]] <> Raised.
Proof.
  intros clock e a lost.
  assert (Hlen : forall col dates, clock col = Some dates ->
                                   List.length dates = List.length col).
  { intros col dates. unfold clock.
    destruct (existsb (String.eqb "not a date") col); [discriminate|].
    intros E. injection E as <-. apply length_map. }
  split.
  - apply (proj2 (merge_raises_iff_date_column_fails clock [e] [[a]] Hlen)).
    split; [discriminate|reflexivity].
  - intros H.
    apply (proj1 (merge_raises_iff_date_column_fails clock [e] [[lost]] Hlen)) in H
      as [H _].
    now contradiction H.
Defined.

(** X17: the returned frame is in ascending order of [(cik, date,
    form)]: each row is at most every later row in that order. *)
Theorem merge_output_ascends
    (to_datetime : list string -> option (list (option Z))) (master : list Entry.row)
    (logs : list (list Agg.row)) (out : list Merged.row) :
  Reconciliation.merge_logs_and_index to_datetime master logs = Returned out ->
  StronglySorted (fun x y => Reconciliation.merged_leb x y = true) out.
Proof.
  rewrite MergeShape.merge_eq.
  destruct (flat_map _ (List.concat logs)) as [|j final].
  - intros H. injection H as <-. constructor.
  - destruct (Reconciliation.finalize_rows to_datetime (j :: final));
      [|discriminate].
    intros H. injection H as <-.
    apply (OrderFacts.sort_values_sorted Reconciliation.merged_leb
             MergeShape.merged_leb_total MergeShape.merged_leb_trans).
Qed.

Lemma merge_output_ascends_witness :
  let clock := fun col : list string =>
    Some (map (fun s => Some (Z.of_nat (String.length s))) col) in
  let master := [Entry.mk (Some "10-K") (Some "2011-03-01") "edgar/data/12/1";
                 Entry.mk (Some "8-K") (Some "2011-03-05") "edgar/data/7/2"] in
  let logs := [[Agg.mk "2011-03-02" 12 "1" 2 1 0 0 1;
                Agg.mk "2011-03-02" 7 "2" 1 1 0 0 0]] in
  StronglySorted (fun x y => Reconciliation.merged_leb x y = true)
    [Merged.mk (Some 10) 7 "2" 1 1 0 0 0 (Some "8-K") (Some "2011-03-05");
     Merged.mk (Some 10) 12 "1" 2 1 0 0 1 (Some "10-K") (Some "2011-03-01")].
Proof.
  intros clock master logs.
  exact (merge_output_ascends clock master logs _ eq_refl).
Defined.

(** ** Header scan, file names and the files a log file touches *)

Module TextFacts.
Import PyText.

Lemma prefix_app (sub s : string) :
  String.prefix sub s = true <-> exists post, s = sub ++ post.
Proof.
  revert s. induction sub as [|a sub IH]; intros s.
  - split; [|now destruct s]. intros _. now exists s.
  - destruct s as [|b s]; simpl.
    + split; [discriminate|]. now intros (post & E).
    + destruct (ascii_dec a b) as [->|Hne].
      * rewrite IH. split; intros (post & E); exists post; congruence.
      * split; [discriminate|]. intros (post & E). congruence.
Qed.

(** [sub in s] says that [s] is some text, then [sub], then some text. *)
Lemma contains_spec (sub s : string) :
  contains sub s = true <-> exists pre post, s = pre ++ sub ++ post.
Proof.
  induction s as [|c s IH].
  - cbn [contains]. destruct (String.prefix sub "") eqn:E.
    + split; [|reflexivity]. intros _. apply prefix_app in E as (post & E).
      now exists "", post.
    + split; [discriminate|]. intros (pre & post & E').
      destruct pre; [|discriminate]. simpl in E'.
      assert (H : String.prefix sub "" = true) by (apply prefix_app; eauto).
      congruence.
  - cbn [contains]. destruct (String.prefix sub (String c s)) eqn:E.
    + split; [|reflexivity]. intros _. apply prefix_app in E as (post & E).
      now exists "", post.
    + rewrite IH. split.
      * intros (pre & post & ->). now exists (String c pre), post.
      * intros (pre & post & E'). destruct pre as [|c' pre].
        -- simpl in E'.
           assert (H : String.prefix sub (String c s) = true)
             by (apply prefix_app; eauto).
           congruence.
        -- simpl in E'. injection E' as _ ->. eauto.
Qed.

Lemma replace_log_step (c : ascii) (s : string) :
  String.prefix "log" (String c s) = false ->
  replace_log (String c s) = String c (replace_log s).
Proof.
  intros H.
  destruct (Ascii.eqb_spec c "l") as [->|Hc].
  2:{ destruct c as [[] [] [] [] [] [] [] []]; try reflexivity.
      now contradiction Hc. }
  destruct s as [|c2 s]; [reflexivity|].
  destruct (Ascii.eqb_spec c2 "o") as [->|Hc2].
  2:{ destruct c2 as [[] [] [] [] [] [] [] []]; try reflexivity.
      now contradiction Hc2. }
  destruct s as [|c3 s]; [reflexivity|].
  destruct (Ascii.eqb_spec c3 "g") as [->|Hc3].
  - exfalso. assert (E : String.prefix "log" (String "l" (String "o" (String "g" s))) = true).
    { apply prefix_app. now exists s. }
    congruence.
  - destruct c3 as [[] [] [] [] [] [] [] []]; try reflexivity.
    now contradiction Hc3.
Qed.

Lemma replace_log_without (s : string) :
  contains "log" s = false -> replace_log s = s.
Proof.
  induction s as [|c s IH]; [reflexivity|].
  cbn [contains]. destruct (String.prefix "log" (String c s)) eqn:E;
    [discriminate|].
  intros H. rewrite (replace_log_step c s E). now rewrite (IH H).
Qed.

End TextFacts.

Module ScanFacts.
Import IndexHeader.

Lemma scan_first (n i : nat) (lines : list string) (line : string) :
  nth_error lines i = Some line ->
  PyText.contains signature line = true ->
  (forall j l, (j < i)%nat -> nth_error lines j = Some l ->
               PyText.contains signature l = false) ->
  scan n lines = Some (n + i)%nat.
Proof.
  revert n i. induction lines as [|l0 lines IH]; intros n i Hi Hc Hfirst.
  - destruct i; discriminate.
  - destruct i as [|i]; simpl in *.
    + injection Hi as ->. rewrite Hc. f_equal. lia.
    + rewrite (Hfirst 0%nat l0 ltac:(lia) eq_refl).
      rewrite (IH (S n) i Hi Hc); [f_equal; lia|].
      intros j l Hj Hl. apply (Hfirst (S j) l); [lia|exact Hl].
Qed.

Lemma scan_none (n : nat) (lines : list string) :
  (forall l, In l lines -> PyText.contains signature l = false) ->
  scan n lines = None.
Proof.
  revert n. induction lines as [|l0 lines IH]; intros n H; [reflexivity|].
  simpl. rewrite (H l0 (or_introl eq_refl)). apply IH.
  intros l Hl. apply H. now right.
Qed.

End ScanFacts.

(** X18: the header scan yields the number of the first line that holds
    the header signature somewhere in it, and 9 when no line does,
    however short the file is. *)
Theorem header_scan_first_or_default (lines : list string) :
  (forall i line pre post,
      nth_error lines i = Some line ->
      line = pre ++ IndexHeader.signature ++ post ->
      (forall j l pre' post', (j < i)%nat -> nth_error lines j = Some l ->
                              l <> pre' ++ IndexHeader.signature ++ post') ->
      IndexHeader.skip_lines lines = i) /\
  ((forall l pre post, In l lines -> l <> pre ++ IndexHeader.signature ++ post) ->
   IndexHeader.skip_lines lines = 9%nat).
Proof.
  assert (Hno : forall l,
             (forall pre post, l <> pre ++ IndexHeader.signature ++ post) ->
             PyText.contains IndexHeader.signature l = false).
  { intros l H. destruct (PyText.contains IndexHeader.signature l) eqn:E;
      [|reflexivity].
    apply TextFacts.contains_spec in E as (pre & post & E).
    now contradiction (H pre post). }
  split.
  - intros i line pre post Hi Hline Hfirst.
    unfold IndexHeader.skip_lines.
    rewrite (ScanFacts.scan_first 0 i lines line Hi); [reflexivity| |].
    + apply TextFacts.contains_spec. eauto.
    + intros j l Hj Hl. apply Hno. intros pre' post'.
      now apply (Hfirst j l pre' post').
  - intros H. unfold IndexHeader.skip_lines.
    rewrite ScanFacts.scan_none; [reflexivity|].
    intros l Hl. apply Hno. intros pre post. now apply H.
Qed.

Lemma header_scan_first_or_default_witness :
  IndexHeader.skip_lines
    ["Description: Master Index"; "";
     "CIK|Company Name|Form Type|Date Filed|Filename"; "-----"] = 2%nat /\
  IndexHeader.skip_lines ["no header here"] = 9%nat.
Proof.
  split.
  - apply (proj1 (header_scan_first_or_default _) 2%nat
             "CIK|Company Name|Form Type|Date Filed|Filename" "" "");
      [reflexivity|reflexivity|].
    intros j l pre' post' Hj Hl E.
    assert (Hc : PyText.contains IndexHeader.signature l = true)
      by (apply TextFacts.contains_spec; eauto).
    destruct j as [|[|j]]; [| |lia]; cbn in Hl; injection Hl as <-;
      vm_compute in Hc; discriminate.
  - apply (proj2 (header_scan_first_or_default _)).
    intros l pre post [<-|[]] E.
    assert (Hc : PyText.contains IndexHeader.signature "no header here" = true)
      by (apply TextFacts.contains_spec; eauto).
    vm_compute in Hc. discriminate.
Defined.

(** X19: the name of a processed file.  A raw name that holds no [log]
    is kept whole after the prefix; a raw name that begins with [log]
    and holds no other [log] loses exactly that beginning. *)
Theorem processed_file_name
    (basename : string -> string) (join : string -> string -> string)
    (processed_log_prefix csv_path year_dir : string) :
  (PyText.contains "log" (basename csv_path) = false ->
   LogFile.processed_file_path basename join processed_log_prefix csv_path year_dir
   = join year_dir (processed_log_prefix ++ basename csv_path)) /\
  (forall rest,
      basename csv_path = "log" ++ rest ->
      PyText.contains "log" rest = false ->
      LogFile.processed_file_path basename join processed_log_prefix csv_path year_dir
      = join year_dir (processed_log_prefix ++ rest)).
Proof.
  unfold LogFile.processed_file_path. split.
  - intros H. now rewrite TextFacts.replace_log_without.
  - intros rest -> H.
    change (PyText.replace_log ("log" ++ rest)) with (PyText.replace_log rest).
    now rewrite TextFacts.replace_log_without.
Qed.

Lemma processed_file_name_witness :
  let basename := fun p : string => PyStr.final (PyStr.split "/" p) in
  let join := fun a b : string => a ++ "/" ++ b in
  LogFile.processed_file_path basename join "edgar_visits_"
    "./data/2011/log20110101.csv" "./data/2011"
  = "./data/2011/edgar_visits_20110101.csv".
Proof.
  intros basename join.
  apply (proj2 (processed_file_name basename join "edgar_visits_"
                  "./data/2011/log20110101.csv" "./data/2011") "20110101.csv");
    reflexivity.
Defined.

Module FileFacts.
Import LogFile.

Lemma remove_if_exists_at (fs : files) (path : string) :
  remove_if_exists fs path path = None.
Proof.
  unfold remove_if_exists. destruct (fs path) eqn:E; [|exact E].
  unfold remove. now rewrite String.eqb_refl.
Qed.

Lemma remove_if_exists_other (fs : files) (path p : string) :
  p <> path -> remove_if_exists fs path p = fs p.
Proof.
  intros H. unfold remove_if_exists. destruct (fs path); [|reflexivity].
  unfold remove. now apply String.eqb_neq in H as ->.
Qed.

Lemma write_at (fs : files) (path : string) (f : file) :
  write fs path f path = Some f.
Proof. unfold write. now rewrite String.eqb_refl. Qed.

Lemma write_other (fs : files) (path p : string) (f : file) :
  p <> path -> write fs path f p = fs p.
Proof. intros H. unfold write. now apply String.eqb_neq in H as ->. Qed.

End FileFacts.

(** X20: what one call of [_process_log_file] does to the files.  The
    raw csv is gone afterwards on every path through the call; no file
    other than the raw csv and the processed file is touched; when the
    raw file parses, rows are retained and the processed path can be
    written and differs from the raw path, the processed file holds the
    aggregated rows; and when the raw file does not parse, nothing is
    retained or the processed path cannot be written, only the raw csv
    is affected. *)
Theorem process_log_file_effect
    (basename : string -> string) (join : string -> string -> string)
    (writable : string -> bool) (prefixes : list string)
    (processed_log_prefix csv_path year_dir : string) (fs : LogFile.files) :
  let out_path :=
    LogFile.processed_file_path basename join processed_log_prefix csv_path year_dir in
  let fs' :=
    LogFile.process_log_file basename join writable prefixes
      processed_log_prefix csv_path year_dir fs in
  fs' csv_path = None /\
  (forall p, p <> csv_path -> p <> out_path -> fs' p = fs p) /\
  (forall logs rows,
      fs csv_path = Some (LogFile.LogCsv logs) ->
      LogAggregator._process_log_file prefixes logs = Some rows ->
      writable out_path = true -> out_path <> csv_path ->
      fs' out_path = Some (LogFile.Processed rows)) /\
  ((forall logs, fs csv_path = Some (LogFile.LogCsv logs) ->
                 LogAggregator._process_log_file prefixes logs = None \/
                 writable out_path = false) ->
   forall p, p <> csv_path -> fs' p = fs p).
Proof.
  intros out_path fs'. subst fs'. unfold LogFile.process_log_file.
  split; [apply FileFacts.remove_if_exists_at|].
  split; [|split].
  - intros p Hp Hout. rewrite FileFacts.remove_if_exists_other by exact Hp.
    unfold LogFile.try_process.
    destruct (fs csv_path) as [[logs|rows|]|]; try reflexivity.
    destruct (LogAggregator._process_log_file prefixes logs).
    + fold out_path. destruct (writable out_path); [|reflexivity].
      now apply FileFacts.write_other.
    + now apply FileFacts.remove_if_exists_other.
  - intros logs rows Hfs Hrows Hw Hne.
    rewrite FileFacts.remove_if_exists_other by exact Hne.
    unfold LogFile.try_process. rewrite Hfs, Hrows. fold out_path.
    rewrite Hw. apply FileFacts.write_at.
  - intros Hnone p Hp. rewrite FileFacts.remove_if_exists_other by exact Hp.
    unfold LogFile.try_process.
    destruct (fs csv_path) as [[logs|rows|]|] eqn:Hfs; try reflexivity.
    destruct (Hnone logs eq_refl) as [->|Hw].
    + now apply FileFacts.remove_if_exists_other.
    + destruct (LogAggregator._process_log_file prefixes logs).
      * fold out_path. now rewrite Hw.
      * now apply FileFacts.remove_if_exists_other.
Qed.

Lemma process_log_file_effect_witness :
  let basename := fun p : string => PyStr.final (PyStr.split "/" p) in
  let join := fun a b : string => a ++ "/" ++ b in
  let row := Raw.mk (Some "1.2.3.4") (Some "2011-01-01") (Some 12)
               (Some "0001-11-000001") (Some "htm") (Some 404) (Some 0) (Some 0) in
  let fs : LogFile.files := fun p =>
    if String.eqb p "d/log1.csv" then Some (LogFile.LogCsv [row]) else None in
  let fs' := LogFile.process_log_file basename join (fun _ => true) []
               "v_" "d/log1.csv" "d" fs in
  fs' "d/v_1.csv"
    = Some (LogFile.Processed [Agg.mk "2011-01-01" 12 "0001-11-000001" 1 1 0 0 0]) /\
  fs' "d/log1.csv" = None.
Proof.
  intros basename join row fs fs'.
  destruct (process_log_file_effect basename join (fun _ => true) []
              "v_" "d/log1.csv" "d" fs) as (Hgone & _ & Hout & _).
  split; [|exact Hgone].
  apply (Hout [row]); try reflexivity. discriminate.
Defined.

(** X21: the pipeline always ends; it halts before the merge exactly
    when no quarter that settles has a row, and otherwise it runs the
    merge on a non-empty index. *)
Theorem pipeline_halts_iff_no_index_row
    (to_datetime : list string -> option (list (option Z))) (w : MasterIndexBuilder.World)
    (index_years : list Z) (logs_by_year : list (list Agg.row)) :
  exists ending,
    Pipeline.run_pipeline to_datetime w index_years logs_by_year = Some ending /\
    (ending = Pipeline.Halted <->
     forall year q df r,
       In year index_years -> MasterIndexBuilder.settles w year q df ->
       ~ In r df) /\
    (ending <> Pipeline.Halted ->
     exists index,
       MasterIndexBuilder.run_master_index_download w index_years = Some index /\
       index <> [] /\
       ending = Pipeline.Merge
                  (Reconciliation.merge_logs_and_index to_datetime index
                     logs_by_year)).
Proof.
  unfold Pipeline.run_pipeline, MasterIndexBuilder.run_master_index_download.
  destruct (IndexFacts.for_years_runs w index_years MasterIndexBuilder.start)
    as (st & extra & E & Ed).
  rewrite E. cbn in Ed.
  set (index := MasterIndexBuilder.finish (MasterIndexBuilder.all_index_dfs st)).
  assert (Hrows : index = [] <->
                  forall year q df r,
                    In year index_years -> MasterIndexBuilder.settles w year q df ->
                    ~ In r df).
  { split.
    - intros Hnil year q df r Hy Hs Hr.
      destruct (IndexFacts.for_years_keeps w year q df index_years
                  MasterIndexBuilder.start Hy Hs) as (st' & E' & Hdf).
      rewrite E in E'. injection E' as <-.
      pose proof (IndexFacts.finish_In _ df r Hdf Hr) as Hin.
      fold index in Hin. rewrite Hnil in Hin. contradiction.
    - intros Hnone. destruct index as [|e rest] eqn:Ei; [reflexivity|].
      exfalso.
      assert (He : In e (MasterIndexBuilder.finish
                           (MasterIndexBuilder.all_index_dfs st)))
        by (fold index; rewrite Ei; now left).
      apply OriginFacts.finish_origin in He as (df & r & Hdf & Hr & _).
      apply OriginFacts.for_years_origin in E as (extra' & Ed' & _ & Hfrom).
      rewrite Ed' in Hdf. cbn in Hdf.
      destruct (Hfrom df Hdf) as (year & q & Hy & Hs).
      exact (Hnone year q df r Hy Hs Hr). }
  destruct index as [|e rest] eqn:Ei; cbn [LogAggregator.empty].
  - exists Pipeline.Halted. split; [reflexivity|]. split.
    + split; [intros _; now apply Hrows|reflexivity].
    + intros H. now contradiction H.
  - eexists. split; [reflexivity|]. split.
    + split; [discriminate|]. intros H. apply Hrows in H. discriminate.
    + intros _. exists (e :: rest). split; [reflexivity|].
      split; [discriminate|reflexivity].
Qed.

(** X22: the configured years run from the start year to the end year,
    both included, in ascending order without repetition; there is none
    when the end year is before the start year. *)
Theorem year_range_bounds (start_year end_year : Z) :
  (forall y, In y (Config.year_range start_year end_year)
             <-> start_year <= y <= end_year) /\
  List.length (Config.year_range start_year end_year)
    = Z.to_nat (end_year + 1 - start_year) /\
  (forall i y, nth_error (Config.year_range start_year end_year) i = Some y ->
               y = start_year + Z.of_nat i) /\
  (end_year < start_year <-> Config.year_range start_year end_year = []).
Proof.
  unfold Config.year_range.
  set (n := Z.to_nat (end_year + 1 - start_year)).
  split; [|split; [|split]].
  - intros y. rewrite in_map_iff. split.
    + intros (i & <- & Hi). apply in_seq in Hi. lia.
    + intros Hy. exists (Z.to_nat (y - start_year)). split; [lia|].
      apply in_seq. lia.
  - now rewrite length_map, length_seq.
  - intros i y Hi. rewrite nth_error_map in Hi.
    destruct (nth_error (seq 0 n) i) as [k|] eqn:Ek; [|discriminate].
    injection Hi as <-.
    assert (Hlt : (i < n)%nat).
    { rewrite <- (length_seq n 0). apply nth_error_Some. congruence. }
    rewrite (nth_error_nth' _ 0%nat) in Ek by (now rewrite length_seq).
    rewrite seq_nth in Ek by exact Hlt. injection Ek as <-. reflexivity.
  - subst n. split.
    + intros H.
      assert (E : Z.to_nat (end_year + 1 - start_year) = 0%nat) by lia.
      now rewrite E.
    + intros H.
      destruct (Z.to_nat (end_year + 1 - start_year)) eqn:En;
        [lia|discriminate].
Qed.

Lemma pipeline_halts_iff_no_index_row_witness :
  let clock := fun col : list string =>
    Some (map (fun s => Some (Z.of_nat (String.length s))) col) in
  let w : MasterIndexBuilder.World :=
    fun _ _ _ => MasterIndexBuilder.DownloadFails in
  Pipeline.run_pipeline clock w [2010; 2011]
    [[Agg.mk "2011-03-02" 12 "0001-11-000001" 2 1 0 0 1]]
  = Some Pipeline.Halted.
Proof.
  intros clock w.
  destruct (pipeline_halts_iff_no_index_row clock w [2010; 2011]
              [[Agg.mk "2011-03-02" 12 "0001-11-000001" 2 1 0 0 1]])
    as (ending & E & Hiff & _).
  rewrite E. f_equal. apply Hiff.
  intros year q df r _ (k & file & _ & _ & Hw & _). discriminate Hw.
Defined.

Lemma year_range_bounds_witness :
  In 2017 (Config.year_range 2011 2017) /\ Config.year_range 2011 2010 = [].
Proof.
  destruct (year_range_bounds 2011 2017) as (Hin & _).
  destruct (year_range_bounds 2011 2010) as (_ & _ & _ & Hnil).
  split; [apply Hin; lia|apply Hnil; lia].
Defined.

(** ** The accession read back as a number *)

Module AccessionFacts.
Import PyStr.

Lemma endswith_app (a p : string) : endswith (a ++ p) p = true.
Proof.
  induction a as [|c a IH]; cbn [append].
  - destruct p; cbn [endswith]; now rewrite String.eqb_refl.
  - cbn [endswith]. now destruct (String.eqb (String c (a ++ p)) p).
Qed.

Lemma string_length_app (a b : string) :
  String.length (a ++ b) = (String.length a + String.length b)%nat.
Proof. induction a as [|c a IH]; simpl; [reflexivity|now rewrite IH]. Qed.

Lemma substring_app (a b : string) :
  substring 0 (String.length a) (a ++ b) = a.
Proof.
  induction a as [|c a IH]; simpl; [now destruct b|now rewrite IH].
Qed.

End AccessionFacts.

(** X23: an accession that went through a numeric column and reads back
    with a trailing [.0] is keyed without it, and an accession without
    a dot is keyed as it is: the log-side key of [s.0] is the key built
    from [s]. *)
Theorem numeric_accession_is_restored (cik : Z) (s : string) :
  normalize_accession (s ++ ".0") = s /\
  acc_path_of_log cik (s ++ ".0") = log_key cik s /\
  (PyStr.lacks "." s = true -> acc_path_of_log cik s = log_key cik s).
Proof.
  assert (H : normalize_accession (s ++ ".0") = s).
  { unfold normalize_accession, PyStr.strip_dot0.
    rewrite AccessionFacts.endswith_app, AccessionFacts.string_length_app.
    replace (String.length s + String.length ".0" - 2)%nat
      with (String.length s) by (simpl; lia).
    apply AccessionFacts.substring_app. }
  split; [exact H|]. split.
  - unfold acc_path_of_log. now rewrite H.
  - intros Hs. unfold acc_path_of_log, normalize_accession.
    now rewrite PyStrFacts.strip_dot0_lacking.
Qed.

Lemma numeric_accession_is_restored_witness :
  acc_path_of_log 12 "000111000001" = log_key 12 "000111000001".
Proof.
  apply (proj2 (proj2 (numeric_accession_is_restored 12 "000111000001"))).
  reflexivity.
Defined.

(** X24: the stages compose on the counts: when every processed row read
    back satisfies [nr_total = htm + txt + xbrl + other], as the rows
    written by the aggregation step do, so does every row the merge
    returns. *)
Theorem merge_preserves_total
    (to_datetime : list string -> option (list (option Z))) (master : list Entry.row)
    (logs : list (list Agg.row)) (out : list Merged.row) :
  (forall a, In a (List.concat logs) ->
     Agg.nr_total a = Agg.htm a + Agg.txt a + Agg.xbrl a + Agg.other a) ->
  Reconciliation.merge_logs_and_index to_datetime master logs = Returned out ->
  forall m, In m out ->
    Merged.nr_total m = Merged.htm m + Merged.txt m + Merged.xbrl m + Merged.other m.
Proof.
  intros Hinv. rewrite MergeShape.merge_eq.
  destruct (flat_map _ (List.concat logs)) as [|j0 final] eqn:E.
  - intros H. injection H as <-. contradiction.
  - destruct (Reconciliation.finalize_rows to_datetime (j0 :: final))
      as [rows|] eqn:Er; [|discriminate].
    intros H m Hm. injection H as <-.
    apply FrameFacts.sort_values_In in Hm.
    destruct (MergeFacts.finalize_rows_In _ _ _ _ Er Hm) as (j & d & Hj & ->).
    rewrite <- E in Hj. apply in_flat_map in Hj as (a & Ha & Hj).
    apply in_map_iff in Hj as (e & <- & _).
    cbn. now apply Hinv.
Qed.

Lemma merge_preserves_total_witness :
  let clock := fun col : list string =>
    Some (map (fun s => Some (Z.of_nat (String.length s))) col) in
  let e := Entry.mk (Some "10-K") (Some "2011-03-01") "edgar/data/12/000111000001" in
  let a := Agg.mk "2011-03-02" 12 "0001-11-000001" 2 1 0 0 1 in
  let m := Merged.mk (Some 10) 12 "0001-11-000001" 2 1 0 0 1 (Some "10-K") (Some "2011-03-01") in
  Merged.nr_total m = Merged.htm m + Merged.txt m + Merged.xbrl m + Merged.other m.
Proof.
  intros clock e a m.
  apply (merge_preserves_total clock [e] [[a]] [m]).
  - intros a' [<-|[]]. reflexivity.
  - reflexivity.
  - left. reflexivity.
Defined.

(** X25: the prefix loaded for a netblock written as an address, a
    slash and a mask is the address without its last two characters,
    and every request address that starts with that text is a hit. *)
Theorem netblock_prefix_drops_two
    (body mask : string) (x y : ascii) :
  PyStr.lacks "/" (body ++ String x (String y "")) = true ->
  IpFilter.netblock_prefix
    (Some ((body ++ String x (String y "")) ++ String "/" mask)) = body /\
  (forall ip others,
      PyStr.startswith ip body = true ->
      IpFilter.target_ip_hit
        (IpFilter.netblock_prefix
           (Some ((body ++ String x (String y "")) ++ String "/" mask)) :: others)
        (Some ip) = true).
Proof.
  intros Hl.
  assert (E : IpFilter.netblock_prefix
                (Some ((body ++ String x (String y "")) ++ String "/" mask)) = body).
  { unfold IpFilter.netblock_prefix. cbn [PyStr.str_cell].
    rewrite (PyStrFacts.split_first_app "/" _ mask Hl).
    unfold PyStr.drop_last2. rewrite AccessionFacts.string_length_app.
    replace (String.length body + String.length (String x (String y "")) - 2)%nat
      with (String.length body) by (simpl; lia).
    apply AccessionFacts.substring_app. }
  split; [exact E|].
  intros ip others Hip. rewrite E. unfold IpFilter.target_ip_hit.
  cbn [existsb PyStr.str_cell]. now rewrite Hip.
Qed.

Lemma netblock_prefix_drops_two_witness :
  IpFilter.netblock_prefix (Some "192.168.0.0/16") = "192.168.0" /\
  IpFilter.target_ip_hit [IpFilter.netblock_prefix (Some "192.168.0.0/16")]
    (Some "192.168.0.77") = true.
Proof.
  destruct (netblock_prefix_drops_two "192.168.0" "16" "." "0" eq_refl)
    as (H1 & H2).
  split; [exact H1|]. apply (H2 "192.168.0.77" []). reflexivity.
Defined.
